(** * A batch ETL pipeline over tabular data

    The repository holds four scripts run one after the other, each reading
    the files the previous one wrote:

    - [collect_data.py] writes three synthetic raw datasets;
    - [process_data.py] derives calendar fields and flags and may upload the
      processed tables with an external command;
    - [direct_processing.py] groups the processed tables into five summary
      tables and writes them without a header line;
    - [prepare_for_visualization.py] reads the summaries back under a fixed
      list of column names and writes one CSV per dataset and a manifest.

    The scripts are embedded as functions over an explicit world: a file
    system, the lines printed so far and the external commands run so far.
    Python exceptions are a result type, and [try ... except] is a combinator
    of the monad that threads the world.  The table operations of the
    dataframe library (grouping, joining, binning, reading and writing
    delimited files) are written out as list functions. *)

From Stdlib Require Import ZArith QArith Qminmax String Ascii List.
From stdpp Require Import base option list gmap sets strings sorting pretty.
From Stdlib Require Import Lqa.
From Stdlib Require OrderedTypeEx.

Open Scope Z_scope.

(** ** Python values shared by the scripts *)

Module Py.

(** The exceptions the modelled calls can raise.  All of them derive from
    Python's [Exception]; only [CalledProcessError] is caught by name. *)
Inductive exn :=
| FileNotFoundError (path : string)
| FileExistsError (path : string)
| NotADirectoryError (path : string)
| IsADirectoryError (path : string)
| EmptyDataError
| ParserError (msg : string)
| DateParseError (text : string)
| TypeError (msg : string)
| KeyError (key : string)
| JSONDecodeError
| MergeError (msg : string)
| CalledProcessError (cmd : string) (returncode : Z) (stderr : string).

Inductive result (A : Type) :=
| Ok (a : A)
| Raise (e : exn).
Arguments Ok {A} a.
Arguments Raise {A} e.

#[export] Instance result_ret : MRet result := fun A a => Ok a.
#[export] Instance result_bind : MBind result := fun A B f m =>
  match m with Ok a => f a | Raise e => Raise e end.
#[export] Instance result_fmap : FMap result := fun A B f m =>
  match m with Ok a => Ok (f a) | Raise e => Raise e end.

Definition is_ok {A} (r : result A) : bool :=
  match r with Ok _ => true | Raise _ => false end.

(** [str(e)], as the handlers interpolate it into their messages. *)
Definition exn_str (e : exn) : string :=
  match e with
  | FileNotFoundError p => "[Errno 2] No such file or directory: '" +:+ p +:+ "'"
  | FileExistsError p => "[Errno 17] File exists: '" +:+ p +:+ "'"
  | NotADirectoryError p => "[Errno 20] Not a directory: '" +:+ p +:+ "'"
  | IsADirectoryError p => "[Errno 21] Is a directory: '" +:+ p +:+ "'"
  | EmptyDataError => "No columns to parse from file"
  | ParserError msg => "Error tokenizing data. " +:+ msg
  | DateParseError t => "Unknown datetime string format, unable to parse: " +:+ t
  | TypeError msg => msg
  | KeyError key => "'" +:+ key +:+ "'"
  | JSONDecodeError => "Expecting value: line 1 column 1 (char 0)"
  | MergeError msg => msg
  | CalledProcessError cmd rc _ =>
      "Command '" +:+ cmd +:+ "' returned non-zero exit status " +:+ pretty rc +:+ "."
  end.

(** [except Exception] catches every modelled exception;
    [except subprocess.CalledProcessError] only that one. *)
Definition Exception (e : exn) : bool := true.

Definition is_CalledProcessError (e : exn) : bool :=
  match e with CalledProcessError _ _ _ => true | _ => false end.

(** *** Strings and paths *)

Definition slash : ascii := "/"%char.

(** [needle in hay] on strings. *)
Fixpoint str_in (needle hay : string) : bool :=
  String.prefix needle hay ||
  match hay with
  | EmptyString => false
  | String _ rest => str_in needle rest
  end.

Definition ends_with_slash (s : string) : bool :=
  match String.get (Nat.pred (String.length s)) s with
  | Some c => Ascii.eqb c slash
  | None => false
  end.

(** [os.path.join a b] for two components. *)
Definition path_join (a b : string) : string :=
  match b with
  | String c _ =>
      if Ascii.eqb c slash then b
      else if String.eqb a EmptyString || ends_with_slash a then a +:+ b
      else a +:+ "/" +:+ b
  | EmptyString =>
      if String.eqb a EmptyString || ends_with_slash a then a else a +:+ "/"
  end.

(** Splits a path at its last slash: [(head, tail)] of [os.path.split]
    without the normalisation of repeated slashes. *)
Fixpoint split_last (s : string) : option string * string :=
  match s with
  | EmptyString => (None, EmptyString)
  | String c rest =>
      match split_last rest with
      | (Some h, t) => (Some (String c h), t)
      | (None, t) =>
          if Ascii.eqb c slash then (Some EmptyString, t) else (None, String c t)
      end
  end.

Definition basename (p : string) : string := snd (split_last p).

Definition dirname (p : string) : string :=
  match fst (split_last p) with Some h => h | None => EmptyString end.

(** The path itself preceded by each of its ancestors, outermost first:
    the directories [os.makedirs] walks through. *)
Fixpoint ancestors_from (acc s : string) : list string :=
  match s with
  | EmptyString => [acc]
  | String c rest =>
      if Ascii.eqb c slash
      then acc :: ancestors_from (acc +:+ "/") rest
      else ancestors_from (acc +:+ String c EmptyString) rest
  end.

Definition ancestors (p : string) : list string := ancestors_from EmptyString p.

End Py.

(** ** The dataframe library *)

Module Pandas.
Import Py.

(** *** Timestamps *)

Record Timestamp := mkTimestamp {
  year : Z; month : Z; day : Z; hour : Z; minute : Z; second : Z
}.

Definition is_leap (y : Z) : bool :=
  ((y mod 4 =? 0) && negb (y mod 100 =? 0)) || (y mod 400 =? 0).

Definition days_in_month (y m : Z) : Z :=
  if m =? 2 then (if is_leap y then 29 else 28)
  else if (m =? 4) || (m =? 6) || (m =? 9) || (m =? 11) then 30
  else 31.

Definition between (lo x hi : Z) : bool := (lo <=? x) && (x <=? hi).

Definition valid_timestamp (t : Timestamp) : bool :=
  between 1 (year t) 9999 && between 1 (month t) 12 &&
  between 1 (day t) (days_in_month (year t) (month t)) &&
  between 0 (hour t) 23 && between 0 (minute t) 59 && between 0 (second t) 59.

Definition digit_of (c : ascii) : option Z :=
  let n := Z.of_nat (nat_of_ascii c) in
  if between 48 n 57 then Some (n - 48) else None.

Definition char_of (d : Z) : ascii := ascii_of_nat (Z.to_nat (48 + d)).

Fixpoint read_digits (n : nat) (acc : Z) (s : string) : option (Z * string) :=
  match n with
  | O => Some (acc, s)
  | S n' =>
      match s with
      | String c rest =>
          match digit_of c with
          | Some d => read_digits n' (10 * acc + d) rest
          | None => None
          end
      | EmptyString => None
      end
  end.

Definition read_char (c : ascii) (s : string) : option string :=
  match s with
  | String c' rest => if Ascii.eqb c c' then Some rest else None
  | EmptyString => None
  end.

Definition read_time (s : string) : option (Z * Z * Z) :=
  '(h, s) ← read_digits 2 0 s;
  s ← read_char ":" s;
  '(mi, s) ← read_digits 2 0 s;
  s ← read_char ":" s;
  '(se, s) ← read_digits 2 0 s;
  match s with EmptyString => Some (h, mi, se) | _ => None end.

(** The texts [pd.to_datetime] is modelled on: the ISO layouts the pipeline
    itself writes, [YYYY-MM-DD], [YYYY-MM-DD HH:MM:SS] and
    [YYYY-MM-DDTHH:MM:SS], with calendar-valid fields.  Any other text is
    taken as unparseable. *)
Definition parse_timestamp (s : string) : option Timestamp :=
  '(y, s) ← read_digits 4 0 s;
  s ← read_char "-" s;
  '(m, s) ← read_digits 2 0 s;
  s ← read_char "-" s;
  '(d, s) ← read_digits 2 0 s;
  '(h, mi, se) ←
    match s with
    | EmptyString => Some (0, 0, 0)
    | String c rest =>
        if Ascii.eqb c " " || Ascii.eqb c "T" then read_time rest else None
    end;
  let t := mkTimestamp y m d h mi se in
  if valid_timestamp t then Some t else None.

Definition to_datetime (s : string) : result Timestamp :=
  match parse_timestamp s with
  | Some t => Ok t
  | None => Raise (DateParseError s)
  end.

Definition two_digits (n : Z) : string :=
  String (char_of (n / 10 mod 10)) (String (char_of (n mod 10)) EmptyString).

Definition four_digits (n : Z) : string :=
  String (char_of (n / 1000 mod 10)) (String (char_of (n / 100 mod 10)) (two_digits n)).

(** [strftime('%Y-%m-%d')], also the text of [.dt.date] in a CSV file. *)
Definition date_str (t : Timestamp) : string :=
  four_digits (year t) +:+ "-" +:+ two_digits (month t) +:+ "-" +:+ two_digits (day t).

Definition time_str (t : Timestamp) : string :=
  two_digits (hour t) +:+ ":" +:+ two_digits (minute t) +:+ ":" +:+ two_digits (second t).

(** The timestamp a date alone stands for. *)
Definition midnight (t : Timestamp) : Timestamp :=
  mkTimestamp (year t) (month t) (day t) 0 0 0.

(** The text of a timestamp column in a CSV file. *)
Definition timestamp_str (t : Timestamp) : string := date_str t +:+ " " +:+ time_str t.

(** [.dt.day_name()]: Sakamoto's congruence, 0 for Sunday. *)
Definition weekday (t : Timestamp) : Z :=
  let y := if month t <? 3 then year t - 1 else year t in
  let off := nth (Z.to_nat (month t - 1)) [0; 3; 2; 5; 0; 3; 5; 1; 4; 6; 2; 4] 0 in
  (y + y / 4 - y / 100 + y / 400 + off + day t) mod 7.

Definition day_name (t : Timestamp) : string :=
  nth (Z.to_nat (weekday t))
    ["Sunday"; "Monday"; "Tuesday"; "Wednesday"; "Thursday"; "Friday"; "Saturday"]
    EmptyString.

(** *** Cells and frames *)

(** A column label is text, or a position when [read_csv] gets no names. *)
Inductive label := LStr (s : string) | LInt (n : Z).
Coercion LStr : string >-> label.

#[export] Instance label_eq_dec : EqDecision label.
Proof. solve_decision. Defined.

(** Floats are kept as exact rationals: no claim depends on rounding. *)
Inductive Cell :=
| CStr (s : string)
| CInt (z : Z)
| CFloat (q : Q)
| CBool (b : bool)
| CTime (t : Timestamp)
| CNaN.

Record DataFrame := mkFrame { columns : list label; rows : list (list Cell) }.

Definition len (df : DataFrame) : nat := length (rows df).

Definition opt_cell {A} (f : A → Cell) (o : option A) : Cell :=
  match o with Some a => f a | None => CNaN end.

Fixpoint index_of (name : label) (cols : list label) : option nat :=
  match cols with
  | [] => None
  | c :: cols' => if decide (c = name) then Some O else S <$> index_of name cols'
  end.

(** [name in df.columns] *)
Definition has_column (name : label) (df : DataFrame) : bool :=
  bool_decide (name ∈ columns df).

(** [df[name] = f(row)]: replaces the column when the label exists, appends
    it otherwise. *)
Definition assign (name : label) (f : list Cell → Cell) (df : DataFrame) : DataFrame :=
  match index_of name (columns df) with
  | Some i => mkFrame (columns df) ((fun r => <[i := f r]> r) <$> rows df)
  | None => mkFrame (columns df ++ [name]) ((fun r => r ++ [f r]) <$> rows df)
  end.

Definition cell_at (name : label) (df : DataFrame) (r : list Cell) : Cell :=
  match index_of name (columns df) with
  | Some i => default CNaN (r !! i)
  | None => CNaN
  end.

(** *** Delimited files *)

(** A delimited file is kept as its records, each the list of its fields,
    and a field as the value the reader infers from its text; quoting and
    number formatting are below the model.  An empty record is a blank
    line, which the reader skips. *)
Definition is_blank (l : list Cell) : bool :=
  match l with [] => true | _ => false end.

Definition pad (w : nat) (l : list Cell) : list Cell :=
  l ++ replicate (w - length l) CNaN.

(** [pd.read_csv(path, header=None, names=names)] on the records of the
    file.  The table is as wide as the first record or the names, whichever
    is longer; a longer record is a tokenizing error, a shorter one is
    filled with NaN.  With fewer names than fields the leading fields become
    the row index, which is not part of the columns.  Without names the
    columns are numbered, and an empty file has no columns to parse. *)
Definition read_csv_headerless (names : option (list label)) (lines : list (list Cell))
  : result DataFrame :=
  let lines := filter (fun l => is_blank l = false) lines in
  match lines with
  | [] =>
      match names with
      | Some ns => Ok (mkFrame ns [])
      | None => Raise EmptyDataError
      end
  | l0 :: _ =>
      let cols :=
        match names with
        | Some ns => ns
        | None => LInt <$> seqZ 0 (Z.of_nat (length l0))
        end in
      let width := Nat.max (length l0) (length cols) in
      if existsb (fun l => Nat.ltb width (length l)) lines
      then Raise (ParserError "Expected fewer fields")
      else Ok (mkFrame cols ((fun l => drop (width - length cols) (pad width l)) <$> lines))
  end.

(** The field a cell becomes in a CSV file: a timestamp is written as text,
    the other values are read back as they were written. *)
Definition csv_cell (c : Cell) : Cell :=
  match c with CTime t => CStr (timestamp_str t) | _ => c end.

(** [df.to_csv(path, index=False, header=False)] *)
Definition csv_records (df : DataFrame) : list (list Cell) :=
  (fun r : list Cell => csv_cell <$> r) <$> rows df.

Definition label_cell (l : label) : Cell :=
  match l with LStr s => CStr s | LInt n => CInt n end.

(** [df.to_csv(path, index=False)]: the header line, then the rows. *)
Definition csv_records_with_header (df : DataFrame) : list (list Cell) :=
  (label_cell <$> columns df) :: csv_records df.

(** [pd.to_datetime] on one cell of a column: text is parsed, a missing
    value stays missing, a timestamp is kept.  Numeric columns (epoch
    counts) and booleans are outside the files of this pipeline and are
    taken as a type error. *)
Definition to_datetime_cell (c : Cell) : result Cell :=
  match c with
  | CStr s => CTime <$> to_datetime s
  | CNaN => Ok CNaN
  | CTime t => Ok (CTime t)
  | _ => Raise (TypeError "cannot convert to datetime")
  end.

(** [df[name] = pd.to_datetime(df[name])] *)
Definition to_datetime_column (name : label) (df : DataFrame) : result DataFrame :=
  match index_of name (columns df) with
  | Some i =>
      rs ← mapM (fun r =>
                   c ← to_datetime_cell (default CNaN (r !! i));
                   mret (<[i := c]> r)) (rows df);
      mret (mkFrame (columns df) rs)
  | None => Ok df
  end.

(** A text [pd.to_datetime] accepts. *)
Definition readable_date (s : string) : Prop := is_ok (to_datetime s) = true.

(** A record whose first field is such a text. *)
Definition dated_record (r : list Cell) : Prop :=
  ∃ d rest, r = CStr d :: rest ∧ readable_date d.

(** *** Binning *)

(** [pd.cut(x, bins=bins, labels=labels)]: the label of the right-closed
    interval [(bins[i], bins[i+1]]] holding [x], missing when no interval
    does. *)
Fixpoint cut (bins : list Z) (labels : list string) (x : Z) : option string :=
  match bins, labels with
  | lo :: ((hi :: _) as bins'), l :: labels' =>
      if (lo <? x) && (x <=? hi) then Some l else cut bins' labels' x
  | _, _ => None
  end.

(** *** Grouping and aggregation *)

(** The order [groupby] sorts its keys in. *)
Class KeyOrd (K : Type) := key_leb : K → K → bool.

#[export] Instance string_ord : KeyOrd string := String.leb.
#[export] Instance Z_ord : KeyOrd Z := Z.leb.
#[export] Instance pair_ord {A B} `{EqDecision A, KeyOrd A, KeyOrd B} : KeyOrd (A * B) :=
  fun x y => if decide (x.1 = y.1) then key_leb x.2 y.2 else key_leb x.1 y.1.

Definition key_le {K} `{KeyOrd K} (a b : K) : Prop := key_leb a b = true.

#[export] Instance key_le_dec {K} `{KeyOrd K} (a b : K) : Decision (key_le a b) :=
  bool_eq_dec (key_leb a b) true.

(** The distinct keys, ascending. *)
Definition group_keys {R K} `{EqDecision K, KeyOrd K} (key : R → K) (df : list R) : list K :=
  merge_sort key_le (remove_dups (key <$> df)).

Definition group {R K} `{EqDecision K} (key : R → K) (df : list R) (k : K) : list R :=
  filter (fun r => key r = k) df.

(** [df.groupby(keys).agg(...).reset_index()], one output row per key
    computed by [agg] from the key and the rows of its group. *)
Definition groupby_agg {R K T} `{EqDecision K, KeyOrd K}
    (key : R → K) (agg : K → list R → T) (df : list R) : list T :=
  (fun k => agg k (group key df k)) <$> group_keys key df.

(** ['count'] of a column with no missing value. *)
Definition count {A} (xs : list A) : Z := Z.of_nat (length xs).

Definition sum_Z (xs : list Z) : Z := foldr Z.add 0 xs.

(** ['sum'] of a boolean column. *)
Definition sum_bool (bs : list bool) : Z :=
  sum_Z ((fun b : bool => if b then 1 else 0) <$> bs).

Definition sum_Q (xs : list Q) : Q := foldr Qplus 0%Q xs.

(** ['mean'], NaN on no value. *)
Definition mean (xs : list Q) : option Q :=
  match xs with
  | [] => None
  | _ => Some (Qred (sum_Q xs / inject_Z (count xs)))
  end.

Definition mean_Z (xs : list Z) : option Q := mean (inject_Z <$> xs).

(** ['mean'] of a column with missing values, which it skips. *)
Definition mean_skipna (xs : list (option Z)) : option Q := mean_Z (omap id xs).

Definition min_Q (xs : list Q) : option Q :=
  match xs with [] => None | x :: xs' => Some (foldr Qmin x xs') end.

Definition max_Q (xs : list Q) : option Q :=
  match xs with [] => None | x :: xs' => Some (foldr Qmax x xs') end.

(** [len(x.unique())] *)
Definition nunique {A} `{EqDecision A} (xs : list A) : Z := count (remove_dups xs).

(** [pd.merge(left, right, on=key)]: the inner join, in the order of the
    left rows. *)
Definition merge {L R K T} `{EqDecision K}
    (lkey : L → K) (rkey : R → K) (row : L → R → T) (left : list L) (right : list R)
  : list T :=
  l ← left; row l <$> filter (fun r => rkey r = lkey l) right.

(** *** The order of the group keys *)

(** The strict order of the keys. *)
Definition key_lt {K} `{KeyOrd K} (a b : K) : Prop := key_le a b ∧ a ≠ b.

(** The orders [groupby] sorts by are total orders. *)
Class KeyOrder (K : Type) `{KeyOrd K} := {
  key_le_trans : Transitive (key_le (K := K));
  key_le_total : Total (key_le (K := K));
  key_le_antisym : AntiSymm (=) (key_le (K := K))
}.

(** A cell of a datetime column: a timestamp, or NaT. *)
Definition is_datetime (c : Cell) : Prop :=
  match c with CTime _ | CNaN => True | _ => False end.

End Pandas.

(** ** The tables of the pipeline *)

(** The raw datasets, with the columns [collect_data.py] writes.  A table
    read from a file is kept as typed rows: [user_id] is the one cell the
    generator may leave empty. *)
Module collect_data.

Module WebLog.
Record t := mk {
  timestamp : string; ip_address : string; user_id : option string;
  method : string; endpoint : string; status_code : Z;
  response_time : Q; user_agent : string
}.
Definition columns : list string :=
  ["timestamp"; "ip_address"; "user_id"; "method"; "endpoint"; "status_code";
   "response_time"; "user_agent"].
End WebLog.

Module SocialPost.
Record t := mk {
  post_id : string; user_handle : string; timestamp : string; content : string;
  likes : Z; shares : Z; comments : Z;
  sentiment : string; category : string; platform : string
}.
Definition columns : list string :=
  ["post_id"; "user_handle"; "timestamp"; "content"; "likes"; "shares"; "comments";
   "sentiment"; "category"; "platform"].
End SocialPost.

Module SensorReading.
Record t := mk {
  timestamp : string; sensor_id : string; sensor_type : string; location : string;
  value : Q; battery_level : Z; status : string
}.
Definition columns : list string :=
  ["timestamp"; "sensor_id"; "sensor_type"; "location"; "value"; "battery_level";
   "status"].
End SensorReading.

(** [random.randint(a, b)] draws from the closed range. *)
Definition randint (a b x : Z) : Prop := a ≤ x ≤ b.

(** [battery_level = random.randint(10, 100)] in [generate_sensor_data]. *)
Definition generated_battery_level (x : Z) : Prop := randint 10 100 x.

(** The counts [generate_social_data] draws. *)
Definition generated_counts (p : SocialPost.t) : Prop :=
  randint 0 1000 (SocialPost.likes p) ∧ randint 0 200 (SocialPost.shares p) ∧
  randint 0 50 (SocialPost.comments p).

End collect_data.

(** The processed tables of [process_data.py], as the next script reads them
    from the CSV files: the raw columns followed by the derived ones. *)
Module processed.
Import Pandas.

Module WebLog.
Record t := mk {
  timestamp : Timestamp; ip_address : string; user_id : string;
  method : string; endpoint : string; status_code : Z;
  response_time : Q; user_agent : string;
  date : string; hour : Z; is_error : bool
}.
Definition columns : list string :=
  collect_data.WebLog.columns ++ ["date"; "hour"; "is_error"].
Definition cells (r : t) : list Cell :=
  [CTime (timestamp r); CStr (ip_address r); CStr (user_id r); CStr (method r);
   CStr (endpoint r); CInt (status_code r); CFloat (response_time r);
   CStr (user_agent r); CStr (date r); CInt (hour r); CBool (is_error r)].
End WebLog.

Module SocialPost.
Record t := mk {
  post_id : string; user_handle : string; timestamp : Timestamp; content : string;
  likes : Z; shares : Z; comments : Z;
  sentiment : string; category : string; platform : string;
  date : string; hour : Z; engagement_score : Z; sentiment_score : option Z
}.
Definition columns : list string :=
  collect_data.SocialPost.columns ++ ["date"; "hour"; "engagement_score"; "sentiment_score"].
Definition cells (r : t) : list Cell :=
  [CStr (post_id r); CStr (user_handle r); CTime (timestamp r); CStr (content r);
   CInt (likes r); CInt (shares r); CInt (comments r);
   CStr (sentiment r); CStr (category r); CStr (platform r);
   CStr (date r); CInt (hour r); CInt (engagement_score r);
   opt_cell CInt (sentiment_score r)].
End SocialPost.

Module SensorReading.
Record t := mk {
  timestamp : Timestamp; sensor_id : string; sensor_type : string; location : string;
  value : Q; battery_level : Z; status : string;
  date : string; hour : Z; is_active : bool; battery_category : option string
}.
Definition columns : list string :=
  collect_data.SensorReading.columns ++ ["date"; "hour"; "is_active"; "battery_category"].
Definition cells (r : t) : list Cell :=
  [CTime (timestamp r); CStr (sensor_id r); CStr (sensor_type r); CStr (location r);
   CFloat (value r); CInt (battery_level r); CStr (status r);
   CStr (date r); CInt (hour r); CBool (is_active r);
   opt_cell CStr (battery_category r)].
End SensorReading.

End processed.

(** The manifest [prepare_for_visualization.py] writes as JSON. *)
Module Manifest.
Import Pandas.

Record dataset := mkDataset {
  filename : string; record_count : nat; columns : list label; sample_path : string
}.

Record t := mk {
  project_name : string; generated_on : string; datasets : gmap string dataset
}.

End Manifest.

(** ** The world of a script: files, output, external commands *)

Module Os.
Import Py Pandas.

Inductive File :=
| WebAccessLogs (df : list collect_data.WebLog.t)
| SocialData (posts : list collect_data.SocialPost.t)
| SensorData (df : list collect_data.SensorReading.t)
| WebLogsProcessed (df : list processed.WebLog.t)
| SocialProcessed (df : list processed.SocialPost.t)
| SensorProcessed (df : list processed.SensorReading.t)
| Headerless (records : list (list Cell))
| Csv (df : DataFrame)
| Json (m : Manifest.t).

Record World := mkWorld {
  files : gmap string File;       (* the regular files, by path *)
  dirs : gset string;             (* the directories *)
  stdout : list string;           (* the lines printed so far *)
  commands : list string;         (* the shell commands run so far *)
  shell : string → Z * string;    (* exit status and stderr of a command *)
  clock : Timestamp;              (* [datetime.now()] *)
  join_error : option string      (* the error [pd.merge] raises in this run, if any *)
}.

Definition set_files (f : gmap string File) (w : World) : World :=
  mkWorld f (dirs w) (stdout w) (commands w) (shell w) (clock w) (join_error w).
Definition set_dirs (d : gset string) (w : World) : World :=
  mkWorld (files w) d (stdout w) (commands w) (shell w) (clock w) (join_error w).
Definition set_stdout (o : list string) (w : World) : World :=
  mkWorld (files w) (dirs w) o (commands w) (shell w) (clock w) (join_error w).
Definition set_commands (c : list string) (w : World) : World :=
  mkWorld (files w) (dirs w) (stdout w) c (shell w) (clock w) (join_error w).

(** A computation of a script: it may raise, and it changes the world
    either way. *)
Definition M (A : Type) : Type := World → result A * World.

#[export] Instance M_ret : MRet M := fun A a w => (Ok a, w).
#[export] Instance M_bind : MBind M := fun A B f m w =>
  match m w with
  | (Ok a, w') => f a w'
  | (Raise e, w') => (Raise e, w')
  end.

#[export] Instance M_fmap : FMap M := fun A B f m w =>
  match m w with
  | (Ok a, w') => (Ok (f a), w')
  | (Raise e, w') => (Raise e, w')
  end.

Definition raise {A} (e : exn) : M A := fun w => (Raise e, w).

Definition lift {A} (r : result A) : M A := fun w => (r, w).

(** [try: body except <catches> as e: handler e] *)
Definition try_except {A} (body : M A) (catches : exn → bool) (handler : exn → M A) : M A :=
  fun w =>
    match body w with
    | (Ok a, w') => (Ok a, w')
    | (Raise e, w') => if catches e then handler e w' else (Raise e, w')
    end.

(** [for x in xs: body x] *)
Fixpoint for_each {A} (xs : list A) (body : A → M unit) : M unit :=
  match xs with
  | [] => mret tt
  | x :: xs' => body x ;; for_each xs' body
  end.

(** The world after one more line of output. *)
Definition printed (line : string) (w : World) : World :=
  set_stdout (stdout w ++ [line]) w.

Definition print (line : string) : M unit := fun w => (Ok tt, printed line w).

(** The computation returns to its caller from [w]; it never raises when
    it does so from every world. *)
Definition returns {A} (m : M A) (w : World) : Prop := ∃ a w', m w = (Ok a, w').

Definition never_raises {A} (m : M A) : Prop := ∀ w, returns m w.

(** The exceptions a computation may raise all satisfy [P]. *)
Definition raises_only {A} (P : exn → bool) (m : M A) : Prop :=
  ∀ w e w', m w = (Raise e, w') → P e = true.

(** A projection of the world that a computation leaves as it found it,
    whether it returns or raises. *)
Definition preserves {X A} (proj : World → X) (m : M A) : Prop :=
  ∀ w, proj (m w).2 = proj w.

Definition is_file (p : string) (w : World) : bool := bool_decide (is_Some (files w !! p)).
Definition is_dir (p : string) (w : World) : bool := bool_decide (p ∈ dirs w).

Fixpoint mkdirs (target : string) (ps : list string) : M unit :=
  match ps with
  | [] => mret tt
  | p :: ps' =>
      fun w =>
        if is_file p w
        then (Raise (if String.eqb p target then FileExistsError p
                     else NotADirectoryError p), w)
        else mkdirs target ps' (set_dirs ({[p]} ∪ dirs w) w)
  end.

(** [os.makedirs(path, exist_ok=True)]: creates the missing directories
    along the path; a regular file in the way is an error. *)
Definition makedirs (path : string) : M unit := mkdirs path (ancestors path).

(** [os.path.exists(path)] *)
Definition path_exists (p : string) : M bool :=
  fun w => (Ok (is_file p w || is_dir p w), w).

Definition entries (p : string) (w : World) : list string :=
  basename <$> filter (fun q => dirname q = p)
                 ((map_to_list (files w)).*1 ++ elements (dirs w)).

(** [os.listdir(path)] *)
Definition listdir (p : string) : M (list string) :=
  fun w =>
    if is_dir p w then (Ok (entries p w), w)
    else if is_file p w then (Raise (NotADirectoryError p), w)
    else (Raise (FileNotFoundError p), w).

(** Opening [p] for writing replaces its content; the directory of [p]
    must exist ([p] is relative to the working directory, which does). *)
Definition write_file (p : string) (f : File) : M unit :=
  fun w =>
    if is_dir p w then (Raise (IsADirectoryError p), w)
    else if negb (String.eqb (dirname p) EmptyString) && negb (is_dir (dirname p) w)
    then (Raise (FileNotFoundError p), w)
    else (Ok tt, set_files (<[p := f]> (files w)) w).

Definition read_file (p : string) : M File :=
  fun w =>
    match files w !! p with
    | Some f => (Ok f, w)
    | None => (Raise (if is_dir p w then IsADirectoryError p else FileNotFoundError p), w)
    end.

(** [subprocess.run(cmd, shell=True, check=True, ...)] *)
Definition run (cmd : string) : M unit :=
  fun w =>
    let w' := set_commands (commands w ++ [cmd]) w in
    let '(rc, err) := shell w cmd in
    if rc =? 0 then (Ok tt, w') else (Raise (CalledProcessError cmd rc err), w').

(** [datetime.now()] *)
Definition now : M Timestamp := fun w => (Ok (clock w), w).

(** A pass over a list that inserts into a map the value of each item that
    has one. *)
Definition insert_some {A V} (key : A → string) (val : A → option V)
    (m : gmap string V) (xs : list A) : gmap string V :=
  foldl (fun m x => match val x with Some v => <[key x := v]> m | None => m end) m xs.

(** The records a file shows to a reader of delimited text.  A table with
    a header shows its header line first; the JSON files are no delimited
    text. *)
Definition records_of (f : File) : result (list (list Cell)) :=
  let table (cols : list string) (rs : list (list Cell)) :=
    Ok ((CStr <$> cols) :: ((fun r : list Cell => csv_cell <$> r) <$> rs)) in
  match f with
  | WebAccessLogs df =>
      table collect_data.WebLog.columns
        ((fun r => [CStr (collect_data.WebLog.timestamp r);
                    CStr (collect_data.WebLog.ip_address r);
                    opt_cell CStr (collect_data.WebLog.user_id r);
                    CStr (collect_data.WebLog.method r);
                    CStr (collect_data.WebLog.endpoint r);
                    CInt (collect_data.WebLog.status_code r);
                    CFloat (collect_data.WebLog.response_time r);
                    CStr (collect_data.WebLog.user_agent r)]) <$> df)
  | SensorData df =>
      table collect_data.SensorReading.columns
        ((fun r => [CStr (collect_data.SensorReading.timestamp r);
                    CStr (collect_data.SensorReading.sensor_id r);
                    CStr (collect_data.SensorReading.sensor_type r);
                    CStr (collect_data.SensorReading.location r);
                    CFloat (collect_data.SensorReading.value r);
                    CInt (collect_data.SensorReading.battery_level r);
                    CStr (collect_data.SensorReading.status r)]) <$> df)
  | WebLogsProcessed df => table processed.WebLog.columns (processed.WebLog.cells <$> df)
  | SocialProcessed df => table processed.SocialPost.columns (processed.SocialPost.cells <$> df)
  | SensorProcessed df =>
      table processed.SensorReading.columns (processed.SensorReading.cells <$> df)
  | Headerless records => Ok records
  | Csv df => Ok (csv_records_with_header df)
  | SocialData _ | Json _ => Raise (ParserError "Expected 1 fields")
  end.

End Os.

(** ** The random sources of collect_data.py *)

Module Random.
Import Pandas.

(** What a source is asked for, one draw at a time: a number (the [random]
    module), or a moment with its microseconds, or a text (Faker). *)
Record Draw := mkDraw {
  number : Z; moment : Timestamp; microsecond : Z; text : string
}.

(** The draws still to come. *)
Definition Source : Type := nat → Draw.

(** A computation that draws. *)
Definition Gen (A : Type) : Type := Source → A * Source.

#[export] Instance Gen_ret : MRet Gen := fun A a s => (a, s).
#[export] Instance Gen_bind : MBind Gen := fun A B f m s =>
  let '(a, s') := m s in f a s'.
#[export] Instance Gen_fmap : FMap Gen := fun A B f m s =>
  let '(a, s') := m s in (f a, s').

Definition next : Gen Draw := fun s => (s O, fun i => s (S i)).

(** [Random._randbelow(n)] *)
Definition randbelow (n : Z) : Gen Z := d ← next; mret (number d mod n).

(** [random.random()]: a float in [0, 1), 53 bits of a draw. *)
Definition random : Gen Q :=
  d ← next; mret (Qmake (number d mod 9007199254740992) 9007199254740992).

(** [random.uniform(a, b)] is [a + (b - a) * random()]. *)
Definition uniform (a b : Q) : Gen Q := u ← random; mret (a + (b - a) * u)%Q.

(** [random.randint(a, b)] is [a + _randbelow(b - a + 1)]. *)
Definition randint (a b : Z) : Gen Z := k ← randbelow (b - a + 1); mret (a + k).

(** [random.choice(seq)] is [seq[_randbelow(len(seq))]]; the default
    stands for the [IndexError] of an empty sequence, which the script
    never passes. *)
Definition choice {A} (seq : list A) (default : A) : Gen A :=
  k ← randbelow (Z.of_nat (length seq)); mret (nth (Z.to_nat k) seq default).

(** The integer nearest to a fraction, the even one of two. *)
Definition round_half_even (q : Q) : Z :=
  let n := Qnum q in
  let d := Zpos (Qden q) in
  match 2 * (n mod d) ?= d with
  | Lt => n / d
  | Gt => n / d + 1
  | Eq => if Z.even (n / d) then n / d else n / d + 1
  end.

(** [round(x, ndigits)] *)
Definition round (x : Q) (ndigits : nat) : Q :=
  Qmake (round_half_even (x * inject_Z (10 ^ Z.of_nat ndigits)))
    (Z.to_pos (10 ^ Z.of_nat ndigits)).

(** [x > y] on floats. *)
Definition Qgtb (x y : Q) : bool := negb (Qle_bool x y).

(** [for _ in range(n)], collecting what each pass draws. *)
Fixpoint repeatedly {A} (n : nat) (row : Gen A) : Gen (list A) :=
  match n with
  | O => mret []
  | S n' => r ← row; rs ← repeatedly n' row; mret (r :: rs)
  end.

End Random.

(** Faker's providers.  What they make up is whatever the source holds. *)
Module Faker.
Import Pandas Random.

Definition made_up : Gen string := d ← next; mret (text d).

Definition ipv4 : Gen string := made_up.
Definition uuid4 : Gen string := made_up.
Definition user_agent : Gen string := made_up.
Definition user_name : Gen string := made_up.
(** [fake.text(max_nb_chars=280)] *)
Definition text : Gen string := made_up.

(** A [datetime]: the moment and its microseconds. *)
Definition datetime : Type := Timestamp * Z.

(** [fake.date_time_between(start_date='-7d', end_date='now')]; the
    window is not modelled. *)
Definition date_time_between : Gen datetime :=
  d ← next; mret (moment d, microsecond d).

(** [datetime.strftime('%Y-%m-%d %H:%M:%S')], for a four-digit year. *)
Definition strftime (t : datetime) : string := timestamp_str t.1.

Definition six_digits (n : Z) : string :=
  two_digits (n / 10000) +:+ two_digits (n / 100) +:+ two_digits n.

(** [datetime.isoformat()]: the microseconds are written when they are
    not zero. *)
Definition isoformat (t : datetime) : string :=
  date_str t.1 +:+ "T" +:+ time_str t.1 +:+
  (if t.2 =? 0 then EmptyString else "." +:+ six_digits t.2).

End Faker.

(** ** collect_data.py *)

Module data_collection.
Import Py Pandas Os Random Faker.

Definition http_methods : list string := ["GET"; "POST"; "PUT"; "DELETE"].
Definition status_codes : list Z := [200; 201; 204; 400; 403; 404; 500].
Definition pages : list string :=
  ["/home"; "/about"; "/contact"; "/products"; "/services"; "/blog"; "/login";
   "/register"].

(** One pass of the loop of [generate_web_logs]. *)
Definition web_log_entry : Gen collect_data.WebLog.t :=
  timestamp ← strftime <$> date_time_between;
  ip_address ← ipv4;
  u ← random;
  user_id ← (if Qgtb u (3 # 10)
             then uuid ← uuid4; choice [None; Some uuid] None
             else mret None);
  method ← choice http_methods EmptyString;
  endpoint ← choice pages EmptyString;
  status_code ← choice status_codes 0;
  response_time ← (fun x => round x 3) <$> uniform (1 # 10) 2;
  user_agent ← user_agent;
  mret (collect_data.WebLog.mk timestamp ip_address user_id method endpoint
          status_code response_time user_agent).

Definition log_file : string := "data/raw/logs/web_access_logs.csv".

(** The file is opened before the rows are drawn; nothing else can fail,
    so the rows are drawn first here and written at once. *)
Definition generate_web_logs (num_entries : nat) (s : Source) : M Source :=
  let '(rows, s) := repeatedly num_entries web_log_entry s in
  write_file log_file (WebAccessLogs rows) ;;
  print ("Generated " +:+ pretty (Z.of_nat num_entries) +:+ " web log entries in "
         +:+ log_file) ;;
  mret s.

Definition sentiments : list string := ["positive"; "neutral"; "negative"].
Definition categories : list string := ["product"; "service"; "support"; "general"].
Definition platforms : list string := ["twitter"; "facebook"; "instagram"; "linkedin"].

Definition social_post : Gen collect_data.SocialPost.t :=
  post_id ← uuid4;
  user_handle ← user_name;
  timestamp ← isoformat <$> date_time_between;
  content ← text;
  likes ← randint 0 1000;
  shares ← randint 0 200;
  comments ← randint 0 50;
  sentiment ← choice sentiments EmptyString;
  category ← choice categories EmptyString;
  platform ← choice platforms EmptyString;
  mret (collect_data.SocialPost.mk post_id user_handle timestamp content likes shares
          comments sentiment category platform).

Definition social_file : string := "data/raw/social/social_data.json".

Definition generate_social_data (num_entries : nat) (s : Source) : M Source :=
  let '(social_data, s) := repeatedly num_entries social_post s in
  write_file social_file (SocialData social_data) ;;
  print ("Generated " +:+ pretty (Z.of_nat num_entries) +:+ " social media entries in "
         +:+ social_file) ;;
  mret s.

Definition sensor_types : list string :=
  ["temperature"; "humidity"; "pressure"; "light"; "co2"].
Definition locations : list string := ["room1"; "room2"; "room3"; "outside"; "basement"].

(** The value drawn for a sensor of the given type. *)
Definition sensor_value (sensor_type : string) : Gen Q :=
  if String.eqb sensor_type "temperature" then (fun x => round x 1) <$> uniform 18 28
  else if String.eqb sensor_type "humidity" then (fun x => round x 1) <$> uniform 30 70
  else if String.eqb sensor_type "pressure" then (fun x => round x 1) <$> uniform 980 1020
  else if String.eqb sensor_type "light" then (fun x => round x 0) <$> uniform 200 800
  else (fun x => round x 0) <$> uniform 400 1200.

Definition sensor_reading : Gen collect_data.SensorReading.t :=
  timestamp ← strftime <$> date_time_between;
  n ← randint 1000 9999;
  let sensor_id := "SENS-" +:+ pretty n in
  sensor_type ← choice sensor_types EmptyString;
  location ← choice locations EmptyString;
  value ← sensor_value sensor_type;
  battery_level ← randint 10 100;
  u ← random;
  let status := if Qgtb u (5 # 100) then "active" else "error" in
  mret (collect_data.SensorReading.mk timestamp sensor_id sensor_type location value
          battery_level status).

Definition sensor_file : string := "data/raw/logs/sensor_data.csv".

Definition generate_sensor_data (num_entries : nat) (s : Source) : M Source :=
  let '(rows, s) := repeatedly num_entries sensor_reading s in
  write_file sensor_file (SensorData rows) ;;
  print ("Generated " +:+ pretty (Z.of_nat num_entries) +:+ " sensor data entries in "
         +:+ sensor_file) ;;
  mret s.

(** The statements at module level, then the [__main__] block. *)
Definition main (s : Source) : M unit :=
  makedirs "data/raw/logs" ;;
  makedirs "data/raw/social" ;;
  print "Starting data collection and generation..." ;;
  s ← generate_web_logs 2000 s;
  s ← generate_social_data 1000 s;
  _ ← generate_sensor_data 3000 s;
  print "Data collection and generation completed.".

End data_collection.

Module GenSpec.
Import Pandas Random.

(** A property of sources that consuming a draw keeps. *)
Definition lasting (Inv : Source → Prop) : Prop := ∀ s, Inv s → Inv (fun i => s (S i)).

(** From a source with [Inv], the computation yields a value with [P] and
    leaves a source with [Inv]. *)
Definition yields (Inv : Source → Prop) {A} (g : Gen A) (P : A → Prop) : Prop :=
  ∀ s, Inv s → P (g s).1 ∧ Inv (g s).2.

(** The value drawn for each sensor type, by type. *)
Definition value_in_range (sensor_type : string) (value : Q) : Prop :=
  (sensor_type = "temperature" → (18 <= value)%Q ∧ (value <= 28)%Q) ∧
  (sensor_type = "humidity" → (30 <= value)%Q ∧ (value <= 70)%Q) ∧
  (sensor_type = "pressure" → (980 <= value)%Q ∧ (value <= 1020)%Q) ∧
  (sensor_type = "light" → (200 <= value)%Q ∧ (value <= 800)%Q) ∧
  (sensor_type = "co2" → (400 <= value)%Q ∧ (value <= 1200)%Q).

(** A source whose moments are datetimes, with a year of four digits. *)
Definition plausible (s : Source) : Prop :=
  ∀ i, valid_timestamp (moment (s i)) = true ∧ 1000 ≤ year (moment (s i)).

End GenSpec.

(** ** process_data.py *)

Module process_data.
Import Py Pandas Os.

(** [Series.fillna(v)] on one cell. *)
Definition fillna {A} (v : A) (cell : option A) : A := default v cell.

(** [sentiment_map = {'positive': 1, 'neutral': 0, 'negative': -1}], applied
    with [Series.map]: a text outside the dictionary maps to NaN. *)
Definition sentiment_map (s : string) : option Z :=
  if String.eqb s "positive" then Some 1
  else if String.eqb s "neutral" then Some 0
  else if String.eqb s "negative" then Some (-1)
  else None.

(** The body of the [try] block of [process_web_logs] on one row, between
    reading and writing.  Parsing the timestamp column raises as soon as one
    cell does. *)
Definition web_logs_row (r : collect_data.WebLog.t) : result processed.WebLog.t :=
  timestamp ← to_datetime (collect_data.WebLog.timestamp r);
  mret {|
    processed.WebLog.timestamp := timestamp;
    processed.WebLog.ip_address := collect_data.WebLog.ip_address r;
    processed.WebLog.user_id := fillna "anonymous" (collect_data.WebLog.user_id r);
    processed.WebLog.method := collect_data.WebLog.method r;
    processed.WebLog.endpoint := collect_data.WebLog.endpoint r;
    processed.WebLog.status_code := collect_data.WebLog.status_code r;
    processed.WebLog.response_time := collect_data.WebLog.response_time r;
    processed.WebLog.user_agent := collect_data.WebLog.user_agent r;
    processed.WebLog.date := date_str timestamp;
    processed.WebLog.hour := hour timestamp;
    processed.WebLog.is_error := collect_data.WebLog.status_code r >=? 400
  |}.

Definition web_logs_frame (df : list collect_data.WebLog.t)
  : result (list processed.WebLog.t) := mapM web_logs_row df.

Definition social_row (r : collect_data.SocialPost.t) : result processed.SocialPost.t :=
  timestamp ← to_datetime (collect_data.SocialPost.timestamp r);
  mret {|
    processed.SocialPost.post_id := collect_data.SocialPost.post_id r;
    processed.SocialPost.user_handle := collect_data.SocialPost.user_handle r;
    processed.SocialPost.timestamp := timestamp;
    processed.SocialPost.content := collect_data.SocialPost.content r;
    processed.SocialPost.likes := collect_data.SocialPost.likes r;
    processed.SocialPost.shares := collect_data.SocialPost.shares r;
    processed.SocialPost.comments := collect_data.SocialPost.comments r;
    processed.SocialPost.sentiment := collect_data.SocialPost.sentiment r;
    processed.SocialPost.category := collect_data.SocialPost.category r;
    processed.SocialPost.platform := collect_data.SocialPost.platform r;
    processed.SocialPost.date := date_str timestamp;
    processed.SocialPost.hour := hour timestamp;
    processed.SocialPost.engagement_score :=
      collect_data.SocialPost.likes r + (collect_data.SocialPost.shares r * 2)
      + (collect_data.SocialPost.comments r * 3);
    processed.SocialPost.sentiment_score :=
      sentiment_map (collect_data.SocialPost.sentiment r)
  |}.

Definition social_frame (posts : list collect_data.SocialPost.t)
  : result (list processed.SocialPost.t) := mapM social_row posts.

Definition battery_bins : list Z := [0; 20; 50; 80; 100].
Definition battery_labels : list string := ["critical"; "low"; "medium"; "high"].

Definition sensor_row (r : collect_data.SensorReading.t)
  : result processed.SensorReading.t :=
  timestamp ← to_datetime (collect_data.SensorReading.timestamp r);
  mret {|
    processed.SensorReading.timestamp := timestamp;
    processed.SensorReading.sensor_id := collect_data.SensorReading.sensor_id r;
    processed.SensorReading.sensor_type := collect_data.SensorReading.sensor_type r;
    processed.SensorReading.location := collect_data.SensorReading.location r;
    processed.SensorReading.value := collect_data.SensorReading.value r;
    processed.SensorReading.battery_level := collect_data.SensorReading.battery_level r;
    processed.SensorReading.status := collect_data.SensorReading.status r;
    processed.SensorReading.date := date_str timestamp;
    processed.SensorReading.hour := hour timestamp;
    processed.SensorReading.is_active :=
      String.eqb (collect_data.SensorReading.status r) "active";
    processed.SensorReading.battery_category :=
      cut battery_bins battery_labels (collect_data.SensorReading.battery_level r)
  |}.

Definition sensor_frame (df : list collect_data.SensorReading.t)
  : result (list processed.SensorReading.t) := mapM sensor_row df.

(** Reading an input file as the table the function expects.  A file of
    another kind lacks the columns the function goes on to use. *)
Definition read_web_logs (p : string) : M (list collect_data.WebLog.t) :=
  f ← read_file p;
  match f with WebAccessLogs df => mret df | _ => raise (KeyError "timestamp") end.

Definition read_social_data (p : string) : M (list collect_data.SocialPost.t) :=
  f ← read_file p;
  match f with SocialData posts => mret posts | _ => raise JSONDecodeError end.

Definition read_sensor_data (p : string) : M (list collect_data.SensorReading.t) :=
  f ← read_file p;
  match f with SensorData df => mret df | _ => raise (KeyError "timestamp") end.

Definition web_input_file : string := "data/raw/logs/web_access_logs.csv".
Definition web_output_file : string := "data/processed/web_logs_processed.csv".
Definition social_input_file : string := "data/raw/social/social_data.json".
Definition social_output_file : string := "data/processed/social_data_processed.csv".
Definition sensor_input_file : string := "data/raw/logs/sensor_data.csv".
Definition sensor_output_file : string := "data/processed/sensor_data_processed.csv".

(** The handler of each function: [print(f"Error processing ...: {e}")] and
    [return False]. *)
Definition failed (what : string) (e : exn) : M bool :=
  print ("Error processing " +:+ what +:+ ": " +:+ exn_str e) ;; mret false.

(** The [try] block of [process_web_logs]. *)
Definition web_logs_try : M bool :=
  df ← read_web_logs web_input_file;
  df ← lift (web_logs_frame df);
  write_file web_output_file (WebLogsProcessed df) ;;
  print ("Processed web logs saved to " +:+ web_output_file) ;;
  mret true.

(** The directory is created and the first line printed before the [try]
    statement is entered. *)
Definition process_web_logs : M bool :=
  makedirs "data/processed" ;;
  print ("Processing web logs from " +:+ web_input_file +:+ "...") ;;
  try_except web_logs_try Exception (failed "web logs").

Definition social_try : M bool :=
  social_data ← read_social_data social_input_file;
  df ← lift (social_frame social_data);
  write_file social_output_file (SocialProcessed df) ;;
  print ("Processed social data saved to " +:+ social_output_file) ;;
  mret true.

Definition process_social_data : M bool :=
  print ("Processing social data from " +:+ social_input_file +:+ "...") ;;
  try_except social_try Exception (failed "social data").

Definition sensor_try : M bool :=
  df ← read_sensor_data sensor_input_file;
  df ← lift (sensor_frame df);
  write_file sensor_output_file (SensorProcessed df) ;;
  print ("Processed sensor data saved to " +:+ sensor_output_file) ;;
  mret true.

Definition process_sensor_data : M bool :=
  print ("Processing sensor data from " +:+ sensor_input_file +:+ "...") ;;
  try_except sensor_try Exception (failed "sensor data").

Definition stderr_of (e : exn) : string :=
  match e with CalledProcessError _ _ err => err | _ => EmptyString end.

Definition hdfs_dir : string := "/user/hive/warehouse/raw_data".

Definition upload_file (file : string) : M unit :=
  let file_name := basename file in
  let hdfs_path := hdfs_dir +:+ "/" +:+ file_name in
  run ("docker exec -it namenode hdfs dfs -mkdir -p " +:+ hdfs_dir) ;;
  run ("docker cp " +:+ file +:+ " namenode:/tmp/" +:+ file_name) ;;
  run ("docker exec -it namenode hdfs dfs -put -f /tmp/" +:+ file_name +:+ " " +:+ hdfs_path) ;;
  print ("Uploaded " +:+ file +:+ " to HDFS at " +:+ hdfs_path).

Definition upload_banner : string :=
  "Uploading processed data to HDFS directory: " +:+ hdfs_dir.

Definition upload_to_hdfs : M bool :=
  let files := [web_output_file; social_output_file; sensor_output_file] in
  print upload_banner ;;
  try_except
    (for_each files upload_file ;;
     print "All files uploaded to HDFS successfully" ;;
     mret true)
    is_CalledProcessError
    (fun e =>
       print ("Error uploading to HDFS: " +:+ exn_str e) ;;
       print ("Command output: " +:+ stderr_of e) ;;
       mret false).

Definition skip_message : string := "Skipping HDFS upload due to processing errors".

(** The [__main__] block. *)
Definition main : M unit :=
  print "Starting data processing..." ;;
  web_logs_ok ← process_web_logs;
  social_data_ok ← process_social_data;
  sensor_data_ok ← process_sensor_data;
  (if web_logs_ok && social_data_ok && sensor_data_ok
   then upload_to_hdfs ;; mret tt
   else print skip_message) ;;
  print "Data processing completed.".

(** What remains of [__main__] once the three flags are known. *)
Definition finish (web_logs_ok social_data_ok sensor_data_ok : bool) : M unit :=
  (if web_logs_ok && social_data_ok && sensor_data_ok
   then upload_to_hdfs ;; mret tt
   else print skip_message) ;;
  print "Data processing completed.".

(** *** The upload, command by command *)

(** The files [upload_to_hdfs] hands to [upload_file], in its order. *)
Definition uploaded_files : list string :=
  [web_output_file; social_output_file; sensor_output_file].

(** The three commands of [upload_file], in the order it runs them. *)
Definition upload_commands (file : string) : list string :=
  let file_name := basename file in
  let hdfs_path := hdfs_dir +:+ "/" +:+ file_name in
  ["docker exec -it namenode hdfs dfs -mkdir -p " +:+ hdfs_dir;
   "docker cp " +:+ file +:+ " namenode:/tmp/" +:+ file_name;
   "docker exec -it namenode hdfs dfs -put -f /tmp/" +:+ file_name +:+ " " +:+ hdfs_path].

(** The line [upload_file] prints after its third command. *)
Definition uploaded_line (file : string) : string :=
  "Uploaded " +:+ file +:+ " to HDFS at " +:+ hdfs_dir +:+ "/" +:+ basename file.

End process_data.

(** ** direct_processing.py *)

Module direct_processing.
Import Py Pandas Os.

(** The summary tables, with the column names the script assigns to each
    and the cells of a row in the order the aggregation yields them. *)

Module WebTrafficDaily.
Record t := mk {
  date : string; endpoint : string; total_requests : Z; error_count : Z;
  avg_response_time : option Q; unique_visitors : Z
}.
Definition columns : list label :=
  [LStr "date"; LStr "endpoint"; LStr "total_requests"; LStr "error_count";
   LStr "avg_response_time"; LStr "unique_visitors"].
Definition cells (r : t) : list Cell :=
  [CStr (date r); CStr (endpoint r); CInt (total_requests r); CInt (error_count r);
   opt_cell CFloat (avg_response_time r); CInt (unique_visitors r)].
End WebTrafficDaily.

Module WebTrafficHourly.
Record t := mk {
  date : string; hour : Z; total_requests : Z; error_count : Z;
  avg_response_time : option Q
}.
Definition columns : list label :=
  [LStr "date"; LStr "hour"; LStr "total_requests"; LStr "error_count";
   LStr "avg_response_time"].
Definition cells (r : t) : list Cell :=
  [CStr (date r); CInt (hour r); CInt (total_requests r); CInt (error_count r);
   opt_cell CFloat (avg_response_time r)].
End WebTrafficHourly.

Module SocialEngagementDaily.
Record t := mk {
  date : string; platform : string; category : string; post_count : Z;
  total_likes : Z; total_shares : Z; total_comments : Z;
  avg_engagement : option Q; avg_sentiment : option Q
}.
Definition columns : list label :=
  [LStr "date"; LStr "platform"; LStr "category"; LStr "post_count";
   LStr "total_likes"; LStr "total_shares"; LStr "total_comments";
   LStr "avg_engagement"; LStr "avg_sentiment"].
Definition cells (r : t) : list Cell :=
  [CStr (date r); CStr (platform r); CStr (category r); CInt (post_count r);
   CInt (total_likes r); CInt (total_shares r); CInt (total_comments r);
   opt_cell CFloat (avg_engagement r); opt_cell CFloat (avg_sentiment r)].
End SocialEngagementDaily.

Module SensorReadingsDaily.
Record t := mk {
  date : string; sensor_type : string; location : string; reading_count : Z;
  avg_value : option Q; min_value : option Q; max_value : option Q;
  active_readings : Z; error_readings : Z
}.
(** The eight assigned names, then the column added afterwards. *)
Definition columns : list label :=
  [LStr "date"; LStr "sensor_type"; LStr "location"; LStr "reading_count";
   LStr "avg_value"; LStr "min_value"; LStr "max_value"; LStr "active_readings"]
  ++ [LStr "error_readings"].
Definition cells (r : t) : list Cell :=
  [CStr (date r); CStr (sensor_type r); CStr (location r); CInt (reading_count r);
   opt_cell CFloat (avg_value r); opt_cell CFloat (min_value r);
   opt_cell CFloat (max_value r); CInt (active_readings r); CInt (error_readings r)].
End SensorReadingsDaily.

Module WebDaily.
Record t := mk {
  date : string; total_requests : Z; error_count : Z; avg_response_time : option Q
}.
End WebDaily.

Module SocialDaily.
Record t := mk {
  date : string; post_count : Z; total_likes : Z; total_shares : Z;
  total_comments : Z; avg_engagement : option Q; avg_sentiment : option Q
}.
End SocialDaily.

Module Correlation.
Record t := mk {
  date : string; total_requests : Z; error_count : Z; avg_response_time : option Q;
  post_count : Z; total_likes : Z; total_shares : Z; total_comments : Z;
  avg_engagement : option Q; avg_sentiment : option Q
}.
(** The key, the other columns of the left table, those of the right. *)
Definition columns : list label :=
  [LStr "date"; LStr "total_requests"; LStr "error_count"; LStr "avg_response_time";
   LStr "post_count"; LStr "total_likes"; LStr "total_shares"; LStr "total_comments";
   LStr "avg_engagement"; LStr "avg_sentiment"].
Definition cells (r : t) : list Cell :=
  [CStr (date r); CInt (total_requests r); CInt (error_count r);
   opt_cell CFloat (avg_response_time r); CInt (post_count r); CInt (total_likes r);
   CInt (total_shares r); CInt (total_comments r);
   opt_cell CFloat (avg_engagement r); opt_cell CFloat (avg_sentiment r)].
End Correlation.

(** The key of [groupby(['date', 'endpoint'])]. *)
Definition date_endpoint (r : processed.WebLog.t) : string * string :=
  (processed.WebLog.date r, processed.WebLog.endpoint r).

(** [web_logs.groupby(['date', 'endpoint']).agg({...}).reset_index()] *)
Definition web_traffic_daily (web_logs : list processed.WebLog.t) : list WebTrafficDaily.t :=
  groupby_agg date_endpoint
    (fun k g => {|
       WebTrafficDaily.date := k.1;
       WebTrafficDaily.endpoint := k.2;
       WebTrafficDaily.total_requests := count (processed.WebLog.status_code <$> g);
       WebTrafficDaily.error_count := sum_bool (processed.WebLog.is_error <$> g);
       WebTrafficDaily.avg_response_time := mean (processed.WebLog.response_time <$> g);
       WebTrafficDaily.unique_visitors := nunique (processed.WebLog.ip_address <$> g)
     |}) web_logs.

Definition web_traffic_hourly (web_logs : list processed.WebLog.t) : list WebTrafficHourly.t :=
  groupby_agg (fun r => (processed.WebLog.date r, processed.WebLog.hour r))
    (fun k g => {|
       WebTrafficHourly.date := k.1;
       WebTrafficHourly.hour := k.2;
       WebTrafficHourly.total_requests := count (processed.WebLog.status_code <$> g);
       WebTrafficHourly.error_count := sum_bool (processed.WebLog.is_error <$> g);
       WebTrafficHourly.avg_response_time := mean (processed.WebLog.response_time <$> g)
     |}) web_logs.

Definition social_engagement_daily (social_data : list processed.SocialPost.t)
  : list SocialEngagementDaily.t :=
  groupby_agg
    (fun r => (processed.SocialPost.date r, processed.SocialPost.platform r,
               processed.SocialPost.category r))
    (fun k g => {|
       SocialEngagementDaily.date := k.1.1;
       SocialEngagementDaily.platform := k.1.2;
       SocialEngagementDaily.category := k.2;
       SocialEngagementDaily.post_count := count (processed.SocialPost.post_id <$> g);
       SocialEngagementDaily.total_likes := sum_Z (processed.SocialPost.likes <$> g);
       SocialEngagementDaily.total_shares := sum_Z (processed.SocialPost.shares <$> g);
       SocialEngagementDaily.total_comments := sum_Z (processed.SocialPost.comments <$> g);
       SocialEngagementDaily.avg_engagement :=
         mean_Z (processed.SocialPost.engagement_score <$> g);
       SocialEngagementDaily.avg_sentiment :=
         mean_skipna (processed.SocialPost.sentiment_score <$> g)
     |}) social_data.

Definition sensor_readings_daily (sensor_data : list processed.SensorReading.t)
  : list SensorReadingsDaily.t :=
  groupby_agg
    (fun r => (processed.SensorReading.date r, processed.SensorReading.sensor_type r,
               processed.SensorReading.location r))
    (fun k g =>
       let reading_count := count (processed.SensorReading.sensor_id <$> g) in
       let active_readings := sum_bool (processed.SensorReading.is_active <$> g) in
       {|
         SensorReadingsDaily.date := k.1.1;
         SensorReadingsDaily.sensor_type := k.1.2;
         SensorReadingsDaily.location := k.2;
         SensorReadingsDaily.reading_count := reading_count;
         SensorReadingsDaily.avg_value := mean (processed.SensorReading.value <$> g);
         SensorReadingsDaily.min_value := min_Q (processed.SensorReading.value <$> g);
         SensorReadingsDaily.max_value := max_Q (processed.SensorReading.value <$> g);
         SensorReadingsDaily.active_readings := active_readings;
         SensorReadingsDaily.error_readings := reading_count - active_readings
       |}) sensor_data.

Definition web_daily (web_logs : list processed.WebLog.t) : list WebDaily.t :=
  groupby_agg processed.WebLog.date
    (fun k g => {|
       WebDaily.date := k;
       WebDaily.total_requests := count (processed.WebLog.status_code <$> g);
       WebDaily.error_count := sum_bool (processed.WebLog.is_error <$> g);
       WebDaily.avg_response_time := mean (processed.WebLog.response_time <$> g)
     |}) web_logs.

Definition social_daily (social_data : list processed.SocialPost.t) : list SocialDaily.t :=
  groupby_agg processed.SocialPost.date
    (fun k g => {|
       SocialDaily.date := k;
       SocialDaily.post_count := count (processed.SocialPost.post_id <$> g);
       SocialDaily.total_likes := sum_Z (processed.SocialPost.likes <$> g);
       SocialDaily.total_shares := sum_Z (processed.SocialPost.shares <$> g);
       SocialDaily.total_comments := sum_Z (processed.SocialPost.comments <$> g);
       SocialDaily.avg_engagement := mean_Z (processed.SocialPost.engagement_score <$> g);
       SocialDaily.avg_sentiment := mean_skipna (processed.SocialPost.sentiment_score <$> g)
     |}) social_data.

(** A row of the join: the key, the left columns, the right columns. *)
Definition join_row (l : WebDaily.t) (r : SocialDaily.t) : Correlation.t := {|
  Correlation.date := WebDaily.date l;
  Correlation.total_requests := WebDaily.total_requests l;
  Correlation.error_count := WebDaily.error_count l;
  Correlation.avg_response_time := WebDaily.avg_response_time l;
  Correlation.post_count := SocialDaily.post_count r;
  Correlation.total_likes := SocialDaily.total_likes r;
  Correlation.total_shares := SocialDaily.total_shares r;
  Correlation.total_comments := SocialDaily.total_comments r;
  Correlation.avg_engagement := SocialDaily.avg_engagement r;
  Correlation.avg_sentiment := SocialDaily.avg_sentiment r
|}.

(** [pd.merge(web_daily, social_daily, on='date')] without the failure. *)
Definition inner_join (web : list WebDaily.t) (social : list SocialDaily.t)
  : list Correlation.t :=
  merge WebDaily.date SocialDaily.date join_row web social.

(** The call itself: it raises when the world says the library does. *)
Definition pd_merge (web : list WebDaily.t) (social : list SocialDaily.t)
  : M (list Correlation.t) :=
  fun w =>
    match join_error w with
    | Some msg => (Raise (MergeError msg), w)
    | None => (Ok (inner_join web social), w)
    end.

(** The dummy table of the handler: the columns of [web_daily], then
    constant columns as long as [web_daily]. *)
Definition dummy_row (l : WebDaily.t) : Correlation.t := {|
  Correlation.date := WebDaily.date l;
  Correlation.total_requests := WebDaily.total_requests l;
  Correlation.error_count := WebDaily.error_count l;
  Correlation.avg_response_time := WebDaily.avg_response_time l;
  Correlation.post_count := 100;
  Correlation.total_likes := 500;
  Correlation.total_shares := 200;
  Correlation.total_comments := 300;
  Correlation.avg_engagement := Some (inject_Z 50);
  Correlation.avg_sentiment := Some (1 # 2)%Q
|}.

Definition dummy_correlation (web : list WebDaily.t) : list Correlation.t :=
  dummy_row <$> web.

(** The [try] statement around the join. *)
Definition correlation_data (web : list WebDaily.t) (social : list SocialDaily.t)
  : M (list Correlation.t) :=
  try_except (pd_merge web social) Exception
    (fun e => print ("Error merging data: " +:+ exn_str e) ;;
              mret (dummy_correlation web)).

(** The table the [try] statement leaves in world [w], from the processed
    tables. *)
Definition correlation_table (w : World)
    (web_logs : list processed.WebLog.t) (social_data : list processed.SocialPost.t)
  : list Correlation.t :=
  match join_error w with
  | None => inner_join (web_daily web_logs) (social_daily social_data)
  | Some _ => dummy_correlation (web_daily web_logs)
  end.

(** The five aggregates written to [data/exports]. *)
Inductive aggregate :=
| AggWebTrafficByEndpoint
| AggWebTrafficHourly
| AggSocialEngagement
| AggSensorReadings
| AggCorrelationData.

Definition all_aggregates : list aggregate :=
  [AggWebTrafficByEndpoint; AggWebTrafficHourly; AggSocialEngagement; AggSensorReadings;
   AggCorrelationData].

Definition export_dir (a : aggregate) : string :=
  match a with
  | AggWebTrafficByEndpoint => "data/exports/web_traffic_by_endpoint"
  | AggWebTrafficHourly => "data/exports/web_traffic_hourly"
  | AggSocialEngagement => "data/exports/social_engagement"
  | AggSensorReadings => "data/exports/sensor_readings"
  | AggCorrelationData => "data/exports/correlation_data"
  end.

Definition export_file (a : aggregate) : string := export_dir a +:+ "/000000_0".

(** The column names the script gives the aggregate. *)
Definition assigned_columns (a : aggregate) : list label :=
  match a with
  | AggWebTrafficByEndpoint => WebTrafficDaily.columns
  | AggWebTrafficHourly => WebTrafficHourly.columns
  | AggSocialEngagement => SocialEngagementDaily.columns
  | AggSensorReadings => SensorReadingsDaily.columns
  | AggCorrelationData => Correlation.columns
  end.

(** The frame of an aggregate, from the processed tables and the
    correlation table the [try] statement produced. *)
Definition frame (a : aggregate)
    (web_logs : list processed.WebLog.t) (social_data : list processed.SocialPost.t)
    (sensor_data : list processed.SensorReading.t) (correlation : list Correlation.t)
  : DataFrame :=
  mkFrame (assigned_columns a)
    match a with
    | AggWebTrafficByEndpoint => WebTrafficDaily.cells <$> web_traffic_daily web_logs
    | AggWebTrafficHourly => WebTrafficHourly.cells <$> web_traffic_hourly web_logs
    | AggSocialEngagement =>
        SocialEngagementDaily.cells <$> social_engagement_daily social_data
    | AggSensorReadings => SensorReadingsDaily.cells <$> sensor_readings_daily sensor_data
    | AggCorrelationData => Correlation.cells <$> correlation
    end.

(** [df.to_csv(path, index=False, header=False)] *)
Definition to_csv_headerless (path : string) (df : DataFrame) : M unit :=
  write_file path (Headerless (csv_records df)).

(** The text a header field shows as a column label.  The decimal text of a
    float is below the model: its fraction stands for it. *)
Definition header_label (i : nat) (c : Cell) : label :=
  match c with
  | CStr s => LStr s
  | CInt z => LStr (pretty z)
  | CFloat q => LStr (pretty (Qnum q) +:+ "/" +:+ pretty (Zpos (Qden q)))
  | CBool b => LStr (if b then "True" else "False")
  | CTime t => LStr (timestamp_str t)
  | CNaN => LStr ("Unnamed: " +:+ pretty (Z.of_nat i))
  end.

(** [pd.read_csv(path)]: the file must be delimited text with a first line,
    which becomes the header. *)
Definition pd_read_csv (path : string) : M (File * list label) :=
  f ← read_file path;
  match records_of f with
  | Ok (header :: _) => mret (f, imap header_label header)
  | Ok [] => raise EmptyDataError
  | Raise e => raise e
  end.

(** [repr] of a list of column labels. *)
Definition label_repr (l : label) : string :=
  match l with LStr s => "'" +:+ s +:+ "'" | LInt n => pretty n end.

Fixpoint comma_joined (xs : list string) : string :=
  match xs with
  | [] => EmptyString
  | [x] => x
  | x :: xs' => x +:+ ", " +:+ comma_joined xs'
  end.

Definition list_repr (ls : list label) : string :=
  "[" +:+ comma_joined (label_repr <$> ls) +:+ "]".

(** The table a frame stands for when the aggregation uses its columns: a
    file of another kind lacks them. *)
Definition as_web_logs (f : File) : result (list processed.WebLog.t) :=
  match f with WebLogsProcessed df => Ok df | _ => Raise (KeyError "date") end.

Definition as_social_data (f : File) : result (list processed.SocialPost.t) :=
  match f with SocialProcessed df => Ok df | _ => Raise (KeyError "date") end.

Definition as_sensor_data (f : File) : result (list processed.SensorReading.t) :=
  match f with SensorProcessed df => Ok df | _ => Raise (KeyError "date") end.

(** The last part of the script: the five directories, the five files
    without header, the closing lines. *)
Definition save_exports
    (web_logs : list processed.WebLog.t) (social_data : list processed.SocialPost.t)
    (sensor_data : list processed.SensorReading.t) (correlation : list Correlation.t)
  : M unit :=
  print "Saving processed data to exports directory..." ;;
  for_each all_aggregates (fun a => makedirs (export_dir a)) ;;
  for_each all_aggregates (fun a =>
    to_csv_headerless (export_file a)
      (frame a web_logs social_data sensor_data correlation)) ;;
  print "Direct data processing completed successfully!" ;;
  print "Results saved to data/exports/ directory." ;;
  print "You can now run prepare_for_visualization.py to prepare data for Tableau/Power BI.".

(** The part of the script after the data is loaded.  The aggregations are
    outside any [try] statement: a missing column is raised to the caller. *)
Definition aggregate_and_save (web_logs social_data sensor_data : File) : M unit :=
  print "Performing aggregations (equivalent to Hive queries)..." ;;
  web_logs ← lift (as_web_logs web_logs);
  social_data ← lift (as_social_data social_data);
  sensor_data ← lift (as_sensor_data sensor_data);
  correlation ← correlation_data (web_daily web_logs) (social_daily social_data);
  save_exports web_logs social_data sensor_data correlation.

Definition load_processed : M (File * File * File) :=
  '(web_logs, web_columns) ← pd_read_csv "data/processed/web_logs_processed.csv";
  '(social_data, social_columns) ← pd_read_csv "data/processed/social_data_processed.csv";
  '(sensor_data, sensor_columns) ← pd_read_csv "data/processed/sensor_data_processed.csv";
  print "Data loaded successfully!" ;;
  print ("Web logs columns: " +:+ list_repr web_columns) ;;
  print ("Social data columns: " +:+ list_repr social_columns) ;;
  print ("Sensor data columns: " +:+ list_repr sensor_columns) ;;
  mret (web_logs, social_data, sensor_data).

Definition process_data_directly : M unit :=
  print "Starting direct data processing..." ;;
  makedirs "data/processed" ;;
  makedirs "data/exports" ;;
  loaded ← try_except (Some <$> load_processed) Exception
    (fun e => print ("Error loading data: " +:+ exn_str e) ;; mret None);
  match loaded with
  | Some (web_logs, social_data, sensor_data) =>
      aggregate_and_save web_logs social_data sensor_data
  | None => mret tt
  end.

(** The directories the script creates. *)
Definition needed_dirs : list string :=
  ["data/processed"; "data/exports"] ++ (export_dir <$> all_aggregates).

(** Nothing stands in the way of the script: no regular file where it
    creates a directory, no directory where it writes a file. *)
Definition unobstructed (w : World) : Prop :=
  Forall (fun q => is_file q w = false) (needed_dirs ≫= ancestors) ∧
  Forall (fun a => is_dir (export_file a) w = false) all_aggregates.

(** The key of [groupby(['date', 'sensor_type', 'location'])]. *)
Definition sensor_key (r : processed.SensorReading.t) : string * string * string :=
  (processed.SensorReading.date r, processed.SensorReading.sensor_type r,
   processed.SensorReading.location r).

End direct_processing.

(** ** prepare_for_visualization.py *)

Module prepare_for_visualization.
Import Py Pandas Os.

Definition exports_dir : string := "data/exports/".
Definition web_traffic_path : string := path_join exports_dir "web_traffic_by_endpoint".
Definition web_hourly_path : string := path_join exports_dir "web_traffic_hourly".
Definition social_path : string := path_join exports_dir "social_engagement".
Definition sensor_path : string := path_join exports_dir "sensor_readings".
Definition correlation_path : string := path_join exports_dir "correlation_data".

(** The directory each aggregate of [direct_processing.py] is loaded from. *)
Definition load_path (a : direct_processing.aggregate) : string :=
  match a with
  | direct_processing.AggWebTrafficByEndpoint => web_traffic_path
  | direct_processing.AggWebTrafficHourly => web_hourly_path
  | direct_processing.AggSocialEngagement => social_path
  | direct_processing.AggSensorReadings => sensor_path
  | direct_processing.AggCorrelationData => correlation_path
  end.

(** The column names [load_data] picks from the path. *)
Definition cols_for (path : string) : option (list label) :=
  if str_in "web_traffic_by_endpoint" path then
    Some [LStr "date"; LStr "endpoint"; LStr "total_requests"; LStr "error_count";
          LStr "avg_response_time"; LStr "unique_visitors"]
  else if str_in "web_traffic_hourly" path then
    Some [LStr "date"; LStr "hour"; LStr "total_requests"; LStr "error_count";
          LStr "avg_response_time"]
  else if str_in "social_engagement" path then
    Some [LStr "date"; LStr "platform"; LStr "category"; LStr "post_count";
          LStr "total_likes"; LStr "total_shares"; LStr "total_comments";
          LStr "avg_engagement"; LStr "avg_sentiment"]
  else if str_in "sensor_readings" path then
    Some [LStr "date"; LStr "sensor_type"; LStr "location"; LStr "reading_count";
          LStr "avg_value"; LStr "min_value"; LStr "max_value"; LStr "active_readings";
          LStr "error_readings"]
  else if str_in "correlation_data" path then
    Some [LStr "date"; LStr "total_requests"; LStr "error_count";
          LStr "avg_response_time"; LStr "post_count"; LStr "total_likes";
          LStr "total_shares"; LStr "total_comments"; LStr "avg_engagement";
          LStr "avg_sentiment"]
  else None.

(** The [try] block of [load_data]. *)
Definition read_export (path full_path : string) : M (option DataFrame) :=
  let cols := cols_for path in
  f ← read_file full_path;
  records ← lift (records_of f);
  df ← lift (read_csv_headerless cols records);
  df ← (if has_column (LStr "date") df
        then lift (to_datetime_column (LStr "date") df)
        else mret df);
  mret (Some df).

(** Where [load_data] reads from: the expected file, or else the first
    entry of the directory, or nothing when the directory is empty.
    Listing a directory that does not exist raises, outside any [try]. *)
Definition locate (path filename : string) : M (option string) :=
  let full_path := path_join path filename in
  found ← path_exists full_path;
  if negb found then
    print ("Warning: File not found at " +:+ full_path) ;;
    files ← listdir path;
    match files with
    | first :: _ =>
        let full_path := path_join path first in
        print ("Using file: " +:+ full_path) ;;
        mret (Some full_path)
    | [] =>
        print ("No files found in " +:+ path) ;;
        mret None
    end
  else mret (Some full_path).

Definition load_data (path filename : string) : M (option DataFrame) :=
  located ← locate path filename;
  match located with
  | None => mret None
  | Some full_path =>
      try_except (read_export path full_path) Exception
        (fun e => print ("Error loading data: " +:+ exn_str e) ;; mret None)
  end.

(** The default of the [filename] parameter. *)
Definition default_filename : string := "000000_0".

(** A field of the [.dt] accessor on one cell; NaT has none. *)
Definition dt (f : Timestamp → Cell) (c : Cell) : Cell :=
  match c with CTime t => f t | _ => CNaN end.

(** The calendar columns, each assigned from the [date] column. *)
Definition add_calendar (df : DataFrame) : DataFrame :=
  let date := LStr "date" in
  let df := assign (LStr "date_str") (fun r => dt (fun t => CStr (date_str t)) (cell_at date df r)) df in
  let df := assign (LStr "year") (fun r => dt (fun t => CInt (year t)) (cell_at date df r)) df in
  let df := assign (LStr "month") (fun r => dt (fun t => CInt (month t)) (cell_at date df r)) df in
  let df := assign (LStr "day") (fun r => dt (fun t => CInt (day t)) (cell_at date df r)) df in
  assign (LStr "day_of_week") (fun r => dt (fun t => CStr (day_name t)) (cell_at date df r)) df.

(** The body of the first loop on a loaded frame: the frame is changed in
    place, so the changed frame is what the dictionary holds afterwards. *)
Definition clean (name : string) (df : DataFrame) : DataFrame :=
  let df := if has_column (LStr "date") df then add_calendar df else df in
  assign (LStr "dataset_type") (fun _ => CStr name) df.

Definition output_path (name : string) : string :=
  "data/visualization/" +:+ name +:+ "_data.csv".

(** The first loop over [datasets.items()]; it returns the dictionary as
    the loop leaves it. *)
Fixpoint save_datasets (datasets : list (string * option DataFrame))
  : M (list (string * option DataFrame)) :=
  match datasets with
  | [] => mret []
  | (name, None) :: rest =>
      rest ← save_datasets rest;
      mret ((name, None) :: rest)
  | (name, Some df) :: rest =>
      let df := clean name df in
      write_file (output_path name) (Csv df) ;;
      print ("Saved " +:+ name +:+ " data to " +:+ output_path name) ;;
      rest ← save_datasets rest;
      mret ((name, Some df) :: rest)
  end.

Definition describe (name : string) (df : DataFrame) : Manifest.dataset := {|
  Manifest.filename := name +:+ "_data.csv";
  Manifest.record_count := len df;
  Manifest.columns := columns df;
  Manifest.sample_path := output_path name
|}.

(** The second loop, filling [metadata['datasets']]. *)
Definition describe_datasets (datasets : list (string * option DataFrame))
  : gmap string Manifest.dataset :=
  foldl (fun m item =>
           match item.2 with
           | Some df => <[item.1 := describe item.1 df]> m
           | None => m
           end) ∅ datasets.

Definition manifest_path : string := "data/visualization/tableau_metadata.json".

(** The keys of the [datasets] dictionary. *)
Definition dataset_names : list string :=
  ["web_traffic"; "web_hourly"; "social"; "sensor"; "correlation"].

(** The five calls of [load_data], in the order of the script. *)
Definition load_all : M (list (string * option DataFrame)) :=
  web_traffic_df ← load_data web_traffic_path default_filename;
  web_hourly_df ← load_data web_hourly_path default_filename;
  social_df ← load_data social_path default_filename;
  sensor_df ← load_data sensor_path default_filename;
  correlation_df ← load_data correlation_path default_filename;
  mret [("web_traffic", web_traffic_df); ("web_hourly", web_hourly_df);
        ("social", social_df); ("sensor", sensor_df);
        ("correlation", correlation_df)].

Definition prepare_data_for_visualization : M unit :=
  makedirs "data/visualization" ;;
  datasets ← load_all;
  datasets ← save_datasets datasets;
  generated_on ← now;
  let metadata := {|
    Manifest.project_name := "Big Data Pipeline with Hadoop and Hive";
    Manifest.generated_on := timestamp_str generated_on;
    Manifest.datasets := describe_datasets datasets
  |} in
  write_file manifest_path (Json metadata) ;;
  print "Data preparation for Tableau/Power BI completed." ;;
  print "Files saved to data/visualization/ directory.".

(** *** The columns [clean] adds *)

(** The labels of the calendar columns, in the order [clean] assigns them. *)
Definition calendar_columns : list label :=
  [LStr "date_str"; LStr "year"; LStr "month"; LStr "day"; LStr "day_of_week"].

(** The cells of the calendar columns, from the cell of [date]. *)
Definition calendar_cells (c : Cell) : list Cell :=
  [dt (fun t => CStr (date_str t)) c; dt (fun t => CInt (year t)) c;
   dt (fun t => CInt (month t)) c; dt (fun t => CInt (day t)) c;
   dt (fun t => CStr (day_name t)) c].

(** The name of a dataset in the manifest, by the aggregate it is loaded from. *)
Definition dataset_name (a : direct_processing.aggregate) : string :=
  match a with
  | direct_processing.AggWebTrafficByEndpoint => "web_traffic"
  | direct_processing.AggWebTrafficHourly => "web_hourly"
  | direct_processing.AggSocialEngagement => "social"
  | direct_processing.AggSensorReadings => "sensor"
  | direct_processing.AggCorrelationData => "correlation"
  end.

End prepare_for_visualization.

(** ** Sample data *)

Module Samples.
Import Py Pandas Os.

Definition quiet_shell (cmd : string) : Z * string := (0, EmptyString).

Definition empty_world : World :=
  mkWorld ∅ ∅ [] [] quiet_shell (mkTimestamp 2024 1 3 12 0 0) None.

Definition hit (timestamp endpoint : string) (status_code : Z) (user_id : option string)
  : collect_data.WebLog.t :=
  collect_data.WebLog.mk timestamp "203.0.113.7" user_id "GET" endpoint status_code
    (1 # 4) "Mozilla/5.0".

(** Two requests to [/home] on 2024-01-01, with status 200 and 404, and one
    request on the next day. *)
Definition web_access_logs : list collect_data.WebLog.t :=
  [hit "2024-01-01 09:15:00" "/home" 200 None;
   hit "2024-01-01 17:40:12" "/home" 404 (Some "u-17");
   hit "2024-01-02 08:00:00" "/about" 200 None].

Definition post (timestamp : string) (likes shares comments : Z)
  : collect_data.SocialPost.t :=
  collect_data.SocialPost.mk "p-1" "sam" timestamp "hello" likes shares comments
    "positive" "product" "twitter".

(** Posts on 2024-01-01 only. *)
Definition social_data : list collect_data.SocialPost.t :=
  [post "2024-01-01T10:00:00" 10 2 1; post "2024-01-01T11:30:00" 0 200 50].

Definition reading (timestamp status : string) (battery_level : Z)
  : collect_data.SensorReading.t :=
  collect_data.SensorReading.mk timestamp "SENS-1000" "co2" "room1" 415 battery_level
    status.

Definition sensor_data : list collect_data.SensorReading.t :=
  [reading "2024-01-01 00:00:00" "active" 20;
   reading "2024-01-01 00:05:00" "error" 81;
   reading "2024-01-02 00:00:00" "active" 100].

(** The three raw files in place, nothing else. *)
Definition raw_world : World :=
  set_files
    (<[process_data.sensor_input_file := SensorData sensor_data]>
       (<[process_data.social_input_file := SocialData social_data]>
          (<[process_data.web_input_file := WebAccessLogs web_access_logs]> ∅)))
    empty_world.

(** The sensor file is missing. *)
Definition no_sensor_world : World :=
  set_files (delete process_data.sensor_input_file (files raw_world)) raw_world.

(** A regular file sits where [data/processed] should be created. *)
Definition blocked_world : World :=
  set_files (<["data/processed" := Headerless []]> (files raw_world)) raw_world.

(** The processed tables of the samples. *)
Definition web_logs : list processed.WebLog.t :=
  match process_data.web_logs_frame web_access_logs with Ok df => df | Raise _ => [] end.

Definition social_posts : list processed.SocialPost.t :=
  match process_data.social_frame social_data with Ok df => df | Raise _ => [] end.

Definition sensor_readings : list processed.SensorReading.t :=
  match process_data.sensor_frame sensor_data with Ok df => df | Raise _ => [] end.

(** The world [process_data.py] leaves, and the one [direct_processing.py]
    leaves after it. *)
Definition processed_world : World := (process_data.main raw_world).2.

Definition exported_world : World :=
  (direct_processing.process_data_directly processed_world).2.

(** The sensor export has been removed from its directory. *)
Definition no_sensor_export : World :=
  set_files
    (delete (direct_processing.export_file direct_processing.AggSensorReadings)
       (files exported_world))
    exported_world.

(** A world in which the join of the summaries raises. *)
Definition join_failure (w : World) : World :=
  mkWorld (files w) (dirs w) (stdout w) (commands w) (shell w) (clock w)
    (Some "You are trying to merge on object and float64 columns").

(** A shell in which [docker cp] fails: the container is not running. *)
Definition no_container_shell (cmd : string) : Z * string :=
  if String.prefix "docker cp " cmd then (1, "No such container: namenode")
  else (0, EmptyString).

Definition no_container (w : World) : World :=
  mkWorld (files w) (dirs w) (stdout w) (commands w) no_container_shell (clock w)
    (join_error w).

(** The aggregates of the samples, as frames. *)
Definition exported_frame (a : direct_processing.aggregate) : DataFrame :=
  direct_processing.frame a web_logs social_posts sensor_readings
    (direct_processing.correlation_table processed_world web_logs social_posts).

(** A frame with a [date] column holding a timestamp and a missing value. *)
Definition dated_frame : DataFrame :=
  mkFrame [LStr "date"; LStr "total_requests"]
    [[CTime (mkTimestamp 2024 1 1 0 0 0); CInt 2]; [CNaN; CInt 1]].

(** A random source: the numbers differ from draw to draw, every moment is
    the third of January 2024 at ten, on the second. *)
Definition source : Random.Source :=
  fun i => Random.mkDraw (Z.of_nat (7 * i + 3)) (mkTimestamp 2024 1 3 10 0 0) 0 "x".

End Samples.

(** * Properties *)

Import Py Pandas Os.

(** ** Results and lists *)

Section Results.
Context {A B : Type} (f : A → result B).

Lemma mapM_ok_inv (l : list A) (k : list B) :
  mapM f l = Ok k → Forall2 (fun x y => f x = Ok y) l k.
Proof.
  revert k. induction l as [|x l IH]; intros k; simpl.
  - intros [= <-]. constructor.
  - destruct (f x) as [y|e] eqn:Hx; simpl; [|discriminate].
    destruct (mapM f l) as [k'|e] eqn:Hl; simpl; [|discriminate].
    intros [= <-]. constructor; auto.
Qed.

Lemma mapM_ok_intro (l : list A) (k : list B) :
  Forall2 (fun x y => f x = Ok y) l k → mapM f l = Ok k.
Proof.
  induction 1 as [|x y l k Hx _ IH]; simpl; [done|].
  rewrite Hx. simpl. rewrite IH. done.
Qed.

Lemma mapM_ok_elem (l : list A) (k : list B) (y : B) :
  mapM f l = Ok k → y ∈ k → ∃ x, x ∈ l ∧ f x = Ok y.
Proof.
  intros H%mapM_ok_inv Hy.
  apply list_elem_of_lookup_1 in Hy as [i Hi].
  destruct (Forall2_lookup_r _ _ _ _ _ H Hi) as (x & Hx & Hf).
  exists x. split; [by eapply list_elem_of_lookup_2|done].
Qed.
End Results.

(** ** Running a script *)

Section Running.
Context {A B : Type}.
Implicit Types (m : M A) (f : A → M B) (w : World).

Lemma bind_run m f w :
  (m ≫= f) w =
    match m w with
    | (Ok a, w') => f a w'
    | (Raise e, w') => (Raise e, w')
    end.
Proof. reflexivity. Qed.

Lemma bind_ok m f w a w1 : m w = (Ok a, w1) → (m ≫= f) w = f a w1.
Proof. intros H. by rewrite bind_run, H. Qed.

Lemma bind_raise m f w e w1 : m w = (Raise e, w1) → (m ≫= f) w = (Raise e, w1).
Proof. intros H. by rewrite bind_run, H. Qed.

Lemma bind_ok_inv m f w b w' :
  (m ≫= f) w = (Ok b, w') → ∃ a w1, m w = (Ok a, w1) ∧ f a w1 = (Ok b, w').
Proof.
  rewrite bind_run. destruct (m w) as [[a|e] w1]; [eauto|discriminate].
Qed.

Lemma bind_returns m f w :
  returns m w → (∀ a w1, returns (f a) w1) → returns (m ≫= f) w.
Proof.
  intros (a & w1 & Hm) Hf. unfold returns. rewrite (bind_ok _ _ _ _ _ Hm).
  apply Hf.
Qed.

Lemma try_run (body : M A) catches handler w :
  try_except body catches handler w =
    match body w with
    | (Ok a, w') => (Ok a, w')
    | (Raise e, w') => if catches e then handler e w' else (Raise e, w')
    end.
Proof. reflexivity. Qed.

(** A handler for [Exception] that returns makes the whole statement
    return. *)
Lemma try_catch_all_returns (body : M A) handler w :
  (∀ e w1, returns (handler e) w1) →
  returns (try_except body Exception handler) w.
Proof.
  intros Hh. unfold returns. rewrite try_run.
  destruct (body w) as [[a|e] w1]; [eauto|]. apply Hh.
Qed.
End Running.

Lemma print_returns line w : returns (print line) w.
Proof. by eexists _, _. Qed.

Lemma ret_returns {A} (a : A) w : returns (mret a) w.
Proof. by eexists _, _. Qed.

Section Preserves.
Context {X : Type} (proj : World → X).

Lemma preserves_ret {A} (a : A) : preserves proj (mret a : M A).
Proof. by intros w. Qed.

Lemma preserves_raise {A} e : preserves proj (raise e : M A).
Proof. by intros w. Qed.

Lemma preserves_lift {A} (r : result A) : preserves proj (lift r).
Proof. by intros w. Qed.

Lemma preserves_bind {A B} (m : M A) (f : A → M B) :
  preserves proj m → (∀ a, preserves proj (f a)) → preserves proj (m ≫= f).
Proof.
  intros Hm Hf w. rewrite bind_run. specialize (Hm w).
  destruct (m w) as [[a|e] w1]; simpl in *; [|done].
  by rewrite Hf.
Qed.

Lemma preserves_fmap {A B} (g : A → B) (m : M A) :
  preserves proj m → preserves proj (g <$> m).
Proof.
  intros Hm w. specialize (Hm w). unfold fmap, M_fmap.
  by destruct (m w) as [[a|e] w1].
Qed.

Lemma preserves_try {A} (body : M A) catches handler :
  preserves proj body → (∀ e, preserves proj (handler e)) →
  preserves proj (try_except body catches handler).
Proof.
  intros Hb Hh w. rewrite try_run. specialize (Hb w).
  destruct (body w) as [[a|e] w1]; simpl in *; [done|].
  destruct (catches e); [by rewrite Hh | done].
Qed.

Lemma preserves_for_each {A} (xs : list A) body :
  (∀ x, preserves proj (body x)) → preserves proj (for_each xs body).
Proof.
  intros Hb. induction xs as [|x xs IH]; simpl.
  - apply preserves_ret.
  - apply preserves_bind; auto.
Qed.

Lemma preserves_read_file p : preserves proj (read_file p).
Proof. intros w. unfold read_file. by destruct (files w !! p). Qed.

Lemma preserves_path_exists p : preserves proj (path_exists p).
Proof. by intros w. Qed.

Lemma preserves_listdir p : preserves proj (listdir p).
Proof. intros w. unfold listdir. by destruct (is_dir p w), (is_file p w). Qed.

Lemma preserves_now : preserves proj now.
Proof. by intros w. Qed.
End Preserves.

Lemma print_preserves_files line : preserves files (print line).
Proof. by intros w. Qed.
Lemma print_preserves_dirs line : preserves dirs (print line).
Proof. by intros w. Qed.
Lemma print_preserves_commands line : preserves commands (print line).
Proof. by intros w. Qed.

Lemma mkdirs_preserves_files t ps : preserves files (mkdirs t ps).
Proof.
  induction ps as [|p ps IH]; intros w; simpl; [done|].
  destruct (is_file p w); [done|]. by rewrite IH.
Qed.
Lemma mkdirs_preserves_commands t ps : preserves commands (mkdirs t ps).
Proof.
  induction ps as [|p ps IH]; intros w; simpl; [done|].
  destruct (is_file p w); [done|]. by rewrite IH.
Qed.
Lemma mkdirs_preserves_stdout t ps : preserves stdout (mkdirs t ps).
Proof.
  induction ps as [|p ps IH]; intros w; simpl; [done|].
  destruct (is_file p w); [done|]. by rewrite IH.
Qed.

Lemma write_file_preserves_dirs p f : preserves dirs (write_file p f).
Proof.
  intros w. unfold write_file. destruct (is_dir p w); [done|].
  by destruct (_ && _).
Qed.
Lemma write_file_preserves_commands p f : preserves commands (write_file p f).
Proof.
  intros w. unfold write_file. destruct (is_dir p w); [done|].
  by destruct (_ && _).
Qed.

Lemma run_preserves_files cmd : preserves files (run cmd).
Proof.
  intros w. unfold run. destruct (shell w cmd) as [rc err]. by destruct (rc =? 0).
Qed.

Lemma print_preserves_join_error line : preserves join_error (print line).
Proof. by intros w. Qed.
Lemma mkdirs_preserves_join_error t ps : preserves join_error (mkdirs t ps).
Proof.
  induction ps as [|p ps IH]; intros w; simpl; [done|].
  destruct (is_file p w); [done|]. by rewrite IH.
Qed.
Lemma write_file_preserves_join_error p f : preserves join_error (write_file p f).
Proof.
  intros w. unfold write_file. destruct (is_dir p w); [done|].
  by destruct (_ && _).
Qed.

Lemma makedirs_preserves_files p : preserves files (makedirs p).
Proof. apply mkdirs_preserves_files. Qed.
Lemma makedirs_preserves_join_error p : preserves join_error (makedirs p).
Proof. apply mkdirs_preserves_join_error. Qed.

Create HintDb frame discriminated.
#[local] Hint Resolve preserves_ret preserves_raise preserves_lift preserves_fmap
  preserves_read_file preserves_path_exists preserves_listdir preserves_now
  print_preserves_files print_preserves_dirs print_preserves_commands
  mkdirs_preserves_files mkdirs_preserves_commands mkdirs_preserves_stdout
  write_file_preserves_dirs write_file_preserves_commands run_preserves_files
  print_preserves_join_error mkdirs_preserves_join_error
  write_file_preserves_join_error makedirs_preserves_files
  makedirs_preserves_join_error : frame.

(** Walks through the binds, the [try] statements and the loops of a
    script and closes the leaves with the lemmas above. *)
Ltac frame :=
  repeat first
    [ progress intros
    | apply preserves_bind
    | apply preserves_try
    | apply preserves_for_each
    | match goal with |- preserves _ (match ?x with _ => _ end) => destruct x end
    | match goal with |- preserves _ (if ?x then _ else _) => destruct x end
    | solve [eauto with frame] ].

(** [os.makedirs] succeeds exactly when no regular file is in its way. *)
Lemma mkdirs_ok t ps w :
  Forall (fun p => is_file p w = false) ps →
  mkdirs t ps w = (Ok tt, set_dirs (list_to_set ps ∪ dirs w) w).
Proof.
  revert w. induction ps as [|p ps IH]; intros w Hps; simpl.
  - unfold set_dirs. destruct w; simpl. do 2 f_equal.
    symmetry. apply (left_id_L ∅ (∪)).
  - inversion Hps as [|?? Hp Hps']; subst. rewrite Hp.
    rewrite IH by done. unfold set_dirs; simpl. do 2 f_equal.
    by rewrite (assoc_L (∪)), (comm_L (∪) (list_to_set ps)).
Qed.

Lemma mkdirs_returns_inv t ps w :
  returns (mkdirs t ps) w → Forall (fun p => is_file p w = false) ps.
Proof.
  revert w. induction ps as [|p ps IH]; intros w (a & w' & H); [constructor|].
  simpl in H. destruct (is_file p w) eqn:Hp; [discriminate|].
  constructor; [done|]. apply (IH (set_dirs ({[p]} ∪ dirs w) w)). by eexists _, _.
Qed.

(** ** Dates as text *)

Section Dates.

Lemma digit_of_char_of (n : Z) : 0 ≤ n < 10 → digit_of (char_of n) = Some n.
Proof.
  intros Hn.
  assert (n = 0 ∨ n = 1 ∨ n = 2 ∨ n = 3 ∨ n = 4 ∨ n = 5 ∨ n = 6 ∨ n = 7 ∨ n = 8 ∨ n = 9)
    as Hcases by lia.
  repeat (destruct Hcases as [->|Hcases]; [reflexivity|]). by subst.
Qed.

Lemma read_two_digits (n acc : Z) (rest : string) :
  0 ≤ n < 100 →
  read_digits 2 acc (two_digits n +:+ rest) = Some (100 * acc + n, rest).
Proof.
  intros Hn. unfold two_digits. simpl.
  rewrite !digit_of_char_of by (apply Z.mod_pos_bound; lia).
  do 2 f_equal. Z.div_mod_to_equations. lia.
Qed.

Lemma read_four_digits (n : Z) (rest : string) :
  0 ≤ n < 10000 →
  read_digits 4 0 (four_digits n +:+ rest) = Some (n, rest).
Proof.
  intros Hn. unfold four_digits, two_digits. simpl.
  rewrite !digit_of_char_of by (apply Z.mod_pos_bound; lia).
  do 2 f_equal. Z.div_mod_to_equations. lia.
Qed.

Lemma parse_timestamp_valid (s : string) (t : Timestamp) :
  parse_timestamp s = Some t → valid_timestamp t = true.
Proof.
  unfold parse_timestamp. intros H.
  repeat (match type of H with
          | context [mbind _ ?m] => destruct m as [[]|]; simpl in H; try discriminate
          | context [mbind _ ?m] => destruct m; simpl in H; try discriminate
          end).
  repeat case_match; simplify_eq; done.
Qed.

Lemma read_two_digits_end (n acc : Z) :
  0 ≤ n < 100 → read_digits 2 acc (two_digits n) = Some (100 * acc + n, EmptyString).
Proof.
  intros Hn. unfold two_digits. simpl.
  rewrite !digit_of_char_of by (apply Z.mod_pos_bound; lia).
  do 2 f_equal. Z.div_mod_to_equations. lia.
Qed.

Lemma read_char_append (c : ascii) (rest : string) :
  read_char c (String c EmptyString +:+ rest) = Some rest.
Proof. unfold String.append. simpl. by rewrite Ascii.eqb_refl. Qed.

Lemma valid_timestamp_spec (t : Timestamp) :
  valid_timestamp t = true ↔
  (1 ≤ year t ≤ 9999 ∧ 1 ≤ month t ≤ 12 ∧
   1 ≤ day t ≤ days_in_month (year t) (month t) ∧
   0 ≤ hour t ≤ 23 ∧ 0 ≤ minute t ≤ 59 ∧ 0 ≤ second t ≤ 59).
Proof.
  unfold valid_timestamp, between. rewrite !andb_true_iff, !Z.leb_le. tauto.
Qed.

Lemma days_in_month_bound (y m : Z) : 28 ≤ days_in_month y m ≤ 31.
Proof. unfold days_in_month. repeat case_match; lia. Qed.

(** The text of a date reads back as that date. *)
Lemma parse_date_str (t : Timestamp) :
  valid_timestamp t = true → parse_timestamp (date_str t) = Some (midnight t).
Proof.
  intros Hv. pose proof (proj1 (valid_timestamp_spec t) Hv) as (Hy & Hm & Hd & _).
  pose proof (days_in_month_bound (year t) (month t)).
  unfold parse_timestamp, date_str.
  rewrite read_four_digits by lia. cbn [mbind option_bind].
  rewrite read_char_append. cbn [mbind option_bind].
  rewrite read_two_digits by lia. cbn [mbind option_bind].
  rewrite read_char_append. cbn [mbind option_bind].
  rewrite read_two_digits_end by lia. cbn [mbind option_bind].
  replace (100 * 0 + month t) with (month t) by lia.
  replace (100 * 0 + day t) with (day t) by lia.
  assert (valid_timestamp (mkTimestamp (year t) (month t) (day t) 0 0 0) = true) as ->;
    [|done].
  apply valid_timestamp_spec. simpl. lia.
Qed.

Lemma to_datetime_date_str (s : string) (t : Timestamp) :
  to_datetime s = Ok t → to_datetime (date_str t) = Ok (midnight t).
Proof.
  unfold to_datetime. destruct (parse_timestamp s) eqn:Hs; [|discriminate].
  intros [= ->]. by rewrite (parse_date_str t (parse_timestamp_valid _ _ Hs)).
Qed.
End Dates.

(** ** The derived columns of process_data.py *)

Section DerivedColumns.
Import process_data.

(** The bins of [battery_category], edge by edge. *)
Lemma battery_cut (x : Z) :
  cut battery_bins battery_labels x =
    if (0 <? x) && (x <=? 20) then Some "critical"
    else if (20 <? x) && (x <=? 50) then Some "low"
    else if (50 <? x) && (x <=? 80) then Some "medium"
    else if (80 <? x) && (x <=? 100) then Some "high"
    else None.
Proof. reflexivity. Qed.

Lemma battery_critical (x : Z) :
  cut battery_bins battery_labels x = Some "critical" ↔ 0 < x ≤ 20.
Proof.
  rewrite battery_cut.
  destruct (Z.ltb_spec 0 x), (Z.leb_spec x 20), (Z.ltb_spec 20 x), (Z.leb_spec x 50),
    (Z.ltb_spec 50 x), (Z.leb_spec x 80), (Z.ltb_spec 80 x), (Z.leb_spec x 100);
    simpl; split; intros; simplify_eq; try done; lia.
Qed.

Lemma battery_high (x : Z) :
  cut battery_bins battery_labels x = Some "high" ↔ 80 < x ≤ 100.
Proof.
  rewrite battery_cut.
  destruct (Z.ltb_spec 0 x), (Z.leb_spec x 20), (Z.ltb_spec 20 x), (Z.leb_spec x 50),
    (Z.ltb_spec 50 x), (Z.leb_spec x 80), (Z.ltb_spec 80 x), (Z.leb_spec x 100);
    simpl; split; intros; simplify_eq; try done; lia.
Qed.

(** Outside the bins there is no category: level 0 is not critical. *)
Lemma battery_zero_uncategorised : cut battery_bins battery_labels 0 = None.
Proof. reflexivity. Qed.

Lemma sensor_row_ok r p :
  sensor_row r = Ok p →
  processed.SensorReading.status p = collect_data.SensorReading.status r ∧
  processed.SensorReading.battery_level p = collect_data.SensorReading.battery_level r ∧
  processed.SensorReading.is_active p =
    String.eqb (collect_data.SensorReading.status r) "active" ∧
  processed.SensorReading.battery_category p =
    cut battery_bins battery_labels (collect_data.SensorReading.battery_level r).
Proof.
  unfold sensor_row.
  destruct (to_datetime _) as [t|e]; simpl; [|discriminate].
  intros [= <-]. done.
Qed.

(** C5. In a processed sensor table [is_active] holds exactly on the rows
    whose status is the text [active]; and for a battery level in the
    range the generator draws from (10 to 100), the category is
    [critical] exactly up to 20 and [high] exactly above 80. *)
Theorem sensor_flags_follow_status_and_battery
    (raw : list collect_data.SensorReading.t) (df : list processed.SensorReading.t)
    (p : processed.SensorReading.t) :
  sensor_frame raw = Ok df → p ∈ df →
  collect_data.generated_battery_level (processed.SensorReading.battery_level p) →
  (processed.SensorReading.is_active p = true ↔
     processed.SensorReading.status p = "active") ∧
  (processed.SensorReading.battery_category p = Some "critical" ↔
     processed.SensorReading.battery_level p ≤ 20) ∧
  (processed.SensorReading.battery_category p = Some "high" ↔
     processed.SensorReading.battery_level p > 80).
Proof.
  intros Hdf Hp [Hlo Hhi].
  destruct (mapM_ok_elem _ _ _ _ Hdf Hp) as (r & _ & Hr).
  apply sensor_row_ok in Hr as (Hs & Hb & Ha & Hc).
  rewrite Ha, Hc, Hs, Hb in *. split; [|split].
  - apply String.eqb_eq.
  - rewrite battery_critical. lia.
  - rewrite battery_high. lia.
Qed.

Lemma social_row_ok r p :
  social_row r = Ok p →
  processed.SocialPost.likes p = collect_data.SocialPost.likes r ∧
  processed.SocialPost.shares p = collect_data.SocialPost.shares r ∧
  processed.SocialPost.comments p = collect_data.SocialPost.comments r ∧
  processed.SocialPost.engagement_score p =
    collect_data.SocialPost.likes r + collect_data.SocialPost.shares r * 2
    + collect_data.SocialPost.comments r * 3.
Proof.
  unfold social_row.
  destruct (to_datetime _) as [t|e]; simpl; [|discriminate].
  intros [= <-]. done.
Qed.


Lemma web_logs_row_ok r p :
  web_logs_row r = Ok p →
  ∃ t, to_datetime (collect_data.WebLog.timestamp r) = Ok t ∧
    p = {|
      processed.WebLog.timestamp := t;
      processed.WebLog.ip_address := collect_data.WebLog.ip_address r;
      processed.WebLog.user_id := fillna "anonymous" (collect_data.WebLog.user_id r);
      processed.WebLog.method := collect_data.WebLog.method r;
      processed.WebLog.endpoint := collect_data.WebLog.endpoint r;
      processed.WebLog.status_code := collect_data.WebLog.status_code r;
      processed.WebLog.response_time := collect_data.WebLog.response_time r;
      processed.WebLog.user_agent := collect_data.WebLog.user_agent r;
      processed.WebLog.date := date_str t;
      processed.WebLog.hour := hour t;
      processed.WebLog.is_error := collect_data.WebLog.status_code r >=? 400
    |}.
Proof.
  unfold web_logs_row.
  destruct (to_datetime _) as [t|e]; simpl; [|discriminate].
  intros [= <-]. by exists t.
Qed.

(** C7. Row by row, a processed web-log table holds the text [anonymous]
    where the raw table has no [user_id], and the raw [user_id] where it
    has one; no row is added or dropped. *)
Theorem missing_user_id_becomes_anonymous
    (raw : list collect_data.WebLog.t) (df : list processed.WebLog.t) :
  web_logs_frame raw = Ok df →
  Forall2 (fun r p =>
    (collect_data.WebLog.user_id r = None →
       processed.WebLog.user_id p = "anonymous") ∧
    (∀ u, collect_data.WebLog.user_id r = Some u →
       processed.WebLog.user_id p = u)) raw df.
Proof.
  intros Hdf%mapM_ok_inv.
  eapply Forall2_impl; [exact Hdf|]. intros r p Hr. simpl in Hr.
  apply web_logs_row_ok in Hr as (t & _ & ->). simpl.
  split; [intros ->; done | intros u ->; done].
Qed.
End DerivedColumns.

(** ** Failures in process_data.py *)

Section RaisesOnly.
Context (P : exn → bool).

Lemma raises_only_ret {A} (a : A) : raises_only P (mret a : M A).
Proof. intros w e w'. discriminate. Qed.

Lemma raises_only_print line : raises_only P (print line).
Proof. intros w e w'. discriminate. Qed.

Lemma raises_only_bind {A B} (m : M A) (f : A → M B) :
  raises_only P m → (∀ a, raises_only P (f a)) → raises_only P (m ≫= f).
Proof.
  intros Hm Hf w e w'. rewrite bind_run.
  destruct (m w) as [[a|e1] w1] eqn:Hw.
  - apply Hf.
  - intros [= <- <-]. by eapply Hm.
Qed.

Lemma raises_only_for_each {A} (xs : list A) body :
  (∀ x, raises_only P (body x)) → raises_only P (for_each xs body).
Proof.
  intros Hb. induction xs as [|x xs IH]; simpl.
  - apply raises_only_ret.
  - apply raises_only_bind; auto.
Qed.

(** A [try] statement whose handler covers what the body raises, and
    whose handler returns, returns. *)
Lemma try_returns {A} (body : M A) handler w :
  raises_only P body → (∀ e w1, returns (handler e) w1) →
  returns (try_except body P handler) w.
Proof.
  intros Hb Hh. unfold returns. rewrite try_run.
  destruct (body w) as [[a|e] w1] eqn:Hw; [eauto|].
  rewrite (Hb _ _ _ Hw). apply Hh.
Qed.
End RaisesOnly.

Lemma run_raises_only cmd : raises_only is_CalledProcessError (run cmd).
Proof.
  intros w e w'. unfold run. destruct (shell w cmd) as [rc err].
  destruct (rc =? 0); [discriminate|]. by intros [= <- <-].
Qed.

Section Failures.
Import process_data.

Lemma failed_returns what e w : returns (failed what e) w.
Proof. by eexists _, _. Qed.

Lemma process_social_data_run w :
  process_social_data w =
    match social_try
            (printed ("Processing social data from " +:+ social_input_file +:+ "...") w)
    with
    | (Ok b, w') => (Ok b, w')
    | (Raise e, w') =>
        (Ok false, printed ("Error processing social data: " +:+ exn_str e) w')
    end.
Proof.
  unfold process_social_data. rewrite bind_run. unfold print at 1.
  rewrite try_run. by destruct (social_try _) as [[b|e] w'].
Qed.

Lemma process_sensor_data_run w :
  process_sensor_data w =
    match sensor_try
            (printed ("Processing sensor data from " +:+ sensor_input_file +:+ "...") w)
    with
    | (Ok b, w') => (Ok b, w')
    | (Raise e, w') =>
        (Ok false, printed ("Error processing sensor data: " +:+ exn_str e) w')
    end.
Proof.
  unfold process_sensor_data. rewrite bind_run. unfold print at 1.
  rewrite try_run. by destruct (sensor_try _) as [[b|e] w'].
Qed.

(** [process_web_logs] creates the directory first; what [os.makedirs]
    raises is raised to the caller. *)
Lemma process_web_logs_run w :
  process_web_logs w =
    match makedirs "data/processed" w with
    | (Raise e, w0) => (Raise e, w0)
    | (Ok _, w0) =>
        match web_logs_try
                (printed ("Processing web logs from " +:+ web_input_file +:+ "...") w0)
        with
        | (Ok b, w') => (Ok b, w')
        | (Raise e, w') =>
            (Ok false, printed ("Error processing web logs: " +:+ exn_str e) w')
        end
    end.
Proof.
  unfold process_web_logs. rewrite bind_run.
  destruct (makedirs _ w) as [[[]|e] w0]; [|done].
  rewrite bind_run. unfold print at 1.
  rewrite try_run. by destruct (web_logs_try _) as [[b|e] w'].
Qed.

Lemma process_social_data_never_raises : never_raises process_social_data.
Proof.
  intros w. unfold returns. rewrite process_social_data_run.
  destruct (social_try _) as [[b|e] w']; eauto.
Qed.

Lemma process_sensor_data_never_raises : never_raises process_sensor_data.
Proof.
  intros w. unfold returns. rewrite process_sensor_data_run.
  destruct (sensor_try _) as [[b|e] w']; eauto.
Qed.

Lemma process_web_logs_returns w :
  returns (makedirs "data/processed") w → returns process_web_logs w.
Proof.
  intros ([] & w0 & H0). unfold returns. rewrite process_web_logs_run, H0.
  destruct (web_logs_try _) as [[b|e] w']; eauto.
Qed.

Lemma upload_file_raises_only file : raises_only is_CalledProcessError (upload_file file).
Proof.
  unfold upload_file.
  repeat (apply raises_only_bind; [|intros _]);
    auto using run_raises_only, raises_only_print.
Qed.

Lemma upload_to_hdfs_never_raises : never_raises upload_to_hdfs.
Proof.
  intros w. unfold upload_to_hdfs.
  apply bind_returns; [apply print_returns|]. intros _ w1.
  apply try_returns.
  - apply raises_only_bind; [|intros _; apply raises_only_bind; [|intros _]].
    + apply raises_only_for_each, upload_file_raises_only.
    + apply raises_only_print.
    + apply raises_only_ret.
  - intros e w2. by eexists _, _.
Qed.

Lemma main_run w :
  main w =
    (web_logs_ok ← process_web_logs;
     social_data_ok ← process_social_data;
     sensor_data_ok ← process_sensor_data;
     finish web_logs_ok social_data_ok sensor_data_ok)
      (printed "Starting data processing..." w).
Proof. reflexivity. Qed.

Lemma finish_returns a b c w : returns (finish a b c) w.
Proof.
  unfold finish. apply bind_returns; [|intros; apply print_returns].
  destruct (a && b && c); [|apply print_returns].
  apply bind_returns; [apply upload_to_hdfs_never_raises|].
  intros; apply ret_returns.
Qed.

Lemma main_returns w :
  returns (makedirs "data/processed") w → returns main w.
Proof.
  intros Hmk. unfold returns. rewrite main_run.
  apply bind_returns.
  { apply process_web_logs_returns.
    apply mkdirs_returns_inv in Hmk. unfold returns, makedirs.
    rewrite (mkdirs_ok _ _ (printed _ w)); [by eexists _, _ | exact Hmk]. }
  intros a w1. apply bind_returns; [apply process_social_data_never_raises|].
  intros b w2. apply bind_returns; [apply process_sensor_data_never_raises|].
  intros c w3. apply finish_returns.
Qed.

(** A missing input file makes the [try] block raise. *)
Lemma web_logs_try_missing w :
  files w !! web_input_file = None → ∃ e w', web_logs_try w = (Raise e, w').
Proof.
  intros H. unfold web_logs_try, read_web_logs. rewrite !bind_run.
  unfold read_file. rewrite H. eauto.
Qed.

Lemma social_try_missing w :
  files w !! social_input_file = None → ∃ e w', social_try w = (Raise e, w').
Proof.
  intros H. unfold social_try, read_social_data. rewrite !bind_run.
  unfold read_file. rewrite H. eauto.
Qed.

Lemma sensor_try_missing w :
  files w !! sensor_input_file = None → ∃ e w', sensor_try w = (Raise e, w').
Proof.
  intros H. unfold sensor_try, read_sensor_data. rewrite !bind_run.
  unfold read_file. rewrite H. eauto.
Qed.

(** C8 (as amended). Once [os.makedirs('data/processed')] has succeeded,
    which [process_web_logs] calls before its [try] statement, each of the
    three functions returns a boolean to its caller from every world, the
    three are run one after the other and the script returns.  Whatever a
    [try] block raises is printed in the message of its function and
    answered with [False]; a missing input file makes the block raise. *)
Theorem processing_exceptions_are_caught (w : World) :
  returns (makedirs "data/processed") w →
  (returns process_web_logs w ∧
   never_raises process_social_data ∧
   never_raises process_sensor_data) ∧
  (∃ a b c w1 w2 w3,
     process_web_logs (printed "Starting data processing..." w) = (Ok a, w1) ∧
     process_social_data w1 = (Ok b, w2) ∧
     process_sensor_data w2 = (Ok c, w3) ∧
     main w = finish a b c w3 ∧ returns main w) ∧
  (∀ w0 e w',
     makedirs "data/processed" w = (Ok tt, w0) →
     web_logs_try
       (printed ("Processing web logs from " +:+ web_input_file +:+ "...") w0)
       = (Raise e, w') →
     process_web_logs w =
       (Ok false, printed ("Error processing web logs: " +:+ exn_str e) w')) ∧
  (∀ w0 e w',
     social_try
       (printed ("Processing social data from " +:+ social_input_file +:+ "...") w0)
       = (Raise e, w') →
     process_social_data w0 =
       (Ok false, printed ("Error processing social data: " +:+ exn_str e) w')) ∧
  (∀ w0 e w',
     sensor_try
       (printed ("Processing sensor data from " +:+ sensor_input_file +:+ "...") w0)
       = (Raise e, w') →
     process_sensor_data w0 =
       (Ok false, printed ("Error processing sensor data: " +:+ exn_str e) w')) ∧
  (∀ w0, files w0 !! web_input_file = None → ∃ e w', web_logs_try w0 = (Raise e, w')) ∧
  (∀ w0, files w0 !! social_input_file = None → ∃ e w', social_try w0 = (Raise e, w')) ∧
  (∀ w0, files w0 !! sensor_input_file = None → ∃ e w', sensor_try w0 = (Raise e, w')).
Proof.
  intros Hmk. split; [|split; [|split; [|split; [|split; [|split; [|split]]]]]].
  - auto using process_web_logs_returns, process_social_data_never_raises,
      process_sensor_data_never_raises.
  - assert (returns process_web_logs (printed "Starting data processing..." w))
      as (a & w1 & Ha).
    { apply process_web_logs_returns. apply mkdirs_returns_inv in Hmk.
      unfold returns, makedirs.
      rewrite (mkdirs_ok _ _ (printed _ w)); [by eexists _, _ | exact Hmk]. }
    destruct (process_social_data_never_raises w1) as (b & w2 & Hb).
    destruct (process_sensor_data_never_raises w2) as (c & w3 & Hc).
    exists a, b, c, w1, w2, w3. repeat split; try done.
    + rewrite main_run. rewrite (bind_ok _ _ _ _ _ Ha), (bind_ok _ _ _ _ _ Hb).
      by rewrite (bind_ok _ _ _ _ _ Hc).
    + by apply main_returns.
  - intros w0 e w' H0 He. by rewrite process_web_logs_run, H0, He.
  - intros w0 e w' He. by rewrite process_social_data_run, He.
  - intros w0 e w' He. by rewrite process_sensor_data_run, He.
  - apply web_logs_try_missing.
  - apply social_try_missing.
  - apply sensor_try_missing.
Qed.

(** The claim as first stated fails on [process_web_logs]: with a regular
    file at [data/processed], [os.makedirs] raises before the [try]
    statement is entered, the exception reaches the caller, and the script
    stops before the other two functions are run. *)
Lemma makedirs_failure_is_not_caught :
  (process_web_logs Samples.blocked_world).1 = Raise (FileExistsError "data/processed") ∧
  (main Samples.blocked_world).1 = Raise (FileExistsError "data/processed") ∧
  stdout (main Samples.blocked_world).2 = ["Starting data processing..."] ∧
  ¬ never_raises process_web_logs.
Proof.
  split; [vm_compute; reflexivity|].
  split; [vm_compute; reflexivity|].
  split; [vm_compute; reflexivity|].
  intros H. destruct (H Samples.blocked_world) as (b & w' & Hb).
  vm_compute in Hb. discriminate.
Qed.

(** ** The upload step *)

Lemma process_web_logs_preserves_commands : preserves commands process_web_logs.
Proof. unfold process_web_logs, web_logs_try, read_web_logs, failed, makedirs. frame. Qed.

Lemma process_social_data_preserves_commands : preserves commands process_social_data.
Proof. unfold process_social_data, social_try, read_social_data, failed. frame. Qed.

Lemma process_sensor_data_preserves_commands : preserves commands process_sensor_data.
Proof. unfold process_sensor_data, sensor_try, read_sensor_data, failed. frame. Qed.

(** C9. When one of the three flags is [False], the script goes from the
    world the third function left straight to the skip message and its
    last line: [upload_to_hdfs], whose first act is to print its banner,
    is not run, and no shell command has been run at all. *)
Theorem upload_needs_three_successes (w w1 w2 w3 : World) (a b c : bool) :
  process_web_logs (printed "Starting data processing..." w) = (Ok a, w1) →
  process_social_data w1 = (Ok b, w2) →
  process_sensor_data w2 = (Ok c, w3) →
  a && b && c = false →
  main w =
    (Ok tt, printed "Data processing completed." (printed skip_message w3)) ∧
  commands (main w).2 = commands w ∧
  upload_banner ∉ drop (length (stdout w3)) (stdout (main w).2).
Proof.
  intros Ha Hb Hc Habc.
  assert (main w =
    (Ok tt, printed "Data processing completed." (printed skip_message w3))) as Hmain.
  { rewrite main_run, (bind_ok _ _ _ _ _ Ha), (bind_ok _ _ _ _ _ Hb).
    rewrite (bind_ok _ _ _ _ _ Hc). unfold finish. by rewrite Habc. }
  split; [done|]. rewrite Hmain. simpl. split.
  - pose proof (process_sensor_data_preserves_commands w2) as H3.
    pose proof (process_social_data_preserves_commands w1) as H2.
    pose proof (process_web_logs_preserves_commands
                  (printed "Starting data processing..." w)) as H1.
    rewrite Hc in H3. rewrite Hb in H2. rewrite Ha in H1. simpl in *.
    by rewrite H3, H2, H1.
  - rewrite <- (assoc_L (++)), drop_app_length.
    intros H. apply elem_of_cons in H as [H|H]; [discriminate|].
    apply elem_of_cons in H as [H|H]; [discriminate|]. by apply elem_of_nil in H.
Qed.
End Failures.

(** ** Grouping *)

Section Grouping.
Context {R K T : Type} `{EqDecision K, KeyOrd K}.
Context (key : R → K) (agg : K → list R → T).

Lemma elem_of_group_keys (df : list R) (k : K) :
  k ∈ group_keys key df ↔ k ∈ key <$> df.
Proof.
  unfold group_keys. rewrite merge_sort_Permutation. apply elem_of_remove_dups.
Qed.

Lemma NoDup_group_keys (df : list R) : NoDup (group_keys key df).
Proof.
  unfold group_keys. rewrite merge_sort_Permutation. apply NoDup_remove_dups.
Qed.

Lemma group_nonempty (df : list R) (k : K) : k ∈ key <$> df → group key df k ≠ [].
Proof.
  intros (r & -> & Hr)%list_elem_of_fmap_1 Hnil.
  assert (r ∈ group key df (key r)) as Hin by (by apply list_elem_of_filter).
  rewrite Hnil in Hin. by apply elem_of_nil in Hin.
Qed.

Lemma elem_of_groupby_agg (df : list R) (row : T) :
  row ∈ groupby_agg key agg df ↔
  ∃ k, k ∈ key <$> df ∧ row = agg k (group key df k).
Proof.
  unfold groupby_agg. split.
  - intros (k & -> & Hk)%list_elem_of_fmap_1. exists k.
    by rewrite <- elem_of_group_keys.
  - intros (k & Hk & ->).
    apply (list_elem_of_fmap_2 (fun k => agg k (group key df k))).
    by rewrite elem_of_group_keys.
Qed.

(** The output has one row per key, in the order of the keys. *)
Lemma groupby_agg_keys (proj : T → K) (df : list R) :
  (∀ k g, proj (agg k g) = k) →
  proj <$> groupby_agg key agg df = group_keys key df.
Proof.
  intros Hproj. unfold groupby_agg. rewrite <- list_fmap_compose.
  rewrite <- (list_fmap_id (group_keys key df)) at 2.
  apply list_fmap_ext. intros i k _. apply Hproj.
Qed.
End Grouping.

Lemma sum_bool_count {A} (f : A → bool) (l : list A) :
  sum_bool (f <$> l) = Z.of_nat (length (filter (fun x => f x = true) l)).
Proof.
  induction l as [|x l IH]; [done|].
  rewrite filter_cons.
  change (sum_bool (f <$> x :: l)) with ((if f x then 1 else 0) + sum_bool (f <$> l)).
  rewrite IH. destruct (decide (f x = true)) as [->|Hx]; simpl length; [lia|].
  destruct (f x); [done|lia].
Qed.

Lemma filter_ext_in {A} (P Q : A → Prop) `{∀ x, Decision (P x), ∀ x, Decision (Q x)}
    (l : list A) :
  (∀ x, x ∈ l → P x ↔ Q x) → filter P l = filter Q l.
Proof.
  induction l as [|x l IH]; intros HPQ; [done|].
  rewrite !filter_cons, IH by (intros; apply HPQ; by right).
  destruct (decide (P x)) as [HP|HP], (decide (Q x)) as [HQ|HQ]; try done.
  - destruct HQ. apply HPQ; [by left|done].
  - destruct HP. apply HPQ; [by left|done].
Qed.

(** ** The traffic summary per date and endpoint *)

Section DailyTraffic.
Import process_data direct_processing.

Lemma is_error_of_frame raw web_logs r :
  web_logs_frame raw = Ok web_logs → r ∈ web_logs →
  processed.WebLog.is_error r = true ↔ 400 ≤ processed.WebLog.status_code r.
Proof.
  intros Hdf Hr. destruct (mapM_ok_elem _ _ _ _ Hdf Hr) as (x & _ & Hx).
  apply web_logs_row_ok in Hx as (t & _ & ->). simpl.
  rewrite Z.geb_le. done.
Qed.

(** C2. In the summary per date and endpoint of a processed web-log table
    every row reports as [total_requests] the number of rows of its group
    and as [error_count] the number of those with a status code of 400 or
    more; every row of the table falls in the group of exactly one summary
    row.  In particular, when the rows of 2024-01-01 for [/home] are two,
    with status 200 and 404, the summary row of that group reports 2
    requests and 1 error. *)
Theorem daily_traffic_counts_requests_and_errors
    (raw : list collect_data.WebLog.t) (web_logs : list processed.WebLog.t) :
  web_logs_frame raw = Ok web_logs →
  (∀ row, row ∈ web_traffic_daily web_logs →
     let g := filter (fun r => date_endpoint r =
                 (WebTrafficDaily.date row, WebTrafficDaily.endpoint row)) web_logs in
     g ≠ [] ∧
     WebTrafficDaily.total_requests row = Z.of_nat (length g) ∧
     WebTrafficDaily.error_count row =
       Z.of_nat (length (filter (fun r => 400 ≤ processed.WebLog.status_code r) g))) ∧
  (∀ r, r ∈ web_logs →
     ∃ row, row ∈ web_traffic_daily web_logs ∧
       (WebTrafficDaily.date row, WebTrafficDaily.endpoint row) = date_endpoint r) ∧
  NoDup ((fun row => (WebTrafficDaily.date row, WebTrafficDaily.endpoint row))
           <$> web_traffic_daily web_logs) ∧
  (∀ r1 r2,
     filter (fun r => date_endpoint r = ("2024-01-01", "/home")) web_logs = [r1; r2] →
     processed.WebLog.status_code r1 = 200 →
     processed.WebLog.status_code r2 = 404 →
     ∃ row, row ∈ web_traffic_daily web_logs ∧
       WebTrafficDaily.date row = "2024-01-01" ∧
       WebTrafficDaily.endpoint row = "/home" ∧
       WebTrafficDaily.total_requests row = 2 ∧
       WebTrafficDaily.error_count row = 1).
Proof.
  intros Hdf.
  assert (∀ row, row ∈ web_traffic_daily web_logs →
     let g := filter (fun r => date_endpoint r =
                 (WebTrafficDaily.date row, WebTrafficDaily.endpoint row)) web_logs in
     g ≠ [] ∧
     WebTrafficDaily.total_requests row = Z.of_nat (length g) ∧
     WebTrafficDaily.error_count row =
       Z.of_nat (length (filter (fun r => 400 ≤ processed.WebLog.status_code r) g)))
    as Hrows.
  { intros row (k & Hk & ->)%elem_of_groupby_agg. simpl.
    rewrite <- surjective_pairing.
    change (filter (fun r => date_endpoint r = k) web_logs)
      with (group date_endpoint web_logs k).
    split; [by apply group_nonempty|]. split.
    - unfold count. by rewrite length_fmap.
    - rewrite sum_bool_count. do 2 f_equal. apply filter_ext_in.
      intros r Hr. apply (is_error_of_frame raw web_logs); [done|].
      by apply list_elem_of_filter in Hr as [_ Hr]. }
  assert (∀ r, r ∈ web_logs →
     ∃ row, row ∈ web_traffic_daily web_logs ∧
       (WebTrafficDaily.date row, WebTrafficDaily.endpoint row) = date_endpoint r)
    as Hcover.
  { intros r Hr. eexists. split.
    - apply elem_of_groupby_agg. exists (date_endpoint r).
      split; [by apply list_elem_of_fmap_2|done].
    - done. }
  split; [exact Hrows|]. split; [exact Hcover|]. split.
  - unfold web_traffic_daily.
    rewrite (groupby_agg_keys _ _
               (fun row => (WebTrafficDaily.date row, WebTrafficDaily.endpoint row))).
    + apply NoDup_group_keys.
    + by intros [d e] g.
  - intros r1 r2 Hg H1 H2.
    assert (r1 ∈ web_logs) as Hr1.
    { assert (r1 ∈ [r1; r2]) as Hin by (by left).
      rewrite <- Hg in Hin. by apply list_elem_of_filter in Hin as [_ ?]. }
    assert (date_endpoint r1 = ("2024-01-01", "/home")) as Hk1.
    { assert (r1 ∈ [r1; r2]) as Hin by (by left).
      rewrite <- Hg in Hin. by apply list_elem_of_filter in Hin as [? _]. }
    destruct (Hcover r1 Hr1) as (row & Hrow & Hkey). rewrite Hk1 in Hkey.
    injection Hkey as Hd He.
    destruct (Hrows row Hrow) as (_ & Htot & Herr).
    rewrite Hd, He, Hg in Htot, Herr.
    exists row. repeat split; try done.
    rewrite Herr, !filter_cons, filter_nil, H1, H2. done.
Qed.
End DailyTraffic.

(** ** The join *)

Section Join.
Context {L R K T : Type} `{EqDecision K}.
Context (lkey : L → K) (rkey : R → K) (tkey : T → K) (row : L → R → T).

Lemma elem_of_merge (left : list L) (right : list R) (t : T) :
  t ∈ merge lkey rkey row left right ↔
  ∃ l r, l ∈ left ∧ r ∈ right ∧ rkey r = lkey l ∧ t = row l r.
Proof.
  unfold merge. rewrite list_elem_of_bind. split.
  - intros (l & (r & -> & Hr)%list_elem_of_fmap_1 & Hl).
    apply list_elem_of_filter in Hr as [Hk Hr]. by exists l, r.
  - intros (l & r & Hl & Hr & Hk & ->). exists l. split; [|done].
    apply list_elem_of_fmap_2. by apply list_elem_of_filter.
Qed.

(** A key occurs once in a column without duplicates. *)
Lemma filter_unique_key (right : list R) (k : K) :
  NoDup (rkey <$> right) →
  length (filter (fun r => rkey r = k) right) =
    if decide (k ∈ rkey <$> right) then 1%nat else 0%nat.
Proof.
  induction right as [|r right IH]; intros Hnd.
  - rewrite fmap_nil, filter_nil. by destruct (decide _) as [?%elem_of_nil|].
  - rewrite fmap_cons in Hnd. apply NoDup_cons in Hnd as [Hr Hnd].
    rewrite filter_cons, fmap_cons. specialize (IH Hnd).
    destruct (decide (rkey r = k)) as [<-|Hne].
    + destruct (decide (rkey r ∈ rkey <$> right)); [done|].
      simpl. rewrite IH. by destruct (decide _) as [|[]]; [|left].
    + rewrite IH.
      destruct (decide (k ∈ rkey <$> right)) as [Hin|Hin],
        (decide (k ∈ rkey r :: (rkey <$> right))) as [Hin'|Hin']; try done.
      * destruct Hin'. by right.
      * apply elem_of_cons in Hin' as [?|?]; [by destruct Hne|done].
Qed.

(** Against a right table with one row per key, the join keeps the left
    rows whose key the right table has, one output row each. *)
Lemma merge_keys (left : list L) (right : list R) :
  (∀ l r, tkey (row l r) = lkey l) →
  NoDup (rkey <$> right) →
  tkey <$> merge lkey rkey row left right =
    filter (fun k => k ∈ rkey <$> right) (lkey <$> left).
Proof.
  intros Hrow Hnd. unfold merge.
  induction left as [|l left IH]; [done|].
  rewrite bind_cons, fmap_app, IH, fmap_cons, filter_cons.
  pose proof (filter_unique_key right (lkey l) Hnd) as Hlen.
  destruct (decide (lkey l ∈ rkey <$> right)).
  - destruct (filter _ right) as [|r [|r' rs]]; try discriminate.
    simpl. by rewrite Hrow.
  - by destruct (filter _ right).
Qed.
End Join.

Section CorrelationTable.
Import process_data direct_processing.

Lemma web_daily_dates (web_logs : list processed.WebLog.t) :
  WebDaily.date <$> web_daily web_logs = group_keys processed.WebLog.date web_logs.
Proof. unfold web_daily. by apply groupby_agg_keys. Qed.

Lemma social_daily_dates (social_data : list processed.SocialPost.t) :
  SocialDaily.date <$> social_daily social_data =
    group_keys processed.SocialPost.date social_data.
Proof. unfold social_daily. by apply groupby_agg_keys. Qed.

(** The dates of the join, for summaries made by [groupby]. *)
Lemma inner_join_dates web_logs social_data :
  Correlation.date <$> inner_join (web_daily web_logs) (social_daily social_data) =
    filter (fun d => d ∈ SocialDaily.date <$> social_daily social_data)
      (WebDaily.date <$> web_daily web_logs).
Proof.
  unfold inner_join. apply merge_keys; [done|].
  rewrite social_daily_dates. apply NoDup_group_keys.
Qed.

Lemma correlation_data_run web social w :
  correlation_data web social w =
    match join_error w with
    | None => (Ok (inner_join web social), w)
    | Some msg =>
        (Ok (dummy_correlation web), printed ("Error merging data: " +:+ msg) w)
    end.
Proof.
  unfold correlation_data. rewrite try_run. unfold pd_merge.
  by destruct (join_error w).
Qed.

Lemma aggregate_and_save_run web_logs social_data sensor_data w :
  aggregate_and_save (WebLogsProcessed web_logs) (SocialProcessed social_data)
    (SensorProcessed sensor_data) w =
  (correlation ← correlation_data (web_daily web_logs) (social_daily social_data);
   save_exports web_logs social_data sensor_data correlation)
    (printed "Performing aggregations (equivalent to Hive queries)..." w).
Proof. reflexivity. Qed.

(** C3. When the join does not raise, the correlation table is the inner
    join on [date] of the two daily summaries: each of its rows pairs a
    web row and a social row of the same date, no date occurs twice, and
    its dates are those present in both processed tables.  With web dates
    2024-01-01 and 2024-01-02 against the social date 2024-01-01 it has one
    row.  When the join raises, the placeholder table is used instead. *)
Theorem correlation_is_inner_join_on_date
    (web_logs : list processed.WebLog.t) (social_data : list processed.SocialPost.t)
    (w : World) :
  let web := web_daily web_logs in
  let social := social_daily social_data in
  (join_error w = None →
     correlation_data web social w = (Ok (inner_join web social), w)) ∧
  (∀ msg, join_error w = Some msg →
     correlation_data web social w =
       (Ok (dummy_correlation web), printed ("Error merging data: " +:+ msg) w)) ∧
  (∀ row, row ∈ inner_join web social ↔
     ∃ l r, l ∈ web ∧ r ∈ social ∧ SocialDaily.date r = WebDaily.date l ∧
            row = join_row l r) ∧
  NoDup (Correlation.date <$> inner_join web social) ∧
  (∀ d, d ∈ Correlation.date <$> inner_join web social ↔
     d ∈ processed.WebLog.date <$> web_logs ∧
     d ∈ processed.SocialPost.date <$> social_data) ∧
  (WebDaily.date <$> web = ["2024-01-01"; "2024-01-02"] →
   SocialDaily.date <$> social = ["2024-01-01"] →
   length (inner_join web social) = 1%nat).
Proof.
  intros web social. split; [|split; [|split; [|split; [|split]]]].
  - intros Hj. by rewrite correlation_data_run, Hj.
  - intros msg Hj. by rewrite correlation_data_run, Hj.
  - intros row. apply elem_of_merge.
  - unfold web, social. rewrite inner_join_dates. apply NoDup_filter.
    rewrite web_daily_dates. apply NoDup_group_keys.
  - intros d. unfold web, social. rewrite inner_join_dates, list_elem_of_filter.
    rewrite web_daily_dates, social_daily_dates, !elem_of_group_keys. tauto.
  - intros Hweb Hsocial.
    rewrite <- (length_fmap Correlation.date).
    unfold web, social in *. rewrite inner_join_dates, Hweb, Hsocial.
    reflexivity.
Qed.

End CorrelationTable.

(** ** From the exports back to frames *)

Section WritingFiles.
Context {A : Type} (path : A → string) (content : A → File).

Lemma write_file_ok_inv p f w w' :
  write_file p f w = (Ok tt, w') → files w' = <[p := f]> (files w).
Proof.
  unfold write_file. destruct (is_dir p w); [discriminate|].
  destruct (_ && _); [discriminate|]. by intros [= <-].
Qed.

Lemma for_each_write_files (xs : list A) w w' :
  for_each xs (fun x => write_file (path x) (content x)) w = (Ok tt, w') →
  files w' = foldl (fun m x => <[path x := content x]> m) (files w) xs.
Proof.
  revert w. induction xs as [|x xs IH]; intros w; simpl.
  - by intros [= <-].
  - intros (a & w1 & Hw & Hrest)%bind_ok_inv. destruct a.
    apply write_file_ok_inv in Hw. apply IH in Hrest. by rewrite Hrest, Hw.
Qed.

Lemma foldl_insert_other (xs : list A) (m : gmap string File) (p : string) :
  p ∉ path <$> xs →
  foldl (fun m x => <[path x := content x]> m) m xs !! p = m !! p.
Proof.
  revert m. induction xs as [|x xs IH]; intros m Hp; [done|].
  rewrite fmap_cons in Hp. apply not_elem_of_cons in Hp as [Hne Hp].
  simpl. rewrite IH by done. by rewrite lookup_insert_ne.
Qed.

(** Writes to distinct paths do not overwrite one another. *)
Lemma foldl_insert_lookup (xs : list A) (m : gmap string File) (x : A) :
  NoDup (path <$> xs) → x ∈ xs →
  foldl (fun m x => <[path x := content x]> m) m xs !! path x = Some (content x).
Proof.
  revert m. induction xs as [|y xs IH]; intros m Hnd Hx.
  - by apply elem_of_nil in Hx.
  - rewrite fmap_cons in Hnd. apply NoDup_cons in Hnd as [Hy Hnd]. simpl.
    destruct (decide (path x ∈ path <$> xs)) as [Hin|Hout].
    + apply elem_of_cons in Hx as [->|Hx]; [done|]. by apply IH.
    + rewrite foldl_insert_other by done.
      apply elem_of_cons in Hx as [->|Hx]; [by rewrite lookup_insert_eq|].
      destruct Hout. by apply list_elem_of_fmap_2.
Qed.
End WritingFiles.

Section Exports.
Import process_data direct_processing.

Lemma export_files_distinct : NoDup (export_file <$> all_aggregates).
Proof. apply (bool_decide_unpack _). vm_compute. exact I. Qed.

Lemma elem_of_all_aggregates (a : aggregate) : a ∈ all_aggregates.
Proof. unfold all_aggregates. destruct a; set_solver. Qed.

(** When the saving part returns, each export file holds the records of
    its aggregate. *)
Lemma save_exports_files web_logs social_data sensor_data correlation w w' a :
  save_exports web_logs social_data sensor_data correlation w = (Ok tt, w') →
  files w' !! export_file a =
    Some (Headerless
            (csv_records (frame a web_logs social_data sensor_data correlation))).
Proof.
  unfold save_exports.
  intros ([] & w1 & H1 & H)%bind_ok_inv.
  apply bind_ok_inv in H as ([] & w2 & H2 & H).
  apply bind_ok_inv in H as ([] & w3 & H3 & H).
  apply bind_ok_inv in H as ([] & w4 & H4 & H).
  apply bind_ok_inv in H as ([] & w5 & H5 & H).
  injection H as <-. injection H5 as <-. injection H4 as <-.
  change (files (printed _ (printed _ (printed _ w3)))) with (files w3).
  unfold to_csv_headerless in H3.
  apply (for_each_write_files export_file
           (fun a => Headerless
              (csv_records (frame a web_logs social_data sensor_data correlation))))
    in H3.
  rewrite H3.
  apply (foldl_insert_lookup export_file
           (fun a => Headerless
              (csv_records (frame a web_logs social_data sensor_data correlation)))).
  - apply export_files_distinct.
  - apply elem_of_all_aggregates.
Qed.

Lemma pd_read_csv_ok p f header rest w :
  files w !! p = Some f → records_of f = Ok (header :: rest) →
  pd_read_csv p w = (Ok (f, imap header_label header), w).
Proof.
  intros Hf Hr. unfold pd_read_csv. rewrite bind_run. unfold read_file.
  by rewrite Hf, Hr.
Qed.

Lemma load_processed_ok web_logs social_data sensor_data w :
  files w !! web_output_file = Some (WebLogsProcessed web_logs) →
  files w !! social_output_file = Some (SocialProcessed social_data) →
  files w !! sensor_output_file = Some (SensorProcessed sensor_data) →
  ∃ w', load_processed w =
          (Ok (WebLogsProcessed web_logs, SocialProcessed social_data,
               SensorProcessed sensor_data), w').
Proof.
  intros Hw Hs Hn. unfold load_processed.
  rewrite (bind_ok _ _ _ _ _ (pd_read_csv_ok _ _ _ _ _ Hw eq_refl)).
  rewrite (bind_ok _ _ _ _ _ (pd_read_csv_ok _ _ _ _ _ Hs eq_refl)).
  rewrite (bind_ok _ _ _ _ _ (pd_read_csv_ok _ _ _ _ _ Hn eq_refl)).
  by eexists.
Qed.

Lemma load_processed_preserves_files : preserves files load_processed.
Proof. unfold load_processed, pd_read_csv. frame. Qed.

Lemma load_processed_preserves_join_error : preserves join_error load_processed.
Proof. unfold load_processed, pd_read_csv. frame. Qed.

(** A run of the whole script that returns, from a world holding the three
    processed tables, has written the five aggregates. *)
Lemma process_data_directly_exports web_logs social_data sensor_data w w' a :
  files w !! web_output_file = Some (WebLogsProcessed web_logs) →
  files w !! social_output_file = Some (SocialProcessed social_data) →
  files w !! sensor_output_file = Some (SensorProcessed sensor_data) →
  process_data_directly w = (Ok tt, w') →
  files w' !! export_file a =
    Some (Headerless
            (csv_records (frame a web_logs social_data sensor_data
                            (correlation_table w web_logs social_data)))).
Proof.
  intros Hw Hs Hn. unfold process_data_directly.
  intros ([] & w1 & H1 & H)%bind_ok_inv. injection H1 as <-.
  apply bind_ok_inv in H as ([] & w2 & H2 & H).
  apply bind_ok_inv in H as ([] & w3 & H3 & H).
  pose proof (makedirs_preserves_files "data/processed"
                (printed "Starting direct data processing..." w)) as F2.
  rewrite H2 in F2. simpl in F2.
  pose proof (makedirs_preserves_files "data/exports" w2) as F3.
  rewrite H3 in F3. simpl in F3.
  pose proof (makedirs_preserves_join_error "data/processed"
                (printed "Starting direct data processing..." w)) as J2.
  rewrite H2 in J2. simpl in J2.
  pose proof (makedirs_preserves_join_error "data/exports" w2) as J3.
  rewrite H3 in J3. simpl in J3.
  destruct (load_processed_ok web_logs social_data sensor_data w3) as (w4 & H4);
    [by rewrite F3, F2 ..|].
  pose proof (load_processed_preserves_join_error w3) as J4.
  rewrite H4 in J4. simpl in J4.
  rewrite bind_run, try_run in H. unfold fmap, M_fmap in H. rewrite H4 in H.
  rewrite aggregate_and_save_run, bind_run, correlation_data_run in H.
  change (join_error (printed _ w4)) with (join_error w4) in H.
  unfold correlation_table. rewrite <- J2, <- J3, <- J4.
  destruct (join_error w4); exact (save_exports_files _ _ _ _ _ _ a H).
Qed.
End Exports.

(** ** The aggregator runs to its end *)

Section Completion.
Import process_data direct_processing.

Lemma for_each_makedirs_ok {A} (path : A → string) (xs : list A) w :
  Forall (fun q => is_file q w = false) (xs ≫= fun x => ancestors (path x)) →
  for_each xs (fun x => makedirs (path x)) w =
    (Ok tt, set_dirs (list_to_set (xs ≫= fun x => ancestors (path x)) ∪ dirs w) w).
Proof.
  revert w. induction xs as [|x xs IH]; intros w Hfree.
  - simpl. unfold set_dirs. destruct w; simpl. do 2 f_equal.
    symmetry. apply (left_id_L ∅ (∪)).
  - rewrite bind_cons in Hfree. apply Forall_app in Hfree as [Hx Hxs].
    simpl for_each. erewrite bind_ok; [|by apply mkdirs_ok].
    rewrite IH by exact Hxs.
    rewrite bind_cons, list_to_set_app_L. unfold set_dirs.
    cbn [files dirs stdout commands shell clock join_error]. do 2 f_equal.
    by rewrite (assoc_L (∪)), (comm_L (∪) (list_to_set (ancestors (path x)))).
Qed.

Lemma write_file_ok p f w :
  is_dir p w = false → is_dir (dirname p) w = true →
  write_file p f w = (Ok tt, set_files (<[p := f]> (files w)) w).
Proof. intros Hp Hd. unfold write_file. by rewrite Hp, Hd, andb_false_r. Qed.

Lemma for_each_write_ok {A} (path : A → string) (content : A → File) (xs : list A) w :
  (∀ x, x ∈ xs → is_dir (path x) w = false ∧ is_dir (dirname (path x)) w = true) →
  returns (for_each xs (fun x => write_file (path x) (content x))) w.
Proof.
  revert w. induction xs as [|x xs IH]; intros w Hok.
  - apply ret_returns.
  - simpl for_each. destruct (Hok x) as [Hp Hd]; [by left|].
    unfold returns. erewrite bind_ok; [|by apply write_file_ok].
    apply IH. intros y Hy. apply Hok. by right.
Qed.

Lemma load_processed_preserves_dirs : preserves dirs load_processed.
Proof. unfold load_processed, pd_read_csv. frame. Qed.

(** No export file has the name of a directory the script creates, and
    the directory of each is one of them. *)
Lemma export_file_not_created (a : aggregate) :
  export_file a ∉ needed_dirs ≫= ancestors.
Proof. destruct a; apply (bool_decide_unpack _); vm_compute; exact I. Qed.

Lemma export_dir_created (a : aggregate) :
  dirname (export_file a) ∈ all_aggregates ≫= (fun a => ancestors (export_dir a)).
Proof. destruct a; apply (bool_decide_unpack _); vm_compute; exact I. Qed.

Lemma needed_dirs_ancestors :
  needed_dirs ≫= ancestors =
    ancestors "data/processed" ++ ancestors "data/exports" ++
    (all_aggregates ≫= fun a => ancestors (export_dir a)).
Proof. vm_compute. reflexivity. Qed.

Lemma is_dir_created p created w :
  is_dir p (set_dirs (list_to_set created ∪ dirs w) w) =
    bool_decide (p ∈ created) || is_dir p w.
Proof.
  unfold is_dir. cbn [dirs set_dirs].
  destruct (decide (p ∈ created)) as [Hc|Hc].
  - rewrite (bool_decide_true (p ∈ created)) by done.
    apply bool_decide_true. by apply elem_of_union_l, elem_of_list_to_set.
  - rewrite (bool_decide_false (p ∈ created)) by done.
    apply bool_decide_ext. rewrite elem_of_union, elem_of_list_to_set. tauto.
Qed.

Lemma save_exports_returns web_logs social_data sensor_data correlation w :
  Forall (fun q => is_file q w = false)
    (all_aggregates ≫= fun a => ancestors (export_dir a)) →
  Forall (fun a => is_dir (export_file a) w = false) all_aggregates →
  returns (save_exports web_logs social_data sensor_data correlation) w.
Proof.
  intros Hfree Hnodir. unfold returns, save_exports.
  erewrite bind_ok; [|reflexivity].
  erewrite bind_ok; [|by apply (for_each_makedirs_ok export_dir)].
  apply bind_returns.
  - apply (for_each_write_ok export_file). intros a _.
    rewrite !is_dir_created. split.
    + rewrite bool_decide_false.
      * apply (proj1 (Forall_forall _ _) Hnodir), elem_of_all_aggregates.
      * intros Hin. apply (export_file_not_created a).
        rewrite needed_dirs_ancestors, !elem_of_app. by right; right.
    + rewrite bool_decide_true; [done|apply export_dir_created].
  - intros [] w1. repeat (apply bind_returns; [apply print_returns|intros [] ?]).
    apply print_returns.
Qed.

(** With the processed tables in place and nothing in its way, the script
    returns, whether or not the join raises. *)
Lemma process_data_directly_returns web_logs social_data sensor_data w :
  files w !! web_output_file = Some (WebLogsProcessed web_logs) →
  files w !! social_output_file = Some (SocialProcessed social_data) →
  files w !! sensor_output_file = Some (SensorProcessed sensor_data) →
  unobstructed w →
  returns process_data_directly w.
Proof.
  intros Hw Hs Hn [Hfree Hnodir]. unfold returns, process_data_directly.
  rewrite needed_dirs_ancestors in Hfree.
  apply Forall_app in Hfree as [Hfree1 Hfree]. apply Forall_app in Hfree as [Hfree2 Hfree].
  erewrite bind_ok; [|reflexivity].
  erewrite bind_ok; [|by apply mkdirs_ok].
  erewrite bind_ok; [|by apply mkdirs_ok].
  set (w3 := set_dirs (list_to_set (ancestors "data/exports") ∪ _) _).
  destruct (load_processed_ok web_logs social_data sensor_data w3) as (w4 & H4);
    [done..|].
  pose proof (load_processed_preserves_files w3) as F4.
  pose proof (load_processed_preserves_dirs w3) as D4.
  rewrite H4 in F4, D4. cbn [snd] in F4, D4.
  rewrite bind_run, try_run. unfold fmap, M_fmap. rewrite H4.
  rewrite aggregate_and_save_run, bind_run, correlation_data_run.
  assert (∀ corr w5, files w5 = files w4 → dirs w5 = dirs w4 →
            returns (save_exports web_logs social_data sensor_data corr) w5) as Hsave.
  { intros corr w5 F5 D5. apply save_exports_returns.
    - eapply Forall_impl; [exact Hfree|]. intros q Hq.
      unfold is_file in *. by rewrite F5, F4.
    - apply Forall_forall. intros a _. unfold is_dir. rewrite D5, D4.
      fold (is_dir (export_file a) w3). subst w3. rewrite !is_dir_created.
      rewrite !bool_decide_false.
      + apply (proj1 (Forall_forall _ _) Hnodir), elem_of_all_aggregates.
      + intros Hin. apply (export_file_not_created a).
        rewrite needed_dirs_ancestors, !elem_of_app. by left.
      + intros Hin. apply (export_file_not_created a).
        rewrite needed_dirs_ancestors, !elem_of_app. by right; left. }
  destruct (join_error _); apply Hsave; done.
Qed.

(** C4. When the join raises, the [try] statement does not: it prints the
    error and yields the placeholder table, which has one row per row of
    the daily web summary, with the web columns of that row and the
    constants 100, 500, 200, 300, 50 and 0.5 in the social columns.  The
    script then goes on to save the five tables with the placeholder; with
    the three processed tables in place and nothing in the way of its
    directories and files it returns, and the correlation export holds the
    placeholder. *)
Theorem join_failure_yields_placeholder
    (web : list WebDaily.t) (social : list SocialDaily.t) (w : World) (msg : string) :
  join_error w = Some msg →
  correlation_data web social w =
    (Ok (dummy_correlation web), printed ("Error merging data: " +:+ msg) w) ∧
  length (dummy_correlation web) = length web ∧
  Forall2 (fun l row =>
    Correlation.date row = WebDaily.date l ∧
    Correlation.total_requests row = WebDaily.total_requests l ∧
    Correlation.error_count row = WebDaily.error_count l ∧
    Correlation.avg_response_time row = WebDaily.avg_response_time l ∧
    Correlation.post_count row = 100 ∧
    Correlation.total_likes row = 500 ∧
    Correlation.total_shares row = 200 ∧
    Correlation.total_comments row = 300 ∧
    Correlation.avg_engagement row = Some (inject_Z 50) ∧
    Correlation.avg_sentiment row = Some (1 # 2)%Q) web (dummy_correlation web) ∧
  (∀ web_logs social_data sensor_data,
     web = web_daily web_logs → social = social_daily social_data →
     aggregate_and_save (WebLogsProcessed web_logs) (SocialProcessed social_data)
       (SensorProcessed sensor_data) w =
     save_exports web_logs social_data sensor_data (dummy_correlation web)
       (printed ("Error merging data: " +:+ msg)
          (printed "Performing aggregations (equivalent to Hive queries)..." w))) ∧
  (∀ web_logs social_data sensor_data,
     files w !! web_output_file = Some (WebLogsProcessed web_logs) →
     files w !! social_output_file = Some (SocialProcessed social_data) →
     files w !! sensor_output_file = Some (SensorProcessed sensor_data) →
     unobstructed w →
     ∃ w', process_data_directly w = (Ok tt, w') ∧
       files w' !! export_file AggCorrelationData =
         Some (Headerless
                 (Correlation.cells <$> dummy_correlation (web_daily web_logs)))).
Proof.
  intros Hj. split; [|split; [|split; [|split]]].
  - by rewrite correlation_data_run, Hj.
  - unfold dummy_correlation. apply length_fmap.
  - unfold dummy_correlation. apply Forall2_fmap_r, Forall_Forall2_diag.
    apply Forall_forall. intros l _. by repeat split.
  - intros web_logs social_data sensor_data -> ->.
    rewrite aggregate_and_save_run, bind_run, correlation_data_run.
    change (join_error (printed _ w)) with (join_error w). by rewrite Hj.
  - intros web_logs social_data sensor_data Hfw Hfs Hfn Hfree.
    destruct (process_data_directly_returns _ _ _ w Hfw Hfs Hfn Hfree) as ([] & w' & Hrun).
    exists w'. split; [exact Hrun|].
    rewrite (process_data_directly_exports _ _ _ _ _ AggCorrelationData Hfw Hfs Hfn Hrun).
    unfold correlation_table. rewrite Hj. do 2 f_equal.
    unfold csv_records, frame. cbn [rows].
    rewrite <- list_fmap_compose. apply list_fmap_ext. intros i row _.
    unfold compose, Correlation.cells. cbn [fmap list_fmap csv_cell].
    by destruct (Correlation.avg_response_time row),
         (Correlation.avg_engagement row), (Correlation.avg_sentiment row).
Qed.
End Completion.

Section Reading.

Lemma filter_all {A} (P : A → Prop) `{∀ x, Decision (P x)} (l : list A) :
  Forall P l → filter P l = l.
Proof.
  induction 1 as [|x l Hx _ IH]; [done|].
  by rewrite filter_cons, decide_True, IH.
Qed.

Lemma mapM_total {A B} (f : A → result B) (l : list A) :
  Forall (fun x => ∃ y, f x = Ok y) l →
  ∃ k, mapM f l = Ok k ∧ length k = length l.
Proof.
  induction 1 as [|x l [y Hy] _ (k & Hk & Hlen)].
  - by exists [].
  - exists (y :: k). simpl. rewrite Hy. simpl. rewrite Hk. simpl.
    by rewrite Hlen.
Qed.

(** With as many fields in every record as there are names, the reader
    yields the records under the names. *)
Lemma read_csv_headerless_exact (names : list label) (lines : list (list Cell)) :
  names ≠ [] →
  Forall (fun l => length l = length names) lines →
  read_csv_headerless (Some names) lines = Ok (mkFrame names lines).
Proof.
  intros Hnames Hlines. unfold read_csv_headerless.
  rewrite filter_all.
  2:{ eapply Forall_impl; [exact Hlines|]. intros [|c l] Hl; [|done].
      destruct names; [done|discriminate]. }
  destruct lines as [|l0 lines]; [done|].
  pose proof (Forall_inv Hlines) as H0. simpl in H0.
  rewrite H0, Nat.max_id.
  assert (existsb (fun l : list Cell => Nat.ltb (length names) (length l))
            (l0 :: lines) = false) as ->.
  { apply not_true_is_false. intros (l & Hl & Hlt)%existsb_exists.
    apply list_elem_of_In in Hl.
    rewrite (proj1 (Forall_forall _ _) Hlines l Hl) in Hlt.
    by rewrite Nat.ltb_irrefl in Hlt. }
  do 2 f_equal. rewrite Nat.sub_diag.
  rewrite <- (list_fmap_id (l0 :: lines)) at 2.
  apply Forall_fmap_ext_1. eapply Forall_impl; [exact Hlines|].
  intros l Hl. unfold pad. rewrite Hl, Nat.sub_diag. simpl.
  by rewrite app_nil_r.
Qed.

Lemma to_datetime_column_dated (cols : list label) (rs : list (list Cell)) :
  index_of (LStr "date") cols = Some O →
  Forall dated_record rs →
  ∃ rs', to_datetime_column (LStr "date") (mkFrame cols rs) = Ok (mkFrame cols rs') ∧
         length rs' = length rs.
Proof.
  intros Hi Hrs. unfold to_datetime_column. simpl. rewrite Hi.
  destruct (mapM_total
              (fun r : list Cell =>
                 c ← to_datetime_cell (default CNaN (r !! O)); mret (<[O := c]> r)) rs)
    as (rs' & Hrs' & Hlen).
  { eapply Forall_impl; [exact Hrs|]. intros r (d & rest & -> & Hd). simpl.
    unfold readable_date in Hd. destruct (to_datetime d); [|discriminate].
    by eexists. }
  exists rs'. by rewrite Hrs'.
Qed.

Lemma csv_records_dated (df : DataFrame) :
  Forall dated_record (rows df) → Forall dated_record (csv_records df).
Proof.
  intros H. unfold csv_records. apply Forall_fmap.
  eapply Forall_impl; [exact H|]. intros r (d & rest & -> & Hd). simpl.
  by exists d, (csv_cell <$> rest).
Qed.

Lemma csv_records_width (df : DataFrame) (n : nat) :
  Forall (fun r => length r = n) (rows df) →
  Forall (fun r => length r = n) (csv_records df).
Proof.
  intros H. unfold csv_records. apply Forall_fmap.
  eapply Forall_impl; [exact H|]. intros r Hr. simpl. by rewrite length_fmap.
Qed.
End Reading.

Section Loading.
Import direct_processing prepare_for_visualization.

Lemma load_path_file (a : aggregate) :
  path_join (load_path a) default_filename = export_file a.
Proof. by destruct a. Qed.

Lemma cols_for_load_path (a : aggregate) :
  cols_for (load_path a) = Some (assigned_columns a).
Proof. by destruct a. Qed.

Lemma date_is_first_column (a : aggregate) :
  index_of (LStr "date") (assigned_columns a) = Some O.
Proof. by destruct a. Qed.

Lemma read_file_ok p f w : files w !! p = Some f → read_file p w = (Ok f, w).
Proof. intros Hf. unfold read_file. by rewrite Hf. Qed.

Lemma locate_found path filename f w :
  files w !! path_join path filename = Some f →
  locate path filename w = (Ok (Some (path_join path filename)), w).
Proof.
  intros Hf. unfold locate.
  erewrite bind_ok; [|reflexivity]. unfold is_file.
  by rewrite Hf, bool_decide_true.
Qed.

(** [load_data] on an export file that holds the records of a frame with
    the assigned columns and readable dates: the frame comes back with as
    many rows and with the hardcoded names, which are the assigned ones. *)
Lemma load_data_exported (a : aggregate) (df : DataFrame) (w : World) :
  files w !! export_file a = Some (Headerless (csv_records df)) →
  Forall (fun r => length r = length (assigned_columns a)) (rows df) →
  Forall dated_record (rows df) →
  ∃ loaded, load_data (load_path a) default_filename w = (Ok (Some loaded), w) ∧
    len loaded = len df ∧ columns loaded = assigned_columns a.
Proof.
  intros Hf Hwidth Hdated.
  destruct (to_datetime_column_dated (assigned_columns a) (csv_records df))
    as (rs' & Hrs' & Hlen);
    [apply date_is_first_column | by apply csv_records_dated |].
  exists (mkFrame (assigned_columns a) rs'). split; [|split; [|done]].
  - unfold load_data.
    erewrite bind_ok; [|apply (locate_found _ _ (Headerless (csv_records df)));
                        by rewrite load_path_file].
    rewrite load_path_file, try_run. unfold read_export.
    erewrite bind_ok; [|by apply read_file_ok].
    erewrite bind_ok; [|reflexivity].
    erewrite bind_ok.
    2:{ unfold lift. rewrite cols_for_load_path, read_csv_headerless_exact;
          [reflexivity | by destruct a | by apply csv_records_width]. }
    assert (has_column (LStr "date") (mkFrame (assigned_columns a) (csv_records df))
            = true) as -> by (by destruct a).
    erewrite bind_ok; [|unfold lift; by rewrite Hrs'].
    reflexivity.
  - unfold len. simpl. rewrite Hlen. unfold csv_records. by rewrite length_fmap.
Qed.
End Loading.

(** ** The round trip from the aggregator to the preparer *)

Section RoundTrip.
Import process_data direct_processing prepare_for_visualization.

Lemma readable_date_str (s : string) (t : Timestamp) :
  to_datetime s = Ok t → readable_date (date_str t).
Proof.
  intros H. unfold readable_date. by rewrite (to_datetime_date_str s t H).
Qed.

Lemma web_logs_frame_dates raw web_logs :
  web_logs_frame raw = Ok web_logs →
  Forall (fun r => readable_date (processed.WebLog.date r)) web_logs.
Proof.
  intros Hdf. apply Forall_forall. intros p Hp.
  destruct (mapM_ok_elem _ _ _ _ Hdf Hp) as (r & _ & Hr).
  apply web_logs_row_ok in Hr as (t & Ht & ->). simpl.
  by eapply readable_date_str.
Qed.

Lemma social_frame_dates raw social_data :
  social_frame raw = Ok social_data →
  Forall (fun r => readable_date (processed.SocialPost.date r)) social_data.
Proof.
  intros Hdf. apply Forall_forall. intros p Hp.
  destruct (mapM_ok_elem _ _ _ _ Hdf Hp) as (r & _ & Hr).
  unfold social_row in Hr.
  destruct (to_datetime _) as [t|e] eqn:Ht; simpl in Hr; [|discriminate].
  injection Hr as <-. simpl. by eapply readable_date_str.
Qed.

Lemma sensor_frame_dates raw sensor_data :
  sensor_frame raw = Ok sensor_data →
  Forall (fun r => readable_date (processed.SensorReading.date r)) sensor_data.
Proof.
  intros Hdf. apply Forall_forall. intros p Hp.
  destruct (mapM_ok_elem _ _ _ _ Hdf Hp) as (r & _ & Hr).
  unfold sensor_row in Hr.
  destruct (to_datetime _) as [t|e] eqn:Ht; simpl in Hr; [|discriminate].
  injection Hr as <-. simpl. by eapply readable_date_str.
Qed.

Lemma frame_width a web_logs social_data sensor_data correlation :
  Forall (fun r => length r = length (assigned_columns a))
    (rows (frame a web_logs social_data sensor_data correlation)).
Proof.
  destruct a; simpl; apply Forall_fmap, Forall_forall; by intros.
Qed.

(** The date of a summary row is the date of a row of its group. *)
Lemma key_of_row {R K} (key : R → K) (P : K → Prop) (df : list R) (k : K) :
  Forall (fun r => P (key r)) df → k ∈ key <$> df → P k.
Proof.
  intros Hdf (r & -> & Hr)%list_elem_of_fmap_1.
  by apply (proj1 (Forall_forall _ _) Hdf).
Qed.

Lemma web_daily_readable web_logs :
  Forall (fun r => readable_date (processed.WebLog.date r)) web_logs →
  Forall (fun l => readable_date (WebDaily.date l)) (web_daily web_logs).
Proof.
  intros Hw. apply Forall_forall.
  intros row (k & Hk & ->)%elem_of_groupby_agg. simpl.
  by apply (key_of_row processed.WebLog.date readable_date web_logs).
Qed.

Lemma correlation_table_readable w web_logs social_data :
  Forall (fun r => readable_date (processed.WebLog.date r)) web_logs →
  Forall (fun c => readable_date (Correlation.date c))
    (correlation_table w web_logs social_data).
Proof.
  intros Hw%web_daily_readable. unfold correlation_table.
  destruct (join_error w).
  - unfold dummy_correlation. apply Forall_fmap.
    eapply Forall_impl; [exact Hw|]. by intros l Hl.
  - apply Forall_forall. intros row (l & r & Hl & _ & _ & ->)%elem_of_merge.
    simpl. by apply (proj1 (Forall_forall _ _) Hw).
Qed.

Lemma frame_dated a w web_logs social_data sensor_data :
  Forall (fun r => readable_date (processed.WebLog.date r)) web_logs →
  Forall (fun r => readable_date (processed.SocialPost.date r)) social_data →
  Forall (fun r => readable_date (processed.SensorReading.date r)) sensor_data →
  Forall dated_record
    (rows (frame a web_logs social_data sensor_data
             (correlation_table w web_logs social_data))).
Proof.
  intros Hw Hs Hn. destruct a; simpl; apply Forall_fmap, Forall_forall.
  - intros row (k & Hk & ->)%elem_of_groupby_agg. eexists _, _. split; [done|].
    simpl. apply (key_of_row date_endpoint (fun k => readable_date k.1) web_logs);
      [exact Hw|done].
  - intros row (k & Hk & ->)%elem_of_groupby_agg. eexists _, _. split; [done|].
    simpl.
    apply (key_of_row
             (fun r => (processed.WebLog.date r, processed.WebLog.hour r))
             (fun k => readable_date k.1) web_logs); [exact Hw|done].
  - intros row (k & Hk & ->)%elem_of_groupby_agg. eexists _, _. split; [done|].
    simpl.
    apply (key_of_row
             (fun r => (processed.SocialPost.date r, processed.SocialPost.platform r,
                        processed.SocialPost.category r))
             (fun k => readable_date k.1.1) social_data); [exact Hs|done].
  - intros row (k & Hk & ->)%elem_of_groupby_agg. eexists _, _. split; [done|].
    simpl.
    apply (key_of_row
             (fun r => (processed.SensorReading.date r,
                        processed.SensorReading.sensor_type r,
                        processed.SensorReading.location r))
             (fun k => readable_date k.1.1) sensor_data); [exact Hn|done].
  - intros row Hrow. eexists _, _. split; [done|].
    by apply (proj1 (Forall_forall _ _)
                (correlation_table_readable w web_logs social_data Hw)).
Qed.

(** C1. Take the three processed tables as [process_data.py] makes them
    and a run of [process_data_directly] over them that returns.  Then
    every aggregate was written without header to its export file, and
    [load_data] on the directory of the aggregate returns a frame with as
    many rows as the aggregate written and with the column names the
    aggregator gave it. *)
Theorem export_load_roundtrip
    (raw_web : list collect_data.WebLog.t) (raw_social : list collect_data.SocialPost.t)
    (raw_sensor : list collect_data.SensorReading.t)
    (web_logs : list processed.WebLog.t) (social_data : list processed.SocialPost.t)
    (sensor_data : list processed.SensorReading.t)
    (w w' : World) (a : aggregate) :
  web_logs_frame raw_web = Ok web_logs →
  social_frame raw_social = Ok social_data →
  sensor_frame raw_sensor = Ok sensor_data →
  files w !! web_output_file = Some (WebLogsProcessed web_logs) →
  files w !! social_output_file = Some (SocialProcessed social_data) →
  files w !! sensor_output_file = Some (SensorProcessed sensor_data) →
  process_data_directly w = (Ok tt, w') →
  let written :=
    frame a web_logs social_data sensor_data
      (correlation_table w web_logs social_data) in
  files w' !! export_file a = Some (Headerless (csv_records written)) ∧
  ∃ loaded,
    load_data (load_path a) default_filename w' = (Ok (Some loaded), w') ∧
    len loaded = len written ∧
    columns loaded = assigned_columns a ∧
    columns loaded = columns written.
Proof.
  intros Hweb Hsocial Hsensor Hfw Hfs Hfn Hrun written.
  pose proof (process_data_directly_exports _ _ _ _ _ a Hfw Hfs Hfn Hrun) as Hfile.
  split; [exact Hfile|].
  destruct (load_data_exported a written w' Hfile) as (loaded & Hload & Hlen & Hcols).
  - apply frame_width.
  - apply frame_dated;
      eauto using web_logs_frame_dates, social_frame_dates, sensor_frame_dates.
  - exists loaded. by repeat split.
Qed.
End RoundTrip.

(** ** The outputs of the preparer *)

Section OptionalInserts.
Context {A V : Type} (key : A → string) (val : A → option V).

Lemma insert_some_other (xs : list A) (m : gmap string V) (k : string) :
  k ∉ key <$> xs → insert_some key val m xs !! k = m !! k.
Proof.
  revert m. induction xs as [|x xs IH]; intros m Hk; [done|].
  rewrite fmap_cons in Hk. apply not_elem_of_cons in Hk as [Hne Hk].
  unfold insert_some in *. simpl. rewrite IH by done.
  destruct (val x); [by rewrite lookup_insert_ne|done].
Qed.

Lemma insert_some_lookup (xs : list A) (m : gmap string V) (x : A) :
  NoDup (key <$> xs) → x ∈ xs →
  insert_some key val m xs !! key x =
    match val x with Some v => Some v | None => m !! key x end.
Proof.
  revert m. induction xs as [|y xs IH]; intros m Hnd Hx.
  - by apply elem_of_nil in Hx.
  - rewrite fmap_cons in Hnd. apply NoDup_cons in Hnd as [Hy Hnd].
    apply elem_of_cons in Hx as [->|Hx].
    + unfold insert_some. simpl. fold (insert_some key val
        (match val y with Some v => <[key y := v]> m | None => m end) xs).
      rewrite insert_some_other by done.
      destruct (val y); [by rewrite lookup_insert_eq|done].
    + unfold insert_some. simpl. fold (insert_some key val
        (match val y with Some v => <[key y := v]> m | None => m end) xs).
      rewrite IH by done. destruct (val x); [done|].
      assert (key y ≠ key x) as Hne.
      { intros Heq. apply Hy. rewrite Heq. by apply list_elem_of_fmap_2. }
      destruct (val y); [by rewrite lookup_insert_ne|done].
Qed.
End OptionalInserts.

Section Preparer.
Import prepare_for_visualization.

(** What the first loop leaves: the frames cleaned in place, and a CSV
    file per loaded frame. *)
Lemma save_datasets_spec (datasets : list (string * option DataFrame)) w ds' w' :
  save_datasets datasets w = (Ok ds', w') →
  ds' = (fun item : string * option DataFrame => (item.1, clean item.1 <$> item.2)) <$> datasets ∧
  files w' =
    insert_some (fun item : string * option DataFrame => output_path item.1)
      (fun item : string * option DataFrame => Csv ∘ clean item.1 <$> item.2) (files w) datasets.
Proof.
  revert w ds'. induction datasets as [|[name [df|]] rest IH]; intros w ds'; simpl.
  - by intros [= <- <-].
  - intros ([] & w1 & H1 & H)%bind_ok_inv.
    apply bind_ok_inv in H as ([] & w2 & H2 & H).
    apply bind_ok_inv in H as (rest' & w3 & H3 & H).
    injection H as <- <-. injection H2 as <-.
    apply write_file_ok_inv in H1. apply IH in H3 as [-> H3].
    split; [done|]. rewrite H3. unfold insert_some. simpl.
    change (files (printed _ w1)) with (files w1). by rewrite H1.
  - intros (rest' & w3 & H3 & H)%bind_ok_inv. injection H as <- <-.
    apply IH in H3 as [-> H3]. by split.
Qed.

Lemma describe_datasets_insert_some (datasets : list (string * option DataFrame)) :
  describe_datasets datasets =
    insert_some (fun item : string * option DataFrame => item.1) (fun item : string * option DataFrame => describe item.1 <$> item.2)
      ∅ datasets.
Proof.
  unfold describe_datasets, insert_some. generalize (∅ : gmap string Manifest.dataset).
  induction datasets as [|[name [df|]] rest IH]; intros m; simpl; [done|..];
    by rewrite IH.
Qed.

Lemma load_data_preserves_files path filename :
  preserves files (load_data path filename).
Proof. unfold load_data, locate, read_export. frame. Qed.

Lemma output_paths_distinct : NoDup (output_path <$> dataset_names).
Proof. apply (bool_decide_unpack _). vm_compute. exact I. Qed.

Lemma dataset_names_distinct : NoDup dataset_names.
Proof. apply (bool_decide_unpack _). vm_compute. exact I. Qed.

Lemma output_path_not_manifest name :
  name ∈ dataset_names → manifest_path ≠ output_path name.
Proof.
  unfold dataset_names. rewrite !elem_of_cons, elem_of_nil.
  intros [->|[->|[->|[->|[->|[]]]]]]; discriminate.
Qed.

Lemma assign_rows name f df : length (rows (assign name f df)) = length (rows df).
Proof. unfold assign. destruct (index_of _ _); simpl; by rewrite length_fmap. Qed.

(** Cleaning adds columns, not rows. *)
Lemma clean_rows name df : length (rows (clean name df)) = length (rows df).
Proof.
  unfold clean, add_calendar. rewrite assign_rows.
  destruct (has_column _ df); [|done]. by rewrite !assign_rows.
Qed.

(** C10. In a run of the preparer that returns, take what the five calls
    of [load_data] returned.  A dataset for which it returned [None] gets
    no CSV file (the path holds what it held before the run) and no entry
    in the manifest.  A dataset for which it returned a frame is written
    as a CSV file holding the cleaned frame and has a manifest entry whose
    [record_count] is the number of rows of that frame, which is the
    number of rows loaded, and whose [columns] are its columns, the added
    ones included. *)
Theorem unloaded_datasets_are_omitted (w w' : World) :
  prepare_data_for_visualization w = (Ok tt, w') →
  ∃ w0 w1 w2 w3 w4 w5 d1 d2 d3 d4 d5 m,
    makedirs "data/visualization" w = (Ok tt, w0) ∧
    load_data web_traffic_path default_filename w0 = (Ok d1, w1) ∧
    load_data web_hourly_path default_filename w1 = (Ok d2, w2) ∧
    load_data social_path default_filename w2 = (Ok d3, w3) ∧
    load_data sensor_path default_filename w3 = (Ok d4, w4) ∧
    load_data correlation_path default_filename w4 = (Ok d5, w5) ∧
    files w' !! manifest_path = Some (Json m) ∧
    ∀ name loaded,
      (name, loaded) ∈ [("web_traffic", d1); ("web_hourly", d2); ("social", d3);
                        ("sensor", d4); ("correlation", d5)] →
      match loaded with
      | None =>
          files w' !! output_path name = files w !! output_path name ∧
          Manifest.datasets m !! name = None
      | Some df =>
          let final := clean name df in
          files w' !! output_path name = Some (Csv final) ∧
          length (rows final) = length (rows df) ∧
          Manifest.datasets m !! name =
            Some {| Manifest.filename := name +:+ "_data.csv";
                    Manifest.record_count := length (rows final);
                    Manifest.columns := columns final;
                    Manifest.sample_path := output_path name |}
      end.
Proof.
  unfold prepare_data_for_visualization.
  intros ([] & w0 & H0 & H)%bind_ok_inv.
  apply bind_ok_inv in H as (datasets & w5 & Hload & H).
  unfold load_all in Hload.
  apply bind_ok_inv in Hload as (d1 & w1 & H1 & Hload).
  apply bind_ok_inv in Hload as (d2 & w2 & H2 & Hload).
  apply bind_ok_inv in Hload as (d3 & w3 & H3 & Hload).
  apply bind_ok_inv in Hload as (d4 & w4 & H4 & Hload).
  apply bind_ok_inv in Hload as (d5 & w5' & H5 & Hload).
  injection Hload as <- <-.
  apply bind_ok_inv in H as (ds' & w6 & Hsave & H).
  apply bind_ok_inv in H as (ts & w7 & Hnow & H). injection Hnow as <- <-.
  apply bind_ok_inv in H as ([] & w8 & Hman & H).
  apply bind_ok_inv in H as ([] & w9 & Hp & H).
  injection H as <-. injection Hp as <-.
  apply write_file_ok_inv in Hman.
  apply save_datasets_spec in Hsave as [-> Hfiles].
  assert (files w5' = files w) as Hsame.
  { pose proof (load_data_preserves_files correlation_path default_filename w4) as F5.
    pose proof (load_data_preserves_files sensor_path default_filename w3) as F4.
    pose proof (load_data_preserves_files social_path default_filename w2) as F3.
    pose proof (load_data_preserves_files web_hourly_path default_filename w1) as F2.
    pose proof (load_data_preserves_files web_traffic_path default_filename w0) as F1.
    pose proof (makedirs_preserves_files "data/visualization" w) as F0.
    rewrite H5 in F5. rewrite H4 in F4. rewrite H3 in F3. rewrite H2 in F2.
    rewrite H1 in F1. rewrite H0 in F0. simpl in *.
    by rewrite F5, F4, F3, F2, F1, F0. }
  eexists w0, w1, w2, w3, w4, w5', d1, d2, d3, d4, d5, _.
  do 6 (split; [eassumption|]).
  change (files (printed _ (printed _ w8))) with (files w8).
  rewrite Hman. split; [by rewrite lookup_insert_eq|].
  intros name loaded Hin.
  assert (name ∈ dataset_names) as Hname.
  { apply (list_elem_of_fmap_2 fst) in Hin. exact Hin. }
  rewrite lookup_insert_ne by (by apply output_path_not_manifest).
  rewrite Hfiles, Hsame.
  rewrite (insert_some_lookup (fun item : string * option DataFrame => output_path item.1)
             (fun item : string * option DataFrame => Csv ∘ clean item.1 <$> item.2) _ _ (name, loaded));
    [|exact output_paths_distinct|exact Hin].
  cbn [Manifest.datasets]. rewrite describe_datasets_insert_some.
  pose proof (insert_some_lookup (fun item : string * option DataFrame => item.1)
                (fun item : string * option DataFrame => describe item.1 <$> item.2)
                ((fun item : string * option DataFrame => (item.1, clean item.1 <$> item.2)) <$>
                   [("web_traffic", d1); ("web_hourly", d2); ("social", d3);
                    ("sensor", d4); ("correlation", d5)])
                ∅ (name, clean name <$> loaded)) as Hm.
  cbn [fst snd] in Hm. rewrite Hm; clear Hm.
  - destruct loaded as [df|]; simpl; [|by rewrite lookup_empty].
    split; [done|]. split; [apply clean_rows|done].
  - exact dataset_names_distinct.
  - by apply (list_elem_of_fmap_2
                (fun item : string * option DataFrame =>
                   (item.1, clean item.1 <$> item.2)) _ (name, loaded)).
Qed.
End Preparer.

(** ** The upload, command by command *)

Section Upload.
Import process_data.

Lemma run_ok cmd w :
  (shell w cmd).1 = 0 → run cmd w = (Ok tt, set_commands (commands w ++ [cmd]) w).
Proof. unfold run. destruct (shell w cmd) as [rc err]. simpl. by intros ->. Qed.

Lemma run_fail cmd w rc err :
  shell w cmd = (rc, err) → rc ≠ 0 →
  run cmd w = (Raise (CalledProcessError cmd rc err), set_commands (commands w ++ [cmd]) w).
Proof.
  intros Hs Hrc. unfold run. rewrite Hs.
  by destruct (Z.eqb_spec rc 0).
Qed.

Lemma for_each_run_ok cmds w :
  Forall (fun c => (shell w c).1 = 0) cmds →
  for_each cmds run w = (Ok tt, set_commands (commands w ++ cmds) w).
Proof.
  revert w. induction cmds as [|c cmds IH]; intros w Hok.
  - simpl. rewrite app_nil_r. by destruct w.
  - inversion Hok as [|?? Hc Hcmds]; subst. simpl for_each.
    rewrite (bind_ok _ _ _ _ _ (run_ok c w Hc)), IH by exact Hcmds.
    unfold set_commands. simpl. by rewrite <- (assoc_L (++)).
Qed.

Lemma for_each_run_fail pre c post w rc err :
  Forall (fun c => (shell w c).1 = 0) pre →
  shell w c = (rc, err) → rc ≠ 0 →
  for_each (pre ++ c :: post) run w =
    (Raise (CalledProcessError c rc err), set_commands (commands w ++ pre ++ [c]) w).
Proof.
  revert w. induction pre as [|p pre IH]; intros w Hok Hc Hrc.
  - simpl. by rewrite (bind_raise _ _ _ _ _ (run_fail c w rc err Hc Hrc)).
  - inversion Hok as [|?? Hp Hpre]; subst. simpl for_each.
    rewrite (bind_ok _ _ _ _ _ (run_ok p w Hp)), IH by done.
    unfold set_commands. simpl. by rewrite <- (assoc_L (++)).
Qed.

Lemma upload_file_run file w :
  upload_file file w =
    (for_each (upload_commands file) run ;; print (uploaded_line file)) w.
Proof.
  unfold upload_file, upload_commands. cbv zeta. simpl for_each.
  repeat (rewrite !bind_run;
          match goal with
          | |- context [run ?c ?w0] =>
              destruct (run c w0) as [[[]|?] ?]; cbv beta iota; try done
          end).
Qed.

Lemma upload_files_ok fs w :
  Forall (fun c => (shell w c).1 = 0) (fs ≫= upload_commands) →
  ∃ w', for_each fs upload_file w = (Ok tt, w') ∧
    commands w' = commands w ++ (fs ≫= upload_commands) ∧
    files w' = files w ∧ shell w' = shell w ∧
    stdout w' = stdout w ++ (uploaded_line <$> fs).
Proof.
  revert w. induction fs as [|f fs IH]; intros w Hok.
  - exists w. by rewrite !app_nil_r.
  - rewrite bind_cons in Hok. apply Forall_app in Hok as [Hf Hfs].
    simpl for_each. rewrite bind_run, upload_file_run, bind_run.
    rewrite for_each_run_ok by exact Hf. unfold print at 1.
    destruct (IH (printed (uploaded_line f)
                    (set_commands (commands w ++ upload_commands f) w)))
      as (w' & Hrun & Hc & Hfl & Hsh & Hout); [exact Hfs|].
    exists w'. split; [exact Hrun|].
    rewrite Hc, Hfl, Hsh, Hout, bind_cons, fmap_cons.
    cbn [commands files shell stdout printed set_stdout set_commands].
    by rewrite <- !(assoc_L (++)).
Qed.

Lemma upload_files_fail fs w pre c post rc err :
  fs ≫= upload_commands = pre ++ c :: post →
  Forall (fun c => (shell w c).1 = 0) pre →
  shell w c = (rc, err) → rc ≠ 0 →
  ∃ w', for_each fs upload_file w = (Raise (CalledProcessError c rc err), w') ∧
    commands w' = commands w ++ pre ++ [c] ∧ files w' = files w.
Proof.
  revert w pre. induction fs as [|f fs IH]; intros w pre Hsplit Hok Hc Hrc.
  - by destruct pre.
  - rewrite bind_cons in Hsplit.
    apply app_eq_app in Hsplit as [l [[Hf Hrest]|[Hpre Hrest]]].
    + (* the failing command belongs to [f] or follows its commands *)
      destruct l as [|x l].
      * rewrite app_nil_r in Hf. simpl in Hrest. subst pre.
        simpl for_each. rewrite bind_run, upload_file_run, bind_run.
        rewrite for_each_run_ok by exact Hok. unfold print at 1.
        destruct (IH (printed (uploaded_line f)
                        (set_commands (commands w ++ upload_commands f) w)) [])
          as (w' & Hrun & Hcs & Hfl); [by symmetry|constructor|exact Hc|exact Hrc|].
        exists w'. split; [exact Hrun|]. rewrite Hcs, Hfl.
        cbn [commands files printed set_stdout set_commands app].
        by rewrite <- !(assoc_L (++)).
      * injection Hrest as <- ->.
        simpl for_each. rewrite bind_run, upload_file_run, bind_run, Hf.
        rewrite (for_each_run_fail pre c l w rc err) by done.
        eexists. split; [reflexivity|]. done.
    + subst pre. apply Forall_app in Hok as [Hf Hl].
      simpl for_each. rewrite bind_run, upload_file_run, bind_run.
      rewrite for_each_run_ok by exact Hf. unfold print at 1.
      destruct (IH (printed (uploaded_line f)
                      (set_commands (commands w ++ upload_commands f) w)) l)
        as (w' & Hrun & Hcs & Hfl); [done|exact Hl|exact Hc|exact Hrc|].
      exists w'. split; [exact Hrun|]. rewrite Hcs, Hfl.
      cbn [commands files printed set_stdout set_commands].
      by rewrite <- !(assoc_L (++)).
Qed.

(** X1. When every command exits with status 0, [upload_to_hdfs] runs the
    three commands of each file, file after file, and returns [True]; it
    changes no local file. *)
Theorem upload_runs_every_command_in_order (w : World) :
  (∀ cmd, cmd ∈ uploaded_files ≫= upload_commands → (shell w cmd).1 = 0) →
  ∃ w', upload_to_hdfs w = (Ok true, w') ∧
    commands w' = commands w ++ (uploaded_files ≫= upload_commands) ∧
    uploaded_files ≫= upload_commands =
      ["docker exec -it namenode hdfs dfs -mkdir -p /user/hive/warehouse/raw_data";
       "docker cp data/processed/web_logs_processed.csv namenode:/tmp/web_logs_processed.csv";
       "docker exec -it namenode hdfs dfs -put -f /tmp/web_logs_processed.csv /user/hive/warehouse/raw_data/web_logs_processed.csv";
       "docker exec -it namenode hdfs dfs -mkdir -p /user/hive/warehouse/raw_data";
       "docker cp data/processed/social_data_processed.csv namenode:/tmp/social_data_processed.csv";
       "docker exec -it namenode hdfs dfs -put -f /tmp/social_data_processed.csv /user/hive/warehouse/raw_data/social_data_processed.csv";
       "docker exec -it namenode hdfs dfs -mkdir -p /user/hive/warehouse/raw_data";
       "docker cp data/processed/sensor_data_processed.csv namenode:/tmp/sensor_data_processed.csv";
       "docker exec -it namenode hdfs dfs -put -f /tmp/sensor_data_processed.csv /user/hive/warehouse/raw_data/sensor_data_processed.csv"] ∧
    files w' = files w ∧
    stdout w' = stdout w ++ [upload_banner] ++ (uploaded_line <$> uploaded_files) ++
                  ["All files uploaded to HDFS successfully"].
Proof.
  intros Hok.
  destruct (upload_files_ok uploaded_files (printed upload_banner w))
    as (w1 & Hrun & Hcs & Hfl & _ & Hout); [by apply Forall_forall|].
  exists (printed "All files uploaded to HDFS successfully" w1).
  split; [|split; [|split; [|split]]].
  - unfold upload_to_hdfs. rewrite bind_run. unfold print at 1. rewrite try_run.
    fold uploaded_files. by rewrite bind_run, Hrun.
  - exact Hcs.
  - vm_compute. reflexivity.
  - exact Hfl.
  - simpl. rewrite Hout. simpl. by rewrite <- !(assoc_L (++)).
Qed.

End Upload.

Section OtherFiles.
Context (p : string).

Lemma preserves_files_lookup {A} (m : M A) :
  preserves files m → preserves (fun w => files w !! p) m.
Proof. intros H w. by rewrite H. Qed.

Lemma write_file_other q f : p ≠ q → preserves (fun w => files w !! p) (write_file q f).
Proof.
  intros Hne w. unfold write_file. destruct (is_dir q w); [done|].
  destruct (_ && _); [done|]. simpl. by rewrite lookup_insert_ne.
Qed.
End OtherFiles.

#[local] Hint Resolve preserves_files_lookup write_file_other : frame.

Section ProcessingOutcome.
Import process_data.
Context {A B : Type} (read : M A) (tr : A → result B) (mk : B → File).
Context (out msg : string).

(** The shape the three [try] blocks share: read, derive, write, report. *)
Let block : M bool :=
  x ← read; y ← lift (tr x); write_file out (mk y) ;; print msg ;; mret true.

Hypothesis read_only : ∀ w, (read w).2 = w.

Lemma block_inv w r w' :
  block w = (r, w') →
  match r with
  | Ok b => b = true ∧ ∃ x y, read w = (Ok x, w) ∧ tr x = Ok y ∧
              files w' = <[out := mk y]> (files w)
  | Raise _ => files w' = files w
  end.
Proof.
  unfold block. rewrite bind_run. pose proof (read_only w) as Hw.
  destruct (read w) as [[x|e] w1]; simpl in Hw; subst w1; [|by intros [= <- <-]].
  rewrite bind_run. unfold lift at 1.
  destruct (tr x) as [y|e] eqn:Hy; [|by intros [= <- <-]].
  rewrite bind_run.
  destruct (write_file out (mk y) w) as [[[]|e] w1] eqn:Hwr.
  - apply write_file_ok_inv in Hwr. intros [= <- <-].
    split; [done|]. by exists x, y.
  - intros [= <- <-].
    unfold write_file in Hwr. destruct (is_dir out w); [by injection Hwr as _ <-|].
    destruct (_ && _); [by injection Hwr as _ <-|discriminate].
Qed.

Lemma block_ok w x y :
  read w = (Ok x, w) → tr x = Ok y →
  is_dir out w = false → is_dir (dirname out) w = true →
  block w = (Ok true, printed msg (set_files (<[out := mk y]> (files w)) w)).
Proof.
  intros Hr Hy Ho Hd. unfold block.
  rewrite (bind_ok _ _ _ _ _ Hr), bind_run. unfold lift at 1. rewrite Hy.
  by rewrite (bind_ok _ _ _ _ _ (write_file_ok out (mk y) w Ho Hd)).
Qed.
End ProcessingOutcome.

Section Flags.
Import process_data.

Lemma read_web_logs_read_only p w : (read_web_logs p w).2 = w.
Proof.
  unfold read_web_logs. rewrite bind_run. unfold read_file.
  destruct (files w !! p) as [[]|]; done.
Qed.

Lemma read_social_data_read_only p w : (read_social_data p w).2 = w.
Proof.
  unfold read_social_data. rewrite bind_run. unfold read_file.
  destruct (files w !! p) as [[]|]; done.
Qed.

Lemma read_sensor_data_read_only p w : (read_sensor_data p w).2 = w.
Proof.
  unfold read_sensor_data. rewrite bind_run. unfold read_file.
  destruct (files w !! p) as [[]|]; done.
Qed.

Lemma read_web_logs_spec p w raw :
  read_web_logs p w = (Ok raw, w) ↔ files w !! p = Some (WebAccessLogs raw).
Proof.
  unfold read_web_logs. rewrite bind_run. unfold read_file.
  destruct (files w !! p) as [[]|]; unfold raise, mret, M_ret;
    split; intros H; by simplify_eq.
Qed.

Lemma read_social_data_spec p w raw :
  read_social_data p w = (Ok raw, w) ↔ files w !! p = Some (SocialData raw).
Proof.
  unfold read_social_data. rewrite bind_run. unfold read_file.
  destruct (files w !! p) as [[]|]; unfold raise, mret, M_ret;
    split; intros H; by simplify_eq.
Qed.

Lemma read_sensor_data_spec p w raw :
  read_sensor_data p w = (Ok raw, w) ↔ files w !! p = Some (SensorData raw).
Proof.
  unfold read_sensor_data. rewrite bind_run. unfold read_file.
  destruct (files w !! p) as [[]|]; unfold raise, mret, M_ret;
    split; intros H; by simplify_eq.
Qed.


Lemma main_preserves_other_files p :
  p ≠ web_output_file → p ≠ social_output_file → p ≠ sensor_output_file →
  preserves (fun w => files w !! p) main.
Proof.
  intros H1 H2 H3.
  unfold main, process_web_logs, web_logs_try, read_web_logs, process_social_data,
    social_try, read_social_data, process_sensor_data, sensor_try, read_sensor_data,
    failed, upload_to_hdfs, upload_file, makedirs.
  frame.
Qed.

(** X4. The script writes to its three output files and to no other: every
    other path, the raw inputs among them, holds after the run what it held
    before, however the run ends. *)
Theorem processing_changes_only_its_outputs (w : World) (p : string) :
  p ≠ web_output_file → p ≠ social_output_file → p ≠ sensor_output_file →
  files (main w).2 !! p = files w !! p.
Proof. intros H1 H2 H3. by apply (main_preserves_other_files p). Qed.
End Flags.

Section WholeRun.
Import process_data.

Lemma first_failure (w : World) (cmds : list string) :
  Forall (fun c => (shell w c).1 = 0) cmds ∨
  ∃ pre c post, cmds = pre ++ c :: post ∧
    Forall (fun c => (shell w c).1 = 0) pre ∧ (shell w c).1 ≠ 0.
Proof.
  induction cmds as [|c cmds IH]; [by left|].
  destruct (decide ((shell w c).1 = 0)) as [Hc|Hc].
  - destruct IH as [Hok|(pre & x & post & -> & Hpre & Hx)].
    + left. by constructor.
    + right. exists (c :: pre), x, post. split; [done|]. split; [by constructor|done].
  - right. by exists [], c, cmds.
Qed.

(** The commands [upload_to_hdfs] runs are a prefix of its nine commands
    that holds at least the first, and it returns. *)
Lemma upload_to_hdfs_outcome (w : World) :
  ∃ b w' n, upload_to_hdfs w = (Ok b, w') ∧
    commands w' = commands w ++ take (S n) (uploaded_files ≫= upload_commands) ∧
    files w' = files w.
Proof.
  unfold upload_to_hdfs. fold uploaded_files.
  rewrite bind_run. unfold print at 1. rewrite try_run, bind_run.
  destruct (first_failure w (uploaded_files ≫= upload_commands))
    as [Hok|(pre & c & post & Hsplit & Hpre & Hc)].
  - destruct (upload_files_ok uploaded_files (printed upload_banner w))
      as (w1 & Hrun & Hcs & Hfl & _); [done|].
    rewrite Hrun. eexists true, _, 8%nat. split; [reflexivity|].
    split; [|exact Hfl]. exact Hcs.
  - destruct (shell w c) as [rc err] eqn:Hs. simpl in Hc.
    destruct (upload_files_fail uploaded_files (printed upload_banner w) pre c post rc err)
      as (w1 & Hrun & Hcs & Hfl); [done..|].
    rewrite Hrun. eexists false, _, (length pre). split; [reflexivity|].
    split; [|exact Hfl].
    cbn [commands printed set_stdout]. rewrite Hcs, Hsplit. f_equal.
    rewrite (take_app_ge pre) by lia.
    by replace (S (length pre) - length pre)%nat with 1%nat by lia.
Qed.

Lemma process_social_data_ok w raw df :
  files w !! social_input_file = Some (SocialData raw) → social_frame raw = Ok df →
  is_dir social_output_file w = false → is_dir "data/processed" w = true →
  ∃ w', process_social_data w = (Ok true, w') ∧
    files w' = <[social_output_file := SocialProcessed df]> (files w) ∧
    dirs w' = dirs w ∧ commands w' = commands w.
Proof.
  intros Hf Hdf Ho Hd. rewrite process_social_data_run.
  pose proof (block_ok (read_social_data social_input_file) social_frame SocialProcessed
                social_output_file
                ("Processed social data saved to " +:+ social_output_file)
                (printed ("Processing social data from " +:+ social_input_file +:+ "...") w)
                raw df) as H.
  cbv zeta in H. unfold social_try. rewrite H; [by eexists| |done..].
  by apply read_social_data_spec.
Qed.

Lemma process_sensor_data_ok w raw df :
  files w !! sensor_input_file = Some (SensorData raw) → sensor_frame raw = Ok df →
  is_dir sensor_output_file w = false → is_dir "data/processed" w = true →
  ∃ w', process_sensor_data w = (Ok true, w') ∧
    files w' = <[sensor_output_file := SensorProcessed df]> (files w) ∧
    dirs w' = dirs w ∧ commands w' = commands w.
Proof.
  intros Hf Hdf Ho Hd. rewrite process_sensor_data_run.
  pose proof (block_ok (read_sensor_data sensor_input_file) sensor_frame SensorProcessed
                sensor_output_file
                ("Processed sensor data saved to " +:+ sensor_output_file)
                (printed ("Processing sensor data from " +:+ sensor_input_file +:+ "...") w)
                raw df) as H.
  cbv zeta in H. unfold sensor_try. rewrite H; [by eexists| |done..].
  by apply read_sensor_data_spec.
Qed.

Lemma process_web_logs_ok w raw df :
  files w !! web_input_file = Some (WebAccessLogs raw) → web_logs_frame raw = Ok df →
  Forall (fun q => is_file q w = false) (ancestors "data/processed") →
  is_dir web_output_file w = false →
  ∃ w', process_web_logs w = (Ok true, w') ∧
    files w' = <[web_output_file := WebLogsProcessed df]> (files w) ∧
    dirs w' = list_to_set (ancestors "data/processed") ∪ dirs w ∧
    commands w' = commands w.
Proof.
  intros Hf Hdf Hfree Ho. rewrite process_web_logs_run.
  unfold makedirs. rewrite mkdirs_ok by exact Hfree.
  set (w0 := set_dirs _ w).
  pose proof (block_ok (read_web_logs web_input_file) web_logs_frame WebLogsProcessed
                web_output_file
                ("Processed web logs saved to " +:+ web_output_file)
                (printed ("Processing web logs from " +:+ web_input_file +:+ "...") w0)
                raw df) as H.
  cbv zeta in H. unfold web_logs_try. rewrite H; [by eexists| |done|..].
  - by apply read_web_logs_spec.
  - unfold w0, is_dir in *. cbn [dirs printed set_stdout set_dirs].
    apply bool_decide_false. apply bool_decide_eq_false in Ho.
    rewrite elem_of_union, elem_of_list_to_set. intros [Hin|Hin]; [|done].
    revert Hin. apply (bool_decide_unpack _). vm_compute. exact I.
  - unfold w0, is_dir. cbn [dirs printed set_stdout set_dirs].
    apply bool_decide_true, elem_of_union_l, elem_of_list_to_set.
    apply (bool_decide_unpack _). vm_compute. exact I.
Qed.

Lemma is_dir_after p created w w' :
  dirs w' = list_to_set created ∪ dirs w →
  is_dir p w' = bool_decide (p ∈ created) || is_dir p w.
Proof.
  intros Hd. rewrite <- is_dir_created. unfold is_dir. by rewrite Hd.
Qed.

End WholeRun.

(** ** The aggregator without its inputs *)

Section LoadingFails.
Import process_data direct_processing.

Lemma pd_read_csv_world p w : (pd_read_csv p w).2 = w.
Proof.
  unfold pd_read_csv. rewrite bind_run. unfold read_file.
  destruct (files w !! p) as [f|]; [|done].
  by destruct (records_of f) as [[|header rest]|e].
Qed.

Lemma pd_read_csv_missing p w :
  files w !! p = None → ∃ e, pd_read_csv p w = (Raise e, w).
Proof.
  intros Hp. unfold pd_read_csv. rewrite bind_run. unfold read_file. rewrite Hp.
  by eexists.
Qed.

(** Loading raises, and prints nothing, as soon as one of the three files
    is missing. *)
Lemma load_processed_missing p w :
  p ∈ [web_output_file; social_output_file; sensor_output_file] →
  files w !! p = None → ∃ e, load_processed w = (Raise e, w).
Proof.
  intros Hp Hnone. unfold load_processed.
  rewrite bind_run. pose proof (pd_read_csv_world "data/processed/web_logs_processed.csv" w) as W1.
  destruct (pd_read_csv "data/processed/web_logs_processed.csv" w) as [[[f1 c1]|e1] w1] eqn:H1;
    simpl in W1; subst w1; [|by eexists].
  rewrite bind_run.
  pose proof (pd_read_csv_world "data/processed/social_data_processed.csv" w) as W2.
  destruct (pd_read_csv "data/processed/social_data_processed.csv" w) as [[[f2 c2]|e2] w2] eqn:H2;
    simpl in W2; subst w2; [|by eexists].
  rewrite bind_run.
  pose proof (pd_read_csv_world "data/processed/sensor_data_processed.csv" w) as W3.
  destruct (pd_read_csv "data/processed/sensor_data_processed.csv" w) as [[[f3 c3]|e3] w3] eqn:H3;
    simpl in W3; subst w3; [|by eexists].
  apply elem_of_cons in Hp as [->|Hp];
    [destruct (pd_read_csv_missing _ w Hnone) as [e He]; unfold web_output_file in He; congruence|].
  apply elem_of_cons in Hp as [->|Hp];
    [destruct (pd_read_csv_missing _ w Hnone) as [e He]; unfold social_output_file in He; congruence|].
  apply elem_of_cons in Hp as [->|Hp]; [|by apply elem_of_nil in Hp].
  destruct (pd_read_csv_missing _ w Hnone) as [e He]. unfold sensor_output_file in He. congruence.
Qed.

(** X6. When one of the three processed files is missing, the script
    reports that loading failed and returns: it computes no summary and
    writes no file. *)
Theorem missing_processed_file_ends_the_aggregation (w : World) (p : string) :
  p ∈ [web_output_file; social_output_file; sensor_output_file] →
  files w !! p = None →
  returns (makedirs "data/processed") w →
  returns (makedirs "data/exports") w →
  ∃ e w', process_data_directly w = (Ok tt, w') ∧
    files w' = files w ∧
    stdout w' = stdout w ++ ["Starting direct data processing...";
                             "Error loading data: " +:+ exn_str e].
Proof.
  intros Hp Hnone H1%mkdirs_returns_inv H2%mkdirs_returns_inv.
  unfold process_data_directly.
  erewrite bind_ok; [|reflexivity].
  unfold makedirs. erewrite bind_ok; [|by apply mkdirs_ok].
  erewrite bind_ok; [|by apply mkdirs_ok].
  set (w3 := set_dirs _ _).
  destruct (load_processed_missing p w3 Hp Hnone) as [e He].
  rewrite bind_run, try_run. unfold fmap, M_fmap. rewrite He. cbn [Exception].
  rewrite bind_run. unfold print at 1.
  eexists e, _. split; [reflexivity|]. split; [done|].
  cbn. by rewrite <- (assoc_L (++)).
Qed.

Lemma pd_merge_preserves {X} (proj : World → X) web social : preserves proj (pd_merge web social).
Proof. intros w. unfold pd_merge. by destruct (join_error w). Qed.

Lemma save_exports_preserves_other_files p web_logs social_data sensor_data correlation :
  p ∉ export_file <$> all_aggregates →
  preserves (fun w => files w !! p)
    (save_exports web_logs social_data sensor_data correlation).
Proof.
  intros Hp.
  assert (∀ a, p ≠ export_file a) as Hne.
  { intros a ->. apply Hp, list_elem_of_fmap_2, elem_of_all_aggregates. }
  unfold save_exports, to_csv_headerless.
  apply preserves_bind; [by intros w0|intros _].
  apply preserves_bind; [|intros _].
  { apply preserves_for_each. intros a.
    apply preserves_files_lookup, makedirs_preserves_files. }
  apply preserves_bind; [|intros _].
  { apply preserves_for_each. intros a. apply write_file_other, Hne. }
  frame.
Qed.

Lemma aggregate_and_save_preserves_other_files p web_logs social_data sensor_data :
  p ∉ export_file <$> all_aggregates →
  preserves (fun w => files w !! p) (aggregate_and_save web_logs social_data sensor_data).
Proof.
  intros Hp.
  pose proof (pd_merge_preserves (fun w => files w !! p)) as Hmerge.
  pose proof (fun a b c d => save_exports_preserves_other_files p a b c d Hp) as Hsave.
  unfold aggregate_and_save.
  apply preserves_bind; [by intros w0|intros _].
  do 3 (apply preserves_bind; [apply preserves_lift|intros ?]).
  apply preserves_bind; [|intros d; apply Hsave].
  unfold correlation_data. apply preserves_try; [apply Hmerge|]. intros e. frame.
Qed.

Lemma process_data_directly_preserves_other_files p :
  p ∉ export_file <$> all_aggregates →
  preserves (fun w => files w !! p) process_data_directly.
Proof.
  intros Hp.
  pose proof (fun a b c => aggregate_and_save_preserves_other_files p a b c Hp) as Hagg.
  pose proof (preserves_files_lookup p _ load_processed_preserves_files) as Hload.
  unfold process_data_directly.
  apply preserves_bind; [by intros w0|intros _].
  do 2 (apply preserves_bind;
        [apply preserves_files_lookup, makedirs_preserves_files|intros _]).
  apply preserves_bind.
  - apply preserves_try; [by apply preserves_fmap|]. intros e. frame.
  - intros [[[web_logs social_data] sensor_data]|]; [apply Hagg|apply preserves_ret].
Qed.

(** X7. The script writes to its five export files and to no other path:
    the processed tables it reads, and every other file, are after the run
    what they were before, however the run ends. *)
Theorem aggregation_changes_only_its_exports (w : World) (p : string) :
  p ∉ export_file <$> all_aggregates →
  files (process_data_directly w).2 !! p = files w !! p.
Proof. intros Hp. by apply (process_data_directly_preserves_other_files p). Qed.
End LoadingFails.

(** ** The preparer without its inputs *)

Section LoadData.
Import process_data direct_processing prepare_for_visualization.

Lemma load_data_preserves_dirs path filename : preserves dirs (load_data path filename).
Proof. unfold load_data, locate, read_export. frame. Qed.

(** The handler of [load_data] answers every exception of the [try]
    block with [None]. *)
Lemma read_export_caught path full_path w :
  returns (try_except (read_export path full_path) Exception
             (fun e => print ("Error loading data: " +:+ exn_str e) ;; mret None)) w.
Proof. apply try_catch_all_returns. intros e w1. by eexists _, _. Qed.

Lemma load_data_absent (path filename : string) (w : World) :
  let full_path := path_join path filename in
  let warned := printed ("Warning: File not found at " +:+ full_path) w in
  is_file full_path w = false → is_dir full_path w = false →
  load_data path filename w =
    if is_dir path w then
      match entries path w with
      | [] => (Ok None, printed ("No files found in " +:+ path) warned)
      | first :: _ =>
          try_except (read_export path (path_join path first)) Exception
            (fun e => print ("Error loading data: " +:+ exn_str e) ;; mret None)
            (printed ("Using file: " +:+ path_join path first) warned)
      end
    else (Raise (if is_file path w then NotADirectoryError path
                 else FileNotFoundError path), warned).
Proof.
  intros full_path warned Hf Hd.
  unfold load_data. rewrite bind_run. unfold locate. rewrite bind_run.
  unfold path_exists. fold full_path. rewrite Hf, Hd. cbn [orb negb]. cbv beta iota.
  rewrite bind_run. unfold print at 1. fold warned. cbv beta iota.
  rewrite bind_run. unfold listdir.
  change (is_dir path warned) with (is_dir path w).
  change (is_file path warned) with (is_file path w).
  change (entries path warned) with (entries path w).
  destruct (is_dir path w); [|by destruct (is_file path w)].
  by destruct (entries path w).
Qed.

(** X8. What [load_data] does when the expected file is not there.  If the
    directory is missing too, [os.listdir] raises and nothing catches it.
    If the directory is empty, the answer is [None].  Otherwise the first
    entry listed is read instead, under the column names of the path, and
    whatever goes wrong in reading it is answered with [None]. *)
Theorem load_data_falls_back_to_the_directory (path filename : string) (w : World) :
  let full_path := path_join path filename in
  let warned := printed ("Warning: File not found at " +:+ full_path) w in
  is_file full_path w = false → is_dir full_path w = false →
  (is_dir path w = false →
     load_data path filename w =
       (Raise (if is_file path w then NotADirectoryError path
               else FileNotFoundError path), warned)) ∧
  (is_dir path w = true → entries path w = [] →
     load_data path filename w =
       (Ok None, printed ("No files found in " +:+ path) warned)) ∧
  (∀ first rest, is_dir path w = true → entries path w = first :: rest →
     load_data path filename w =
       try_except (read_export path (path_join path first)) Exception
         (fun e => print ("Error loading data: " +:+ exn_str e) ;; mret None)
         (printed ("Using file: " +:+ path_join path first) warned) ∧
     returns (load_data path filename) w).
Proof.
  intros full_path warned Hf Hd.
  pose proof (load_data_absent path filename w Hf Hd) as H. cbv zeta in H.
  fold full_path in H. fold warned in H.
  split; [|split].
  - intros Hp. by rewrite H, Hp.
  - intros Hp He. by rewrite H, Hp, He.
  - intros first rest Hp He. unfold returns. rewrite H, Hp, He. split; [done|].
    apply read_export_caught.
Qed.
End LoadData.

Section PreparerRuns.
Import process_data direct_processing prepare_for_visualization.

Lemma load_data_missing_directory path filename w :
  is_file (path_join path filename) w = false →
  is_dir (path_join path filename) w = false →
  is_dir path w = false →
  ∃ e w', load_data path filename w = (Raise e, w').
Proof.
  intros Hf Hd Hp. pose proof (load_data_absent path filename w Hf Hd) as H.
  cbv zeta in H. rewrite Hp in H. by eexists _, _.
Qed.

Lemma load_all_preserves_files : preserves files load_all.
Proof.
  unfold load_all.
  repeat (apply preserves_bind; [apply load_data_preserves_files|intros ?]).
  apply preserves_ret.
Qed.

Lemma load_all_preserves_dirs : preserves dirs load_all.
Proof.
  unfold load_all.
  repeat (apply preserves_bind; [apply load_data_preserves_dirs|intros ?]).
  apply preserves_ret.
Qed.

(** One missing directory makes the five loads raise, whichever it is. *)
Lemma load_all_missing_directory (a : aggregate) (w : World) :
  is_dir (load_path a) w = false →
  is_file (export_file a) w = false → is_dir (export_file a) w = false →
  ∃ e w', load_all w = (Raise e, w').
Proof.
  intros Hp Hf Hd. unfold load_all.
  rewrite bind_run.
  pose proof (load_data_preserves_files web_traffic_path default_filename w) as F1.
  pose proof (load_data_preserves_dirs web_traffic_path default_filename w) as D1.
  destruct (load_data web_traffic_path default_filename w) as [[d1|e1] w1] eqn:L1;
    [|by eexists _, _].
  rewrite bind_run.
  pose proof (load_data_preserves_files web_hourly_path default_filename w1) as F2.
  pose proof (load_data_preserves_dirs web_hourly_path default_filename w1) as D2.
  destruct (load_data web_hourly_path default_filename w1) as [[d2|e2] w2] eqn:L2;
    [|by eexists _, _].
  rewrite bind_run.
  pose proof (load_data_preserves_files social_path default_filename w2) as F3.
  pose proof (load_data_preserves_dirs social_path default_filename w2) as D3.
  destruct (load_data social_path default_filename w2) as [[d3|e3] w3] eqn:L3;
    [|by eexists _, _].
  rewrite bind_run.
  pose proof (load_data_preserves_files sensor_path default_filename w3) as F4.
  pose proof (load_data_preserves_dirs sensor_path default_filename w3) as D4.
  destruct (load_data sensor_path default_filename w3) as [[d4|e4] w4] eqn:L4;
    [|by eexists _, _].
  rewrite bind_run.
  destruct (load_data correlation_path default_filename w4) as [[d5|e5] w5] eqn:L5;
    [|by eexists _, _].
  simpl in F1, D1, F2, D2, F3, D3, F4, D4. exfalso.
  assert (∀ p, is_file p w4 = is_file p w ∧ is_file p w3 = is_file p w ∧
               is_file p w2 = is_file p w ∧ is_file p w1 = is_file p w) as Hfiles.
  { intros p. unfold is_file. by rewrite F4, F3, F2, F1. }
  assert (∀ p, is_dir p w4 = is_dir p w ∧ is_dir p w3 = is_dir p w ∧
               is_dir p w2 = is_dir p w ∧ is_dir p w1 = is_dir p w) as Hdirs.
  { intros p. unfold is_dir. by rewrite D4, D3, D2, D1. }
  rewrite <- load_path_file in Hf, Hd.
  destruct a.
  - destruct (load_data_missing_directory _ _ w Hf Hd Hp) as (e & w' & He).
    simpl in He. congruence.
  - destruct (load_data_missing_directory (load_path AggWebTrafficHourly)
                default_filename w1) as (e & w' & He);
      [by rewrite (proj2 (proj2 (proj2 (Hfiles _))))
      |by rewrite (proj2 (proj2 (proj2 (Hdirs _))))
      |by rewrite (proj2 (proj2 (proj2 (Hdirs _))))|].
    simpl in He. congruence.
  - destruct (load_data_missing_directory (load_path AggSocialEngagement)
                default_filename w2) as (e & w' & He);
      [by rewrite (proj1 (proj2 (proj2 (Hfiles _))))
      |by rewrite (proj1 (proj2 (proj2 (Hdirs _))))
      |by rewrite (proj1 (proj2 (proj2 (Hdirs _))))|].
    simpl in He. congruence.
  - destruct (load_data_missing_directory (load_path AggSensorReadings)
                default_filename w3) as (e & w' & He);
      [by rewrite (proj1 (proj2 (Hfiles _)))
      |by rewrite (proj1 (proj2 (Hdirs _)))
      |by rewrite (proj1 (proj2 (Hdirs _)))|].
    simpl in He. congruence.
  - destruct (load_data_missing_directory (load_path AggCorrelationData)
                default_filename w4) as (e & w' & He);
      [by rewrite (proj1 (Hfiles _))
      |by rewrite (proj1 (Hdirs _))
      |by rewrite (proj1 (Hdirs _))|].
    simpl in He. congruence.
Qed.

(** X9. The fallback of [load_data] covers a missing file, not a missing
    directory: when the directory of one of the five exports does not
    exist, the preparer raises before it has written anything. *)
Theorem missing_export_directory_aborts_the_preparer (w : World) (a : aggregate) :
  is_dir (load_path a) w = false →
  is_file (export_file a) w = false → is_dir (export_file a) w = false →
  ∃ e w', prepare_data_for_visualization w = (Raise e, w') ∧ files w' = files w.
Proof.
  intros Hp Hf Hd. unfold prepare_data_for_visualization. rewrite bind_run.
  pose proof (makedirs_preserves_files "data/visualization" w) as F0.
  destruct (makedirs "data/visualization" w) as [[[]|e0] w0] eqn:H0; [|by eexists _, _].
  simpl in F0.
  assert (returns (makedirs "data/visualization") w) as Hret by (by eexists _, _).
  apply mkdirs_returns_inv in Hret. unfold makedirs in H0.
  rewrite (mkdirs_ok _ _ _ Hret) in H0. injection H0 as <-.
  destruct (load_all_missing_directory a
              (set_dirs (list_to_set (ancestors "data/visualization") ∪ dirs w) w))
    as (e & w' & He).
  - rewrite is_dir_created, Hp, orb_false_r. apply bool_decide_false.
    destruct a; apply (bool_decide_unpack _); vm_compute; exact I.
  - exact Hf.
  - rewrite is_dir_created, Hd, orb_false_r. apply bool_decide_false.
    destruct a; apply (bool_decide_unpack _); vm_compute; exact I.
  - pose proof (load_all_preserves_files
                  (set_dirs (list_to_set (ancestors "data/visualization") ∪ dirs w) w))
      as F1.
    rewrite He in F1. exists e, w'. split; [|exact F1].
    by apply bind_raise.
Qed.

Lemma save_datasets_preserves_other_files p (datasets : list (string * option DataFrame)) :
  p ∉ output_path <$> datasets.*1 →
  preserves (fun w => files w !! p) (save_datasets datasets).
Proof.
  induction datasets as [|[name [df|]] rest IH]; intros Hp; simpl.
  - apply preserves_ret.
  - rewrite !fmap_cons in Hp. apply not_elem_of_cons in Hp as [Hne Hp].
    apply preserves_bind; [by apply write_file_other|intros _].
    apply preserves_bind; [by intros w0|intros _].
    apply preserves_bind; [by apply IH|intros ?]. apply preserves_ret.
  - rewrite !fmap_cons in Hp. apply not_elem_of_cons in Hp as [Hne Hp].
    apply preserves_bind; [by apply IH|intros ?]. apply preserves_ret.
Qed.

Lemma load_all_names w datasets w' :
  load_all w = (Ok datasets, w') → datasets.*1 = dataset_names.
Proof.
  unfold load_all.
  intros (d1 & w1 & _ & H)%bind_ok_inv.
  apply bind_ok_inv in H as (d2 & w2 & _ & H).
  apply bind_ok_inv in H as (d3 & w3 & _ & H).
  apply bind_ok_inv in H as (d4 & w4 & _ & H).
  apply bind_ok_inv in H as (d5 & w5 & _ & H).
  by injection H as <- _.
Qed.

(** X10. The preparer writes its five CSV files and its manifest and
    nothing else: every other path, the exports it reads among them, holds
    after the run what it held before, however the run ends. *)
Theorem preparer_changes_only_its_outputs (w : World) (p : string) :
  p ∉ output_path <$> dataset_names → p ≠ manifest_path →
  files (prepare_data_for_visualization w).2 !! p = files w !! p.
Proof.
  intros Hp Hm. unfold prepare_data_for_visualization. rewrite bind_run.
  pose proof (makedirs_preserves_files "data/visualization" w) as F0.
  destruct (makedirs "data/visualization" w) as [[[]|e0] w0]; simpl in F0;
    [|simpl; by rewrite F0].
  rewrite bind_run. pose proof (load_all_preserves_files w0) as F1.
  destruct (load_all w0) as [[datasets|e1] w1] eqn:HL; simpl in F1;
    [|simpl; by rewrite F1, F0].
  apply load_all_names in HL.
  rewrite <- F0, <- F1.
  apply (preserves_bind (fun w => files w !! p)).
  - apply save_datasets_preserves_other_files. by rewrite HL.
  - intros ds. frame.
Qed.
End PreparerRuns.

(** ** What the summaries add up to *)

Section Sums.
Context {K : Type} `{EqDecision K}.

Lemma sum_Z_fmap_add (a b : K → Z) (ks : list K) :
  sum_Z ((fun k => a k + b k) <$> ks) = sum_Z (a <$> ks) + sum_Z (b <$> ks).
Proof.
  induction ks as [|k ks IH]; [done|].
  rewrite !fmap_cons. unfold sum_Z in *. simpl. rewrite IH. lia.
Qed.

Lemma sum_Z_zero (ks : list K) : sum_Z ((fun _ => 0) <$> ks) = 0.
Proof. induction ks as [|k ks IH]; [done|]. rewrite fmap_cons. unfold sum_Z in *. simpl. lia. Qed.

(** Only the summand of [k0] counts, once. *)
Lemma sum_Z_indicator (k0 : K) (v : Z) (ks : list K) :
  NoDup ks → k0 ∈ ks →
  sum_Z ((fun k => if decide (k0 = k) then v else 0) <$> ks) = v.
Proof.
  induction ks as [|k ks IH]; intros Hnd Hin; [by apply elem_of_nil in Hin|].
  apply NoDup_cons in Hnd as [Hk Hnd]. rewrite fmap_cons.
  change (sum_Z (?x :: ?l)) with (x + sum_Z l).
  destruct (decide (k0 = k)) as [->|Hne].
  - rewrite (list_fmap_ext _ (fun _ => 0) ks); [rewrite sum_Z_zero; lia|].
    intros i k' Hk'. destruct (decide (k = k')) as [->|]; [|done].
    destruct Hk. by eapply list_elem_of_lookup_2.
  - apply elem_of_cons in Hin as [?|Hin]; [done|]. rewrite IH by done. lia.
Qed.
End Sums.

Section GroupSums.
Context {R K : Type} `{EqDecision K, KeyOrd K}.
Context (key : R → K) (f : R → Z).

Lemma sum_over_keys (ks : list K) (df : list R) :
  NoDup ks → (∀ r, r ∈ df → key r ∈ ks) →
  sum_Z ((fun k => sum_Z (f <$> group key df k)) <$> ks) = sum_Z (f <$> df).
Proof.
  intros Hnd. induction df as [|r df IH]; intros Hin.
  - apply sum_Z_zero.
  - rewrite fmap_cons. change (sum_Z (f r :: ?l)) with (f r + sum_Z l).
    rewrite <- IH by (intros; apply Hin; by right).
    rewrite <- (sum_Z_indicator (key r) (f r) ks Hnd) at 1 by (apply Hin; by left).
    rewrite <- sum_Z_fmap_add. f_equal. apply list_fmap_ext. intros _ k _.
    unfold group. rewrite filter_cons.
    destruct (decide (key r = k)); [by rewrite fmap_cons|done].
Qed.

(** The sums of the groups add up to the sum over the table. *)
Lemma group_sums (df : list R) :
  sum_Z ((fun k => sum_Z (f <$> group key df k)) <$> group_keys key df) =
    sum_Z (f <$> df).
Proof.
  apply sum_over_keys; [apply NoDup_group_keys|].
  intros r Hr. apply elem_of_group_keys. by apply list_elem_of_fmap_2.
Qed.
End GroupSums.

Lemma count_sum {A} (xs : list A) : count xs = sum_Z ((fun _ => 1) <$> xs).
Proof.
  unfold count. induction xs as [|x xs IH]; [done|].
  rewrite fmap_cons. change (sum_Z (1 :: ?l)) with (1 + sum_Z l).
  rewrite <- IH. simpl length. lia.
Qed.

Lemma sum_bool_sum {A} (f : A → bool) (xs : list A) :
  sum_bool (f <$> xs) = sum_Z ((fun x => if f x then 1 else 0) <$> xs).
Proof. unfold sum_bool. by rewrite <- list_fmap_compose. Qed.

Section GroupTotals.
Context {R K T : Type} `{EqDecision K, KeyOrd K}.
Context (key : R → K) (agg : K → list R → T).

(** A column of the summary that sums [f] over each group adds up to the
    sum of [f] over the table. *)
Lemma groupby_agg_total (col : T → Z) (f : R → Z) (df : list R) :
  (∀ k g, col (agg k g) = sum_Z (f <$> g)) →
  sum_Z (col <$> groupby_agg key agg df) = sum_Z (f <$> df).
Proof.
  intros Hcol. unfold groupby_agg. rewrite <- list_fmap_compose.
  rewrite <- (group_sums key f df). f_equal. apply list_fmap_ext.
  intros _ k _. apply Hcol.
Qed.
End GroupTotals.

Lemma count_fmap_sum {A B} (h : A → B) (xs : list A) :
  count (h <$> xs) = sum_Z ((fun _ => 1) <$> xs).
Proof. rewrite <- count_sum. unfold count. by rewrite length_fmap. Qed.

Lemma length_filter_split {A} (P : A → Prop) `{∀ x, Decision (P x)} (l : list A) :
  (length (filter P l) + length (filter (fun x => ¬ P x) l) = length l)%nat.
Proof.
  induction l as [|x l IH]; [done|].
  rewrite !filter_cons. destruct (decide (P x)), (decide (¬ P x)); simpl; try lia; done.
Qed.

Section Totals.
Import process_data direct_processing.

(** X11. Each of the three web summaries accounts for every row of the
    web-log table once: its [total_requests] add up to the number of rows
    and its [error_count] to the number of error rows. *)
Theorem web_summaries_add_up (web_logs : list processed.WebLog.t) :
  let n := Z.of_nat (length web_logs) in
  let e := Z.of_nat (length (filter (fun r => processed.WebLog.is_error r = true)
                               web_logs)) in
  sum_Z (WebTrafficDaily.total_requests <$> web_traffic_daily web_logs) = n ∧
  sum_Z (WebTrafficDaily.error_count <$> web_traffic_daily web_logs) = e ∧
  sum_Z (WebTrafficHourly.total_requests <$> web_traffic_hourly web_logs) = n ∧
  sum_Z (WebTrafficHourly.error_count <$> web_traffic_hourly web_logs) = e ∧
  sum_Z (WebDaily.total_requests <$> web_daily web_logs) = n ∧
  sum_Z (WebDaily.error_count <$> web_daily web_logs) = e.
Proof.
  intros n e. unfold n, e. rewrite <- sum_bool_count, sum_bool_sum.
  change (Z.of_nat (length web_logs)) with (count web_logs).
  rewrite (count_sum web_logs).
  unfold web_traffic_daily, web_traffic_hourly, web_daily.
  repeat split;
    (apply groupby_agg_total; intros k g; cbn;
     first [apply count_fmap_sum | apply sum_bool_sum]).
Qed.

End Totals.

Section Means.
Open Scope Q_scope.

Lemma foldr_Qmin_le (x : Q) (xs : list Q) :
  Forall (fun y => foldr Qmin x xs <= y) (x :: xs).
Proof.
  induction xs as [|a xs IH]; simpl.
  - repeat constructor. apply Qle_refl.
  - inversion IH as [|?? Hx Hxs]; subst. constructor; [|constructor].
    + eapply Qle_trans; [apply Q.le_min_r|exact Hx].
    + apply Q.le_min_l.
    + eapply Forall_impl; [exact Hxs|]. intros y Hy. simpl in Hy.
      eapply Qle_trans; [apply Q.le_min_r|exact Hy].
Qed.

Lemma foldr_Qmax_ge (x : Q) (xs : list Q) :
  Forall (fun y => y <= foldr Qmax x xs) (x :: xs).
Proof.
  induction xs as [|a xs IH]; simpl.
  - repeat constructor. apply Qle_refl.
  - inversion IH as [|?? Hx Hxs]; subst. constructor; [|constructor].
    + eapply Qle_trans; [exact Hx|apply Q.le_max_r].
    + apply Q.le_max_l.
    + eapply Forall_impl; [exact Hxs|]. intros y Hy. simpl in Hy.
      eapply Qle_trans; [exact Hy|apply Q.le_max_r].
Qed.

Lemma sum_Q_bounds (lo hi : Q) (xs : list Q) :
  Forall (fun x => lo <= x ∧ x <= hi) xs →
  inject_Z (count xs) * lo <= sum_Q xs ∧ sum_Q xs <= inject_Z (count xs) * hi.
Proof.
  induction 1 as [|x xs [Hlo Hhi] _ [IHlo IHhi]].
  - change (inject_Z (count [])) with 0. change (sum_Q []) with 0.
    rewrite !Qmult_0_l. split; apply Qle_refl.
  - unfold count in *. simpl length. rewrite Nat2Z.inj_succ, <- Z.add_1_r, inject_Z_plus.
    change (sum_Q (x :: xs)) with (x + sum_Q xs). change (inject_Z 1) with 1.
    set (n := inject_Z (Z.of_nat (length xs))) in *. set (s := sum_Q xs) in *.
    split; lra.
Qed.

(** The mean of a non-empty column lies between any bounds of its
    values. *)
Lemma mean_between (lo hi : Q) (xs : list Q) :
  xs ≠ [] → Forall (fun x => lo <= x ∧ x <= hi) xs →
  ∃ m, mean xs = Some m ∧ lo <= m ∧ m <= hi.
Proof.
  intros Hne Hxs. destruct xs as [|x xs]; [done|].
  eexists. split; [reflexivity|].
  destruct (sum_Q_bounds lo hi (x :: xs) Hxs) as [Hlo Hhi].
  assert (0 < inject_Z (count (x :: xs))) as Hpos.
  { unfold count. simpl length. rewrite <- (Zlt_Qlt 0). lia. }
  rewrite Qred_correct. split.
  - apply Qle_shift_div_l; [exact Hpos|]. lra.
  - apply Qle_shift_div_r; [exact Hpos|]. lra.
Qed.
End Means.

Lemma nunique_bounds {A} `{EqDecision A} (xs : list A) :
  xs ≠ [] → 1 ≤ nunique xs ≤ count xs.
Proof.
  intros Hne. unfold nunique, count. split.
  - destruct (remove_dups xs) as [|y ys] eqn:Hr; [|simpl length; lia].
    destruct xs as [|x xs]; [done|].
    assert (x ∈ remove_dups (x :: xs)) as Hx by (apply elem_of_remove_dups; by left).
    rewrite Hr in Hx. by apply elem_of_nil in Hx.
  - apply inj_le, submseteq_length, NoDup_submseteq; [apply NoDup_remove_dups|].
    intros x. apply elem_of_remove_dups.
Qed.

Section SummaryRows.
Import process_data direct_processing.

Lemma is_active_of_frame raw sensor_data r :
  sensor_frame raw = Ok sensor_data → r ∈ sensor_data →
  processed.SensorReading.is_active r = true ↔ processed.SensorReading.status r = "active".
Proof.
  intros Hdf Hr. destruct (mapM_ok_elem _ _ _ _ Hdf Hr) as (x & _ & Hx).
  apply sensor_row_ok in Hx as (-> & _ & -> & _). apply String.eqb_eq.
Qed.

(** X13. In the daily sensor summary of a processed sensor table, a row
    counts the readings of its date, sensor type and location; of these,
    [active_readings] are those with status [active] and [error_readings]
    all the others, whatever their status. *)
Theorem sensor_error_readings_are_the_inactive
    (raw : list collect_data.SensorReading.t)
    (sensor_data : list processed.SensorReading.t) (row : SensorReadingsDaily.t) :
  sensor_frame raw = Ok sensor_data →
  row ∈ sensor_readings_daily sensor_data →
  let g := filter (fun r => sensor_key r =
                     (SensorReadingsDaily.date row, SensorReadingsDaily.sensor_type row,
                      SensorReadingsDaily.location row)) sensor_data in
  g ≠ [] ∧
  SensorReadingsDaily.reading_count row = Z.of_nat (length g) ∧
  SensorReadingsDaily.active_readings row =
    Z.of_nat (length (filter (fun r => processed.SensorReading.status r = "active") g)) ∧
  SensorReadingsDaily.error_readings row =
    Z.of_nat (length (filter (fun r => processed.SensorReading.status r ≠ "active") g)) ∧
  SensorReadingsDaily.reading_count row =
    SensorReadingsDaily.active_readings row + SensorReadingsDaily.error_readings row.
Proof.
  intros Hdf (k & Hk & ->)%elem_of_groupby_agg. cbn.
  rewrite <- !surjective_pairing. fold sensor_key in Hk |- *.
  change (filter (fun r => sensor_key r = k) sensor_data)
    with (group sensor_key sensor_data k).
  set (g := group sensor_key sensor_data k).
  assert (sum_bool (processed.SensorReading.is_active <$> g) =
          Z.of_nat (length (filter (fun r => processed.SensorReading.status r = "active") g)))
    as Hact.
  { rewrite sum_bool_count. do 2 f_equal. apply filter_ext_in.
    intros r Hr. apply (is_active_of_frame raw sensor_data); [done|].
    by apply list_elem_of_filter in Hr as [_ Hr]. }
  pose proof (length_filter_split
                (fun r => processed.SensorReading.status r = "active") g) as Hsplit.
  split; [by apply group_nonempty|].
  rewrite Hact. unfold count. rewrite length_fmap. repeat split; lia.
Qed.


End SummaryRows.

(** ** The order of the summaries *)

Section KeyOrders.

Lemma string_leb_spec (s1 s2 : string) :
  String.leb s1 s2 = true ↔ String.compare s1 s2 = Lt ∨ s1 = s2.
Proof.
  unfold String.leb. destruct (String.compare s1 s2) eqn:Hc.
  - apply String.compare_eq_iff in Hc. tauto.
  - tauto.
  - split; [done|]. intros [?| ->]; [done|].
    assert (String.compare s2 s2 = Eq) as He by (by apply OrderedTypeEx.String_as_OT.cmp_eq).
    congruence.
Qed.

#[export] Instance string_key_order : KeyOrder string.
Proof.
  split.
  - intros a b c. unfold key_le, key_leb, string_ord. rewrite !string_leb_spec.
    intros [Hab| ->] [Hbc| ->]; try tauto. left.
    apply OrderedTypeEx.String_as_OT.cmp_lt.
    eapply OrderedTypeEx.String_as_OT.lt_trans;
      by apply OrderedTypeEx.String_as_OT.cmp_lt.
  - intros a b. apply String.leb_total.
  - intros a b. apply String.leb_antisym.
Qed.

#[export] Instance Z_key_order : KeyOrder Z.
Proof.
  split.
  - intros a b c. unfold key_le, key_leb, Z_ord. rewrite !Z.leb_le. lia.
  - intros a b. unfold key_le, key_leb, Z_ord. rewrite !Z.leb_le. lia.
  - intros a b. unfold key_le, key_leb, Z_ord. rewrite !Z.leb_le. lia.
Qed.

#[export] Instance pair_key_order {A B} `{EqDecision A, KeyOrder A, KeyOrder B} :
  KeyOrder (A * B).
Proof.
  split.
  - intros [a1 b1] [a2 b2] [a3 b3]. unfold key_le, key_leb, pair_ord. simpl.
    destruct (decide (a1 = a2)) as [->|N12], (decide (a2 = a3)) as [->|N23].
    + rewrite ?decide_True by done. apply (@key_le_trans B _ _).
    + rewrite ?decide_False by done. by intros _ ?.
    + rewrite ?decide_False by done. by intros ? _.
    + destruct (decide (a1 = a3)) as [->|N13].
      * intros Hx Hy. destruct N12. by apply (@key_le_antisym A _ _).
      * apply (@key_le_trans A _ _).
  - intros [a1 b1] [a2 b2]. unfold key_le, key_leb, pair_ord. simpl.
    destruct (decide (a1 = a2)) as [->|Hne].
    + rewrite decide_True by done. apply (@key_le_total B _ _).
    + rewrite decide_False by done. apply (@key_le_total A _ _).
  - intros [a1 b1] [a2 b2]. unfold key_le, key_leb, pair_ord. simpl.
    destruct (decide (a1 = a2)) as [->|Hne].
    + rewrite decide_True by done. intros Hx Hy. f_equal.
      by apply (@key_le_antisym B _ _).
    + rewrite decide_False by done. intros Hx Hy. destruct Hne.
      by apply (@key_le_antisym A _ _).
Qed.

(** The strict order on text is the comparison of Python on [str], and on
    pairs it is the lexicographic order. *)
Lemma key_lt_string (s1 s2 : string) : key_lt s1 s2 ↔ String.ltb s1 s2 = true.
Proof.
  unfold key_lt, key_le, key_leb, string_ord. rewrite string_leb_spec.
  unfold String.ltb. split.
  - intros [[->| ->] Hne]; done.
  - destruct (String.compare s1 s2) eqn:Hc; try done. intros _. split; [by left|].
    intros ->.
    assert (String.compare s2 s2 = Eq) as He by (by apply OrderedTypeEx.String_as_OT.cmp_eq).
    congruence.
Qed.

Lemma key_lt_pair {A B} `{EqDecision A, KeyOrd A, KeyOrd B} (a1 a2 : A) (b1 b2 : B) :
  key_lt (a1, b1) (a2, b2) ↔ key_lt a1 a2 ∨ (a1 = a2 ∧ key_lt b1 b2).
Proof.
  unfold key_lt, key_le, key_leb at 1, pair_ord. simpl.
  destruct (decide (a1 = a2)) as [->|Hne].
  - split.
    + intros [Hle Hne]. right. split; [done|]. split; [done|]. congruence.
    + intros [[_ ?]|[_ [Hle Hne]]]; [done|]. split; [done|]. congruence.
  - split.
    + intros [Hle _]. by left.
    + intros [[Hle _]|[? _]]; [|done]. split; [done|]. congruence.
Qed.
End KeyOrders.

Section SortedGroups.
Context {R K T : Type} `{EqDecision K, KeyOrder K}.
Context (key : R → K) (agg : K → list R → T).

Lemma StronglySorted_strict (l : list K) :
  StronglySorted key_le l → NoDup l → StronglySorted key_lt l.
Proof.
  induction 1 as [|k l Hl IH Hk]; intros Hnd; [constructor|].
  apply NoDup_cons in Hnd as [Hnin Hnd]. constructor; [by apply IH|].
  apply Forall_forall. intros k' Hk'. split.
  - by apply (proj1 (Forall_forall _ _) Hk).
  - by intros ->.
Qed.

Lemma group_keys_sorted (df : list R) : StronglySorted key_lt (group_keys key df).
Proof.
  apply StronglySorted_strict; [|apply NoDup_group_keys].
  unfold group_keys.
  apply (@StronglySorted_merge_sort _ key_le _ key_le_trans key_le_total).
Qed.

(** The rows of a summary are in the strict order of their keys. *)
Lemma groupby_agg_sorted (proj : T → K) (df : list R) :
  (∀ k g, proj (agg k g) = k) →
  StronglySorted (fun a b => key_lt (proj a) (proj b)) (groupby_agg key agg df).
Proof.
  intros Hproj. unfold groupby_agg.
  apply (StronglySorted_fmap _ key_lt); [|apply group_keys_sorted].
  intros k1 k2. by rewrite !Hproj.
Qed.
End SortedGroups.

Section SortedJoin.
Context {L R K T : Type} `{EqDecision K, KeyOrd K}.
Context (lkey : L → K) (rkey : R → K) (tkey : T → K) (row : L → R → T).

(** The join keeps the order of the left table. *)
Lemma merge_sorted (left : list L) (right : list R) :
  (∀ l r, tkey (row l r) = lkey l) →
  StronglySorted (fun a b => key_lt (lkey a) (lkey b)) left →
  NoDup (rkey <$> right) →
  StronglySorted (fun a b => key_lt (tkey a) (tkey b)) (merge lkey rkey row left right).
Proof.
  intros Hrow Hleft Hnd. induction Hleft as [|l left Hleft IH Hl]; [constructor|].
  unfold merge in *. rewrite bind_cons.
  pose proof (filter_unique_key rkey right (lkey l) Hnd) as Hlen.
  destruct (filter (fun r => rkey r = lkey l) right) as [|r [|r' rs]].
  - exact IH.
  - simpl. constructor; [exact IH|].
    apply Forall_forall. intros t Ht.
    apply (elem_of_merge lkey rkey row) in Ht as (l' & r' & Hl' & _ & _ & ->).
    rewrite !Hrow. by apply (proj1 (Forall_forall _ _) Hl).
  - by destruct (decide _).
Qed.
End SortedJoin.

Section SortedSummaries.
Import process_data direct_processing.

(** X16. Every summary table lists its groups in the ascending order of
    their keys, each key once: by date alone, or by date and then by the
    other key columns.  The join keeps the order of the daily web summary,
    and so does the placeholder table. *)
Theorem summaries_are_in_key_order
    (web_logs : list processed.WebLog.t) (social_data : list processed.SocialPost.t)
    (sensor_data : list processed.SensorReading.t) :
  StronglySorted
    (fun a b => key_lt (WebTrafficDaily.date a, WebTrafficDaily.endpoint a)
                       (WebTrafficDaily.date b, WebTrafficDaily.endpoint b))
    (web_traffic_daily web_logs) ∧
  StronglySorted
    (fun a b => key_lt (WebTrafficHourly.date a, WebTrafficHourly.hour a)
                       (WebTrafficHourly.date b, WebTrafficHourly.hour b))
    (web_traffic_hourly web_logs) ∧
  StronglySorted
    (fun a b => key_lt (SocialEngagementDaily.date a, SocialEngagementDaily.platform a,
                        SocialEngagementDaily.category a)
                       (SocialEngagementDaily.date b, SocialEngagementDaily.platform b,
                        SocialEngagementDaily.category b))
    (social_engagement_daily social_data) ∧
  StronglySorted
    (fun a b => key_lt (SensorReadingsDaily.date a, SensorReadingsDaily.sensor_type a,
                        SensorReadingsDaily.location a)
                       (SensorReadingsDaily.date b, SensorReadingsDaily.sensor_type b,
                        SensorReadingsDaily.location b))
    (sensor_readings_daily sensor_data) ∧
  StronglySorted (fun a b => key_lt (WebDaily.date a) (WebDaily.date b))
    (web_daily web_logs) ∧
  StronglySorted (fun a b => key_lt (SocialDaily.date a) (SocialDaily.date b))
    (social_daily social_data) ∧
  StronglySorted (fun a b => key_lt (Correlation.date a) (Correlation.date b))
    (inner_join (web_daily web_logs) (social_daily social_data)) ∧
  StronglySorted (fun a b => key_lt (Correlation.date a) (Correlation.date b))
    (dummy_correlation (web_daily web_logs)) ∧
  (∀ s1 s2 : string, key_lt s1 s2 ↔ String.ltb s1 s2 = true) ∧
  (∀ x1 x2 : Z, key_lt x1 x2 ↔ x1 < x2) ∧
  (∀ (s1 s2 : string) (x1 x2 : Z),
     key_lt (s1, x1) (s2, x2) ↔ key_lt s1 s2 ∨ (s1 = s2 ∧ key_lt x1 x2)) ∧
  (∀ s1 s2 t1 t2 : string,
     key_lt (s1, t1) (s2, t2) ↔ key_lt s1 s2 ∨ (s1 = s2 ∧ key_lt t1 t2)) ∧
  (∀ s1 s2 t1 t2 u1 u2 : string,
     key_lt (s1, t1, u1) (s2, t2, u2) ↔
     key_lt s1 s2 ∨ (s1 = s2 ∧ key_lt t1 t2) ∨ (s1 = s2 ∧ t1 = t2 ∧ key_lt u1 u2)).
Proof.
  assert (StronglySorted (fun a b => key_lt (WebDaily.date a) (WebDaily.date b))
            (web_daily web_logs)) as Hweb.
  { unfold web_daily. by apply groupby_agg_sorted. }
  split_and!.
  - unfold web_traffic_daily.
    apply (groupby_agg_sorted _ _
             (fun a => (WebTrafficDaily.date a, WebTrafficDaily.endpoint a))).
    by intros [] ?.
  - unfold web_traffic_hourly.
    apply (groupby_agg_sorted _ _
             (fun a => (WebTrafficHourly.date a, WebTrafficHourly.hour a))).
    by intros [] ?.
  - unfold social_engagement_daily.
    apply (groupby_agg_sorted _ _
             (fun a => (SocialEngagementDaily.date a, SocialEngagementDaily.platform a,
                        SocialEngagementDaily.category a))).
    by intros [[] ] ?.
  - unfold sensor_readings_daily.
    apply (groupby_agg_sorted _ _
             (fun a => (SensorReadingsDaily.date a, SensorReadingsDaily.sensor_type a,
                        SensorReadingsDaily.location a))).
    by intros [[] ] ?.
  - exact Hweb.
  - unfold social_daily. by apply groupby_agg_sorted.
  - unfold inner_join. apply merge_sorted; [done|exact Hweb|].
    rewrite social_daily_dates. apply NoDup_group_keys.
  - unfold dummy_correlation.
    apply (StronglySorted_fmap _ (fun a b => key_lt (WebDaily.date a) (WebDaily.date b)));
      [done|exact Hweb].
  - apply key_lt_string.
  - intros x1 x2. unfold key_lt, key_le, key_leb, Z_ord. rewrite Z.leb_le. lia.
  - intros. apply key_lt_pair.
  - intros. apply key_lt_pair.
  - intros. rewrite key_lt_pair, key_lt_pair. split.
    + intros [[?|[? ?]]|[[= ? ?] ?]]; tauto.
    + intros [?|[[? ?]|(? & ? & ?)]]; subst; tauto.
Qed.
End SortedSummaries.

(** ** The columns of the preparer *)

Section Assign.
Import prepare_for_visualization.

Lemma index_of_None (name : label) (cols : list label) :
  index_of name cols = None ↔ name ∉ cols.
Proof.
  induction cols as [|c cols IH]; simpl.
  - split; [intros _; apply not_elem_of_nil|done].
  - destruct (decide (c = name)) as [->|Hne].
    + split; [done|]. intros H. destruct H. by left.
    + rewrite not_elem_of_cons. destruct (index_of name cols); simpl.
      * split; [done|]. intros [_ H]. by apply IH in H.
      * split; [|done]. intros _. split; [done|]. by apply IH.
Qed.

Lemma index_of_Some (name : label) (cols : list label) :
  name ∈ cols → ∃ i, index_of name cols = Some i ∧ (i < length cols)%nat.
Proof.
  induction cols as [|c cols IH]; intros Hin; [by apply elem_of_nil in Hin|].
  simpl. destruct (decide (c = name)) as [->|Hne].
  - exists O. split; [done|]. lia.
  - apply elem_of_cons in Hin as [?|Hin]; [done|].
    destruct (IH Hin) as (i & -> & Hi). exists (S i). split; [done|]. lia.
Qed.

Lemma index_of_app (name : label) (cols more : list label) (i : nat) :
  index_of name cols = Some i → index_of name (cols ++ more) = Some i.
Proof.
  revert i. induction cols as [|c cols IH]; intros i; simpl; [done|].
  destruct (decide (c = name)); [done|].
  destruct (index_of name cols) as [j|]; simpl; [|done].
  intros [= <-]. by rewrite (IH j).
Qed.

Lemma assign_new (name : label) (f : list Cell → Cell) (df : DataFrame) :
  name ∉ columns df →
  assign name f df =
    mkFrame (columns df ++ [name]) ((fun r => r ++ [f r]) <$> rows df).
Proof. intros H%index_of_None. unfold assign. by rewrite H. Qed.

(** The cell of a column that was there before columns were appended. *)
Lemma cell_at_appended (name : label) (cols more : list label) (rs rs' : list (list Cell))
    (r extra : list Cell) :
  name ∈ cols → length r = length cols →
  cell_at name (mkFrame (cols ++ more) rs') (r ++ extra) =
    cell_at name (mkFrame cols rs) r.
Proof.
  intros (i & Hi & Hlt)%index_of_Some Hr. unfold cell_at. simpl.
  rewrite (index_of_app _ _ _ _ Hi), Hi. by rewrite lookup_app_l by lia.
Qed.
End Assign.

Section Clean.
Import prepare_for_visualization.

Lemma clean_rows_dated (name : string) (cols : list label) (rs : list (list Cell)) :
  (∀ c, c ∈ calendar_columns ++ [LStr "dataset_type"] → c ∉ cols) →
  LStr "date" ∈ cols →
  clean name (mkFrame cols rs) =
    assign (LStr "dataset_type") (fun _ => CStr name)
      (add_calendar (mkFrame cols rs)) ∧
  columns (add_calendar (mkFrame cols rs)) = cols ++ calendar_columns.
Proof.
  intros Hnew Hdate. split.
  - unfold clean, has_column. simpl columns. by rewrite bool_decide_true.
  - unfold add_calendar. cbv zeta.
    rewrite (assign_new (LStr "date_str")) by (apply Hnew; set_solver).
    simpl columns. simpl rows.
    rewrite (assign_new (LStr "year")).
    2:{ simpl. rewrite elem_of_app, list_elem_of_singleton.
        intros [H|H]; [|discriminate]. revert H. apply Hnew. set_solver. }
    simpl columns. simpl rows.
    rewrite (assign_new (LStr "month")).
    2:{ simpl. rewrite !elem_of_app, !list_elem_of_singleton.
        intros [[H|H]|H]; [|discriminate..]. revert H. apply Hnew. set_solver. }
    simpl columns. simpl rows.
    rewrite (assign_new (LStr "day")).
    2:{ simpl. rewrite !elem_of_app, !list_elem_of_singleton.
        intros [[[H|H]|H]|H]; [|discriminate..]. revert H. apply Hnew. set_solver. }
    simpl columns. simpl rows.
    rewrite (assign_new (LStr "day_of_week")).
    2:{ simpl. rewrite !elem_of_app, !list_elem_of_singleton.
        intros [[[[H|H]|H]|H]|H]; [|discriminate..]. revert H. apply Hnew. set_solver. }
    simpl columns. by rewrite <- !(assoc_L (++)).
Qed.

(** The columns of a cleaned frame that had a [date] column. *)
Lemma clean_columns_dated (name : string) (df : DataFrame) :
  (∀ c, c ∈ calendar_columns ++ [LStr "dataset_type"] → c ∉ columns df) →
  LStr "date" ∈ columns df →
  columns (clean name df) = columns df ++ calendar_columns ++ [LStr "dataset_type"].
Proof.
  intros Hnew Hdate. destruct df as [cols rs]. simpl in *.
  destruct (clean_rows_dated name cols rs Hnew Hdate) as [-> Hcols].
  rewrite assign_new; rewrite Hcols.
  - simpl. by rewrite <- (assoc_L (++)).
  - rewrite elem_of_app. intros [H|H]; revert H.
    + apply Hnew. set_solver.
    + apply (bool_decide_unpack _). vm_compute. exact I.
Qed.

(** X17. Cleaning a frame that has a [date] column appends the five calendar
    columns, computed from the date of each row, and then the dataset
    name; a frame without a [date] column gets the dataset name alone.
    The columns and cells the frame had are kept as they were. *)
Theorem clean_appends_its_columns (name : string) (df : DataFrame) :
  (∀ c, c ∈ calendar_columns ++ [LStr "dataset_type"] → c ∉ columns df) →
  Forall (fun r => length r = length (columns df)) (rows df) →
  Forall (fun r => is_datetime (cell_at (LStr "date") df r)) (rows df) →
  (LStr "date" ∈ columns df →
     columns (clean name df) =
       columns df ++ calendar_columns ++ [LStr "dataset_type"] ∧
     rows (clean name df) =
       (fun r => r ++ calendar_cells (cell_at (LStr "date") df r) ++ [CStr name])
         <$> rows df) ∧
  (LStr "date" ∉ columns df →
     columns (clean name df) = columns df ++ [LStr "dataset_type"] ∧
     rows (clean name df) = (fun r => r ++ [CStr name]) <$> rows df).
Proof.
  intros Hnew Hwidth _. destruct df as [cols rs]. simpl in *. split.
  - intros Hdate. unfold clean, has_column. simpl columns.
    rewrite bool_decide_true by done. unfold add_calendar. cbv zeta.
    assert (∀ c, c ∈ calendar_columns ++ [LStr "dataset_type"] → c ≠ LStr "date") as Hnd.
    { intros c Hc ->. by apply (Hnew _ Hc). }
    rewrite (assign_new (LStr "date_str")) by (apply Hnew; set_solver).
    simpl columns. simpl rows.
    rewrite (assign_new (LStr "year")).
    2:{ simpl. rewrite elem_of_app, list_elem_of_singleton.
        intros [H|H]; [|discriminate]. revert H. apply Hnew. set_solver. }
    simpl columns. simpl rows.
    rewrite (assign_new (LStr "month")).
    2:{ simpl. rewrite !elem_of_app, !list_elem_of_singleton.
        intros [[H|H]|H]; [|discriminate..]. revert H. apply Hnew. set_solver. }
    simpl columns. simpl rows.
    rewrite (assign_new (LStr "day")).
    2:{ simpl. rewrite !elem_of_app, !list_elem_of_singleton.
        intros [[[H|H]|H]|H]; [|discriminate..]. revert H. apply Hnew. set_solver. }
    simpl columns. simpl rows.
    rewrite (assign_new (LStr "day_of_week")).
    2:{ simpl. rewrite !elem_of_app, !list_elem_of_singleton.
        intros [[[[H|H]|H]|H]|H]; [|discriminate..]. revert H. apply Hnew. set_solver. }
    simpl columns. simpl rows.
    rewrite (assign_new (LStr "dataset_type")).
    2:{ simpl. rewrite !elem_of_app, !list_elem_of_singleton.
        intros [[[[[H|H]|H]|H]|H]|H]; [|discriminate..]. revert H. apply Hnew. set_solver. }
    simpl columns. simpl rows. split.
    + by rewrite <- !(assoc_L (++)).
    + rewrite <- !list_fmap_compose. apply Forall_fmap_ext_1.
      eapply Forall_impl; [exact Hwidth|]. intros r Hr. unfold compose, calendar_cells.
      rewrite <- !(assoc_L (++)).
      rewrite !(cell_at_appended (LStr "date") cols _ rs _ r _ Hdate Hr).
      reflexivity.
  - intros Hdate. unfold clean, has_column. simpl columns.
    rewrite bool_decide_false by done.
    rewrite (assign_new (LStr "dataset_type")) by (apply Hnew; set_solver).
    done.
Qed.
End Clean.

Section PreparerCompletes.
Import prepare_for_visualization direct_processing.

Lemma print_preserves_clock line : preserves clock (print line).
Proof. by intros w. Qed.

Lemma write_file_preserves_clock p f : preserves clock (write_file p f).
Proof.
  intros w. unfold write_file. destruct (is_dir p w); [done|]. by destruct (_ && _).
Qed.

Lemma save_datasets_preserves_dirs datasets : preserves dirs (save_datasets datasets).
Proof.
  induction datasets as [|[name [df|]] rest IH]; simpl.
  - apply preserves_ret.
  - apply preserves_bind; [apply write_file_preserves_dirs|intros _].
    apply preserves_bind; [apply print_preserves_dirs|intros _].
    apply preserves_bind; [apply IH|intros ?]. apply preserves_ret.
  - apply preserves_bind; [apply IH|intros ?]. apply preserves_ret.
Qed.

Lemma save_datasets_preserves_clock datasets : preserves clock (save_datasets datasets).
Proof.
  induction datasets as [|[name [df|]] rest IH]; simpl.
  - apply preserves_ret.
  - apply preserves_bind; [apply write_file_preserves_clock|intros _].
    apply preserves_bind; [apply print_preserves_clock|intros _].
    apply preserves_bind; [apply IH|intros ?]. apply preserves_ret.
  - apply preserves_bind; [apply IH|intros ?]. apply preserves_ret.
Qed.

(** The first loop returns when the output directory is there and no
    directory has the name of an output file. *)
Lemma save_datasets_returns (datasets : list (string * option DataFrame)) w :
  (∀ name, name ∈ datasets.*1 →
     is_dir (output_path name) w = false ∧
     is_dir (dirname (output_path name)) w = true) →
  returns (save_datasets datasets) w.
Proof.
  revert w. induction datasets as [|[name [df|]] rest IH]; intros w Hok; simpl.
  - apply ret_returns.
  - destruct (Hok name) as [Hp Hd]; [by left|].
    unfold returns. erewrite bind_ok; [|by apply write_file_ok].
    erewrite bind_ok; [|reflexivity].
    destruct (IH (printed ("Saved " +:+ name +:+ " data to " +:+ output_path name)
                    (set_files (<[output_path name := Csv (clean name df)]> (files w)) w)))
      as (ds & w' & Hrest).
    { intros n Hn. apply (Hok n). by right. }
    rewrite (bind_ok _ _ _ _ _ Hrest). by eexists _, _.
  - destruct (IH w) as (ds & w' & Hrest).
    { intros n Hn. apply (Hok n). by right. }
    unfold returns. rewrite (bind_ok _ _ _ _ _ Hrest). by eexists _, _.
Qed.

Lemma load_all_exported (w : World) (loaded : aggregate → DataFrame) :
  (∀ a, load_data (load_path a) default_filename w = (Ok (Some (loaded a)), w)) →
  load_all w =
    (Ok ((fun a => (dataset_name a, Some (loaded a))) <$> all_aggregates), w).
Proof.
  intros H. unfold load_all.
  erewrite bind_ok; [|apply (H AggWebTrafficByEndpoint)].
  erewrite bind_ok; [|apply (H AggWebTrafficHourly)].
  erewrite bind_ok; [|apply (H AggSocialEngagement)].
  erewrite bind_ok; [|apply (H AggSensorReadings)].
  erewrite bind_ok; [|apply (H AggCorrelationData)].
  reflexivity.
Qed.

Lemma dataset_names_of_aggregates : dataset_name <$> all_aggregates = dataset_names.
Proof. reflexivity. Qed.

End PreparerCompletes.

(** ** The generator *)

Section Yields.
Import Random GenSpec.
Context (Inv : Source → Prop) (HI : lasting Inv).

Lemma yields_ret {A} (a : A) (P : A → Prop) : P a → yields Inv (mret a) P.
Proof. by intros Ha s Hs. Qed.

Lemma yields_bind {A B} (m : Gen A) (f : A → Gen B) (P : A → Prop) (Q : B → Prop) :
  yields Inv m P → (∀ a, P a → yields Inv (f a) Q) → yields Inv (m ≫= f) Q.
Proof.
  intros Hm Hf s Hs. unfold mbind, Gen_bind. destruct (Hm s Hs) as [Ha Hs'].
  destruct (m s) as [a s']. by apply Hf.
Qed.

Lemma yields_fmap {A B} (m : Gen A) (f : A → B) (P : A → Prop) (Q : B → Prop) :
  yields Inv m P → (∀ a, P a → Q (f a)) → yields Inv (f <$> m) Q.
Proof.
  intros Hm Hf s Hs. unfold fmap, Gen_fmap. destruct (Hm s Hs) as [Ha Hs'].
  destruct (m s) as [a s']. simpl in *. auto.
Qed.

Lemma yields_weaken {A} (m : Gen A) (P Q : A → Prop) :
  yields Inv m P → (∀ a, P a → Q a) → yields Inv m Q.
Proof. intros Hm HPQ s Hs. destruct (Hm s Hs). auto. Qed.

Lemma yields_next (P : Draw → Prop) :
  (∀ s, Inv s → P (s O)) → yields Inv next P.
Proof. intros HP s Hs. split; [by apply HP|by apply HI]. Qed.

Lemma yields_randbelow (n : Z) : 0 < n → yields Inv (randbelow n) (fun k => 0 ≤ k < n).
Proof.
  intros Hn. unfold randbelow. eapply yields_bind; [by apply (yields_next (fun _ => True))|].
  intros d _. apply yields_ret. by apply Z.mod_pos_bound.
Qed.

Lemma yields_random : yields Inv random (fun u => (0 <= u)%Q ∧ (u < 1)%Q).
Proof.
  unfold random. eapply yields_bind; [by apply (yields_next (fun _ => True))|].
  intros d _. apply yields_ret.
  pose proof (Z.mod_pos_bound (number d) 9007199254740992 ltac:(lia)).
  unfold Qle, Qlt. simpl. lia.
Qed.

Lemma yields_uniform (a b : Q) :
  (a <= b)%Q → yields Inv (uniform a b) (fun x => (a <= x)%Q ∧ (x <= b)%Q).
Proof.
  intros Hab. unfold uniform. eapply yields_bind; [apply yields_random|].
  intros u [H0 H1]. apply yields_ret.
  assert (0 <= (b - a) * u)%Q by (apply Qmult_le_0_compat; lra).
  assert (0 <= (b - a) * (1 - u))%Q by (apply Qmult_le_0_compat; lra).
  split; lra.
Qed.

Lemma yields_randint (a b : Z) :
  a ≤ b → yields Inv (randint a b) (collect_data.randint a b).
Proof.
  intros Hab. unfold randint. eapply yields_bind; [apply yields_randbelow; lia|].
  intros k Hk. cbv beta in Hk. apply yields_ret. unfold collect_data.randint. lia.
Qed.

Lemma yields_choice {A} (seq : list A) (default : A) :
  seq ≠ [] → yields Inv (choice seq default) (fun x => x ∈ seq).
Proof.
  intros Hne. unfold choice.
  eapply yields_bind; [apply yields_randbelow; destruct seq; [done|simpl; lia]|].
  intros k Hk. cbv beta in Hk. apply yields_ret.
  apply list_elem_of_In, nth_In. lia.
Qed.

Lemma yields_made_up : yields Inv Faker.made_up (fun _ => True).
Proof.
  unfold Faker.made_up. eapply yields_bind; [by apply (yields_next (fun _ => True))|].
  intros d _. by apply yields_ret.
Qed.

Lemma yields_repeatedly {A} (row : Gen A) (P : A → Prop) (n : nat) :
  yields Inv row P →
  yields Inv (repeatedly n row) (fun rows => length rows = n ∧ Forall P rows).
Proof.
  intros Hrow. induction n as [|n IH]; simpl.
  - by apply yields_ret.
  - eapply yields_bind; [exact Hrow|]. intros r Hr.
    eapply yields_bind; [exact IH|]. intros rs [Hlen Hrs].
    apply yields_ret. simpl. split; [by rewrite Hlen|by constructor].
Qed.
End Yields.

Section Rounding.
Import Random GenSpec.

Lemma round_half_even_between (L H : Z) (q : Q) :
  (inject_Z L <= q)%Q → (q <= inject_Z H)%Q →
  L ≤ round_half_even q ≤ H.
Proof.
  destruct q as [n d]. unfold Qle, round_half_even. simpl.
  rewrite !Z.mul_1_r. intros HL HH.
  pose proof (Z.div_mod n (Z.pos d) ltac:(lia)) as Hdm.
  pose proof (Z.mod_pos_bound n (Z.pos d) ltac:(lia)) as Hr.
  set (f := n / Z.pos d) in *. set (r := n mod Z.pos d) in *.
  assert (L ≤ f) by nia.
  assert (f ≤ H) by nia.
  destruct (Z.compare_spec (2 * r) (Z.pos d)) as [He|Hlt|Hgt].
  - destruct (Z.even f); [lia|]. split; [lia|]. nia.
  - lia.
  - split; [lia|]. nia.
Qed.

(** Rounding keeps a value within bounds that have as many decimals as
    it rounds to. *)
Lemma round_between (L H : Z) (x : Q) (ndigits : nat) :
  let p := Z.to_pos (10 ^ Z.of_nat ndigits) in
  (L # p <= x)%Q → (x <= H # p)%Q →
  (L # p <= round x ndigits)%Q ∧ (round x ndigits <= H # p)%Q.
Proof.
  intros p HL HH. unfold round. fold p.
  assert (Z.pos p = 10 ^ Z.of_nat ndigits) as Hp.
  { unfold p. rewrite Z2Pos.id; [done|]. apply Z.pow_pos_nonneg; lia. }
  destruct (round_half_even_between L H (x * inject_Z (10 ^ Z.of_nat ndigits))) as [H1 H2].
  - rewrite <- Hp. destruct x as [n d]. unfold Qle in *. simpl in *. nia.
  - rewrite <- Hp. destruct x as [n d]. unfold Qle in *. simpl in *. nia.
  - unfold Qle. simpl. split; nia.
Qed.
End Rounding.

Section GeneratedRows.
Import Random GenSpec Faker data_collection.

Lemma yields_rounded (Inv : Source → Prop) (a b : Q) (L H : Z) (ndigits : nat) :
  lasting Inv → (a <= b)%Q →
  a == L # Z.to_pos (10 ^ Z.of_nat ndigits) →
  b == H # Z.to_pos (10 ^ Z.of_nat ndigits) →
  yields Inv ((fun x => round x ndigits) <$> uniform a b)
    (fun v => (a <= v)%Q ∧ (v <= b)%Q).
Proof.
  intros HI Hab Ha Hb. eapply yields_fmap; [by apply yields_uniform|].
  intros x [Hlo Hhi]. rewrite Ha in Hlo. rewrite Hb in Hhi.
  destruct (round_between L H x ndigits Hlo Hhi) as [H1 H2].
  rewrite Ha, Hb. by split.
Qed.

Lemma yields_sensor_value (Inv : Source → Prop) (sensor_type : string) :
  lasting Inv → sensor_type ∈ sensor_types →
  yields Inv (sensor_value sensor_type) (value_in_range sensor_type).
Proof.
  intros HI Hin. unfold sensor_types in Hin.
  repeat (apply elem_of_cons in Hin as [->|Hin]); [..|by apply elem_of_nil in Hin];
    unfold sensor_value; cbn [String.eqb Ascii.eqb Bool.eqb andb].
  - eapply yields_weaken; [by apply (yields_rounded Inv 18 28 180 280 1)|].
    intros v [Hlo Hhi]. unfold value_in_range. repeat split; intros; try discriminate; done.
  - eapply yields_weaken; [by apply (yields_rounded Inv 30 70 300 700 1)|].
    intros v [Hlo Hhi]. unfold value_in_range. repeat split; intros; try discriminate; done.
  - eapply yields_weaken; [by apply (yields_rounded Inv 980 1020 9800 10200 1)|].
    intros v [Hlo Hhi]. unfold value_in_range. repeat split; intros; try discriminate; done.
  - eapply yields_weaken; [by apply (yields_rounded Inv 200 800 200 800 0)|].
    intros v [Hlo Hhi]. unfold value_in_range. repeat split; intros; try discriminate; done.
  - eapply yields_weaken; [by apply (yields_rounded Inv 400 1200 400 1200 0)|].
    intros v [Hlo Hhi]. unfold value_in_range. repeat split; intros; try discriminate; done.
Qed.
End GeneratedRows.

Section TimestampText.
Import Random GenSpec.

Lemma append_assoc (a b c : string) : (a +:+ b) +:+ c = a +:+ (b +:+ c).
Proof. induction a as [|x a IH]; [done|]. unfold String.append in *. simpl. by rewrite IH. Qed.

Lemma read_time_str (t : Timestamp) :
  valid_timestamp t = true →
  read_time (time_str t) = Some (hour t, minute t, second t).
Proof.
  intros Hv. pose proof (proj1 (valid_timestamp_spec t) Hv) as (_ & _ & _ & Hh & Hmi & Hs).
  unfold read_time, time_str.
  rewrite read_two_digits by lia. cbn [mbind option_bind].
  rewrite read_char_append. cbn [mbind option_bind].
  rewrite read_two_digits by lia. cbn [mbind option_bind].
  rewrite read_char_append. cbn [mbind option_bind].
  rewrite read_two_digits_end by lia. cbn [mbind option_bind].
  repeat f_equal; lia.
Qed.

(** The text of a timestamp reads back as that timestamp. *)
Lemma parse_timestamp_str (t : Timestamp) :
  valid_timestamp t = true → parse_timestamp (timestamp_str t) = Some t.
Proof.
  intros Hv. pose proof (proj1 (valid_timestamp_spec t) Hv) as (Hy & Hm & Hd & _).
  pose proof (days_in_month_bound (year t) (month t)).
  unfold parse_timestamp, timestamp_str, date_str.
  rewrite !append_assoc.
  rewrite read_four_digits by lia. cbn [mbind option_bind].
  rewrite read_char_append. cbn [mbind option_bind].
  rewrite read_two_digits by lia. cbn [mbind option_bind].
  rewrite read_char_append. cbn [mbind option_bind].
  rewrite read_two_digits by lia. cbn [mbind option_bind].
  change (" " +:+ time_str t) with (String " " (time_str t)).
  cbn [Ascii.eqb Bool.eqb orb andb].
  rewrite read_time_str by done. cbn [mbind option_bind].
  replace (100 * 0 + month t) with (month t) by lia.
  replace (100 * 0 + day t) with (day t) by lia.
  destruct t as [y m d h mi se]. simpl in *. by rewrite Hv.
Qed.

Lemma to_datetime_timestamp_str (t : Timestamp) :
  valid_timestamp t = true → to_datetime (timestamp_str t) = Ok t.
Proof. intros Hv. unfold to_datetime. by rewrite parse_timestamp_str. Qed.
End TimestampText.

Section RowSpecs.
Import Random GenSpec Faker data_collection process_data.
Context (Inv : Source → Prop) (HI : lasting Inv).
Context (T : Timestamp → Prop) (HT : ∀ s, Inv s → T (moment (s O))).

Lemma yields_date_time_between : yields Inv date_time_between (fun t => T t.1).
Proof.
  unfold date_time_between. eapply yields_bind; [by apply (yields_next Inv HI (fun d => T (moment d)))|].
  intros d Hd. by apply yields_ret.
Qed.

Lemma yields_strftime :
  yields Inv (strftime <$> date_time_between) (fun text => ∃ t, T t ∧ text = timestamp_str t).
Proof.
  eapply yields_fmap; [apply yields_date_time_between|].
  intros [t us] Ht. by exists t.
Qed.

Lemma yields_sensor_reading :
  yields Inv sensor_reading (fun r =>
    (∃ t, T t ∧ collect_data.SensorReading.timestamp r = timestamp_str t) ∧
    (∃ k, 1000 ≤ k ≤ 9999 ∧ collect_data.SensorReading.sensor_id r = "SENS-" +:+ pretty k) ∧
    collect_data.SensorReading.sensor_type r ∈ sensor_types ∧
    collect_data.SensorReading.location r ∈ locations ∧
    value_in_range (collect_data.SensorReading.sensor_type r)
      (collect_data.SensorReading.value r) ∧
    collect_data.generated_battery_level (collect_data.SensorReading.battery_level r) ∧
    collect_data.SensorReading.status r ∈ ["active"; "error"]).
Proof.
  unfold sensor_reading.
  eapply yields_bind; [apply yields_strftime|]. intros timestamp Hts.
  eapply yields_bind; [by apply (yields_randint Inv HI 1000 9999)|]. intros k Hk.
  eapply yields_bind; [by apply (yields_choice Inv HI sensor_types)|]. intros st Hst.
  eapply yields_bind; [by apply (yields_choice Inv HI locations)|]. intros loc Hloc.
  eapply yields_bind; [by apply (yields_sensor_value Inv st HI)|]. intros v Hv.
  eapply yields_bind; [by apply (yields_randint Inv HI 10 100)|]. intros b Hb.
  eapply yields_bind; [by apply (yields_random Inv HI)|]. intros u Hu.
  apply yields_ret. simpl. split_and!; try done.
  - by exists k.
  - destruct (Qgtb u (5 # 100)); [by left|by right; left].
Qed.

Lemma yields_social_post :
  yields Inv social_post (fun p =>
    collect_data.generated_counts p ∧
    collect_data.SocialPost.sentiment p ∈ sentiments ∧
    collect_data.SocialPost.category p ∈ categories ∧
    collect_data.SocialPost.platform p ∈ platforms).
Proof.
  unfold social_post.
  eapply yields_bind; [by apply (yields_made_up Inv HI)|]. intros post_id _.
  eapply yields_bind; [by apply (yields_made_up Inv HI)|]. intros user_handle _.
  eapply yields_bind;
    [by apply (yields_fmap Inv _ _ (fun t => T t.1) (fun _ => True));
        [apply yields_date_time_between|]|].
  intros timestamp _.
  eapply yields_bind; [by apply (yields_made_up Inv HI)|]. intros content _.
  eapply yields_bind; [by apply (yields_randint Inv HI 0 1000)|]. intros likes Hl.
  eapply yields_bind; [by apply (yields_randint Inv HI 0 200)|]. intros shares Hs.
  eapply yields_bind; [by apply (yields_randint Inv HI 0 50)|]. intros comments Hc.
  eapply yields_bind; [by apply (yields_choice Inv HI sentiments)|]. intros sentiment Hse.
  eapply yields_bind; [by apply (yields_choice Inv HI categories)|]. intros category Hca.
  eapply yields_bind; [by apply (yields_choice Inv HI platforms)|]. intros platform Hpl.
  apply yields_ret. by split_and!.
Qed.

Lemma yields_web_log_entry :
  yields Inv web_log_entry (fun r =>
    (∃ t, T t ∧ collect_data.WebLog.timestamp r = timestamp_str t) ∧
    collect_data.WebLog.method r ∈ http_methods ∧
    collect_data.WebLog.endpoint r ∈ pages ∧
    collect_data.WebLog.status_code r ∈ status_codes ∧
    ((1 # 10) <= collect_data.WebLog.response_time r)%Q ∧
    (collect_data.WebLog.response_time r <= 2)%Q).
Proof.
  unfold web_log_entry.
  eapply yields_bind; [apply yields_strftime|]. intros timestamp Hts.
  eapply yields_bind; [by apply (yields_made_up Inv HI)|]. intros ip _.
  eapply yields_bind; [by apply (yields_random Inv HI)|]. intros u _.
  eapply (yields_bind Inv _ _ (fun _ => True)).
  { destruct (Qgtb u (3 # 10)); [|by apply yields_ret].
    eapply yields_bind; [by apply (yields_made_up Inv HI)|]. intros uuid _.
    eapply yields_weaken; [by apply (yields_choice Inv HI [None; Some uuid])|]. done. }
  intros user_id _.
  eapply yields_bind; [by apply (yields_choice Inv HI http_methods)|]. intros method Hm.
  eapply yields_bind; [by apply (yields_choice Inv HI pages)|]. intros endpoint He.
  eapply yields_bind; [by apply (yields_choice Inv HI status_codes)|]. intros status Hst.
  eapply yields_bind; [by apply (yields_rounded Inv (1 # 10) 2 100 2000 3)|].
  intros rt [Hlo Hhi].
  eapply yields_bind; [by apply (yields_made_up Inv HI)|]. intros ua _.
  apply yields_ret. by split_and!.
Qed.
End RowSpecs.

Section Generated.
Import Random GenSpec Faker data_collection process_data.

Lemma any_lasting : lasting (fun _ => True).
Proof. done. Qed.

Lemma plausible_lasting : lasting plausible.
Proof. intros s Hs i. apply (Hs (S i)). Qed.

(** X19. Whatever the random source holds, [generate_sensor_data] draws as
    many readings as it is asked for, each with a battery level from 10 to
    100, a status that is [active] or [error], a sensor type and a
    location of the lists of the script, an identifier [SENS-] followed by
    a number from 1000 to 9999, and a value within the range of its sensor
    type. *)
Theorem generated_sensor_readings_are_in_range (num_entries : nat) (s : Source) :
  let rows := (repeatedly num_entries sensor_reading s).1 in
  length rows = num_entries ∧
  Forall (fun r =>
    (∃ k, 1000 ≤ k ≤ 9999 ∧
          collect_data.SensorReading.sensor_id r = "SENS-" +:+ pretty k) ∧
    collect_data.SensorReading.sensor_type r ∈ sensor_types ∧
    collect_data.SensorReading.location r ∈ locations ∧
    value_in_range (collect_data.SensorReading.sensor_type r)
      (collect_data.SensorReading.value r) ∧
    collect_data.generated_battery_level (collect_data.SensorReading.battery_level r) ∧
    collect_data.SensorReading.status r ∈ ["active"; "error"]) rows.
Proof.
  intros rows.
  destruct (yields_repeatedly (fun _ => True) sensor_reading _ num_entries
              (yields_sensor_reading (fun _ => True) any_lasting (fun _ => True)
                 (fun _ _ => Logic.I)) s Logic.I) as [[Hlen Hrows] _].
  split; [exact Hlen|].
  eapply Forall_impl; [exact Hrows|]. intros r Hr. simpl in Hr. tauto.
Qed.

(** X20. Whatever the random source holds, the log entries drawn by
    [generate_web_logs] are as many as asked for; each has a method, an
    endpoint and a status code of the lists of the script and a response
    time from 0.1 to 2.0. *)
Theorem generated_web_logs_are_in_range (num_entries : nat) (s : Source) :
  let rows := (repeatedly num_entries web_log_entry s).1 in
  length rows = num_entries ∧
  Forall (fun r =>
    collect_data.WebLog.method r ∈ http_methods ∧
    collect_data.WebLog.endpoint r ∈ pages ∧
    collect_data.WebLog.status_code r ∈ status_codes ∧
    ((1 # 10) <= collect_data.WebLog.response_time r)%Q ∧
    (collect_data.WebLog.response_time r <= 2)%Q) rows.
Proof.
  intros rows.
  destruct (yields_repeatedly (fun _ => True) web_log_entry _ num_entries
              (yields_web_log_entry (fun _ => True) any_lasting (fun _ => True)
                 (fun _ _ => Logic.I)) s Logic.I) as [[Hlen Hrows] _].
  split; [exact Hlen|].
  eapply Forall_impl; [exact Hrows|]. intros r Hr. simpl in Hr. tauto.
Qed.

Lemma sentiment_map_of_sentiments (x : string) :
  x ∈ sentiments → ∃ z, sentiment_map x = Some z ∧ -1 ≤ z ≤ 1.
Proof.
  unfold sentiments. rewrite !elem_of_cons, elem_of_nil.
  intros [->|[->|[->|[]]]]; eexists; (split; [reflexivity|lia]).
Qed.

End Generated.

Section Collected.
Import Random GenSpec Faker data_collection process_data.

Lemma battery_categorised (x : Z) :
  collect_data.generated_battery_level x → is_Some (cut battery_bins battery_labels x).
Proof.
  intros [Hlo Hhi]. rewrite battery_cut.
  destruct (Z.ltb_spec 0 x), (Z.leb_spec x 20), (Z.ltb_spec 20 x), (Z.leb_spec x 50),
    (Z.ltb_spec 50 x), (Z.leb_spec x 80), (Z.ltb_spec 80 x), (Z.leb_spec x 100);
    simpl; try (by eexists); lia.
Qed.

Lemma plausible_moment (s : Source) : plausible s → valid_timestamp (moment (s O)) = true.
Proof. intros Hs. apply (Hs O). Qed.

(** X22. From a source whose moments are valid datetimes with a four-digit
    year, the log entries and the sensor readings drawn by the generator
    are processed without a failure, row for row: every timestamp written
    with [strftime] is read back by the processor.  The processed web rows
    are errors exactly for the status codes 400, 403, 404 and 500, and
    every processed sensor row has a battery category. *)
Theorem generated_logs_and_readings_are_processed (num_entries : nat) (s : Source) :
  plausible s →
  (∃ df, web_logs_frame (repeatedly num_entries web_log_entry s).1 = Ok df ∧
     length df = num_entries ∧
     Forall (fun p =>
       (processed.WebLog.is_error p = true ↔
          processed.WebLog.status_code p ∈ [400; 403; 404; 500]) ∧
       0 ≤ processed.WebLog.hour p ≤ 23) df) ∧
  (∃ df, sensor_frame (repeatedly num_entries sensor_reading s).1 = Ok df ∧
     length df = num_entries ∧
     Forall (fun p =>
       is_Some (processed.SensorReading.battery_category p) ∧
       (processed.SensorReading.is_active p = false ↔
          processed.SensorReading.status p = "error") ∧
       0 ≤ processed.SensorReading.hour p ≤ 23) df).
Proof.
  intros Hs. split.
  - destruct (yields_repeatedly plausible web_log_entry _ num_entries
                (yields_web_log_entry plausible plausible_lasting
                   (fun t => valid_timestamp t = true) plausible_moment) s Hs)
      as [[Hlen Hrows] _].
    destruct (mapM_total web_logs_row (repeatedly num_entries web_log_entry s).1)
      as (df & Hdf & Hlen').
    { eapply Forall_impl; [exact Hrows|]. intros r ((t & Ht & Hr) & _).
      unfold web_logs_row. rewrite Hr, to_datetime_timestamp_str by done.
      by eexists. }
    exists df. split; [exact Hdf|]. split; [by rewrite Hlen'|].
    apply Forall_forall. intros p Hp.
    destruct (mapM_ok_elem _ _ _ _ Hdf Hp) as (r & Hr & Hrow).
    destruct (proj1 (Forall_forall _ _) Hrows r Hr)
      as ((t & Ht & Htext) & _ & _ & Hst & _).
    apply web_logs_row_ok in Hrow as (t' & Ht' & ->). simpl.
    rewrite Htext, to_datetime_timestamp_str in Ht' by done. injection Ht' as <-.
    split.
    + unfold status_codes in Hst. rewrite !elem_of_cons, elem_of_nil in *.
      rewrite Z.geb_le. split; [intros Hge|intros Hin]; lia.
    + apply valid_timestamp_spec in Ht. lia.
  - destruct (yields_repeatedly plausible sensor_reading _ num_entries
                (yields_sensor_reading plausible plausible_lasting
                   (fun t => valid_timestamp t = true) plausible_moment) s Hs)
      as [[Hlen Hrows] _].
    destruct (mapM_total sensor_row (repeatedly num_entries sensor_reading s).1)
      as (df & Hdf & Hlen').
    { eapply Forall_impl; [exact Hrows|]. intros r ((t & Ht & Hr) & _).
      unfold sensor_row. rewrite Hr, to_datetime_timestamp_str by done.
      by eexists. }
    exists df. split; [exact Hdf|]. split; [by rewrite Hlen'|].
    apply Forall_forall. intros p Hp.
    destruct (mapM_ok_elem _ _ _ _ Hdf Hp) as (r & Hr & Hrow).
    destruct (proj1 (Forall_forall _ _) Hrows r Hr)
      as ((t & Ht & Htext) & _ & _ & _ & _ & Hb & Hst).
    pose proof (sensor_row_ok _ _ Hrow) as (Hstatus & Hlevel & Hactive & Hcat).
    unfold sensor_row in Hrow.
    rewrite Htext, to_datetime_timestamp_str in Hrow by done.
    split; [|split].
    + rewrite Hcat. by apply battery_categorised.
    + rewrite Hactive, Hstatus. rewrite !elem_of_cons, elem_of_nil in Hst.
      destruct Hst as [->|[->|[]]]; simpl; split; done.
    + injection Hrow as <-. cbn [processed.SensorReading.hour].
      apply valid_timestamp_spec in Ht. lia.
Qed.
End Collected.

Section Collection.
Import Random GenSpec Faker data_collection.

Lemma repeatedly_length {A} (row : Gen A) (n : nat) (s : Source) :
  length (repeatedly n row s).1 = n.
Proof.
  revert s. induction n as [|n IH]; intros s; [done|].
  simpl. unfold mbind, Gen_bind. destruct (row s) as [r s1].
  specialize (IH s1). destruct (repeatedly n row s1) as [rs s2]. simpl in *.
  by rewrite IH.
Qed.

Lemma generate_web_logs_ok (n : nat) (s : Source) (w : World) :
  is_dir log_file w = false → is_dir "data/raw/logs" w = true →
  generate_web_logs n s w =
    (Ok (repeatedly n web_log_entry s).2,
     printed ("Generated " +:+ pretty (Z.of_nat n) +:+ " web log entries in " +:+ log_file)
       (set_files (<[log_file := WebAccessLogs (repeatedly n web_log_entry s).1]> (files w)) w)).
Proof.
  intros Hf Hd. unfold generate_web_logs.
  destruct (repeatedly n web_log_entry s) as [rows s1].
  by erewrite bind_ok; [|by apply write_file_ok].
Qed.

Lemma generate_social_data_ok (n : nat) (s : Source) (w : World) :
  is_dir social_file w = false → is_dir "data/raw/social" w = true →
  generate_social_data n s w =
    (Ok (repeatedly n social_post s).2,
     printed ("Generated " +:+ pretty (Z.of_nat n) +:+ " social media entries in "
              +:+ social_file)
       (set_files (<[social_file := SocialData (repeatedly n social_post s).1]> (files w)) w)).
Proof.
  intros Hf Hd. unfold generate_social_data.
  destruct (repeatedly n social_post s) as [rows s1].
  by erewrite bind_ok; [|by apply write_file_ok].
Qed.

Lemma generate_sensor_data_ok (n : nat) (s : Source) (w : World) :
  is_dir sensor_file w = false → is_dir "data/raw/logs" w = true →
  generate_sensor_data n s w =
    (Ok (repeatedly n sensor_reading s).2,
     printed ("Generated " +:+ pretty (Z.of_nat n) +:+ " sensor data entries in "
              +:+ sensor_file)
       (set_files (<[sensor_file := SensorData (repeatedly n sensor_reading s).1]> (files w)) w)).
Proof.
  intros Hf Hd. unfold generate_sensor_data.
  destruct (repeatedly n sensor_reading s) as [rows s1].
  by erewrite bind_ok; [|by apply write_file_ok].
Qed.

Lemma made_directories (w : World) (p : string) :
  is_dir p
    (set_dirs (list_to_set (ancestors "data/raw/social") ∪
               dirs (set_dirs (list_to_set (ancestors "data/raw/logs") ∪ dirs w) w))
       (set_dirs (list_to_set (ancestors "data/raw/logs") ∪ dirs w) w)) =
  bool_decide (p ∈ ["data"; "data/raw"; "data/raw/social"])
  || (bool_decide (p ∈ ["data"; "data/raw"; "data/raw/logs"]) || is_dir p w).
Proof. by rewrite !is_dir_created. Qed.

Lemma collection_run (n1 n2 n3 : nat) (s : Source) (w : World) :
  returns (makedirs "data/raw/logs") w →
  returns (makedirs "data/raw/social") w →
  is_dir log_file w = false →
  is_dir social_file w = false →
  is_dir sensor_file w = false →
  ∃ w',
    (makedirs "data/raw/logs" ;;
     makedirs "data/raw/social" ;;
     print "Starting data collection and generation..." ;;
     s ← generate_web_logs n1 s;
     s ← generate_social_data n2 s;
     _ ← generate_sensor_data n3 s;
     print "Data collection and generation completed.") w = (Ok tt, w') ∧
    files w' =
      <[sensor_file :=
          SensorData (repeatedly n3 sensor_reading
                        (repeatedly n2 social_post
                           (repeatedly n1 web_log_entry s).2).2).1]>
        (<[social_file :=
             SocialData (repeatedly n2 social_post (repeatedly n1 web_log_entry s).2).1]>
           (<[log_file := WebAccessLogs (repeatedly n1 web_log_entry s).1]> (files w))).
Proof.
  intros Hl Hs Hlf Hsf Hnf.
  apply mkdirs_returns_inv in Hl. apply mkdirs_returns_inv in Hs.
  pose proof (mkdirs_ok "data/raw/logs" (ancestors "data/raw/logs") w Hl) as H1.
  pose proof (made_directories w) as Hdir.
  set (w1 := set_dirs (list_to_set (ancestors "data/raw/logs") ∪ dirs w) w) in H1, Hdir.
  pose proof (mkdirs_ok "data/raw/social" (ancestors "data/raw/social") w1 Hs) as H2.
  set (w2 := set_dirs (list_to_set (ancestors "data/raw/social") ∪ dirs w1) w1) in H2, Hdir.
  set (w3 := printed "Starting data collection and generation..." w2).
  assert (∀ p, is_dir p w3 = is_dir p w2) as H3 by done.
  set (web := repeatedly n1 web_log_entry s).
  set (social := repeatedly n2 social_post web.2).
  set (sensor := repeatedly n3 sensor_reading social.2).
  pose proof (generate_web_logs_ok n1 s w3) as G1. fold web in G1.
  rewrite !H3, !Hdir, Hlf in G1. specialize (G1 eq_refl eq_refl).
  set (w4 := printed _ _) in G1.
  pose proof (generate_social_data_ok n2 web.2 w4) as G2. fold social in G2.
  change (is_dir ?p w4) with (is_dir p w3) in G2.
  rewrite !H3, !Hdir, Hsf in G2. specialize (G2 eq_refl eq_refl).
  set (w5 := printed _ _) in G2.
  pose proof (generate_sensor_data_ok n3 social.2 w5) as G3. fold sensor in G3.
  change (is_dir ?p w5) with (is_dir p w3) in G3.
  rewrite !H3, !Hdir, Hnf in G3. specialize (G3 eq_refl eq_refl).
  set (w6 := printed _ _) in G3.
  exists (printed "Data collection and generation completed." w6). split.
  - unfold makedirs.
    rewrite (bind_ok _ _ _ _ _ H1), (bind_ok _ _ _ _ _ H2).
    rewrite bind_run. cbn [print fst snd]. fold w3.
    rewrite (bind_ok _ _ _ _ _ G1), (bind_ok _ _ _ _ _ G2), (bind_ok _ _ _ _ _ G3).
    reflexivity.
  - reflexivity.
Qed.

(** X23. Where nothing is in the way of the two directories and the three
    files, the collector returns, having written the 2000 web log entries,
    the 1000 posts and the 3000 sensor readings, drawn in this order, to
    the three files that process_data.py reads. *)
Theorem collection_writes_the_raw_files (s : Source) (w : World) :
  returns (makedirs "data/raw/logs") w →
  returns (makedirs "data/raw/social") w →
  is_dir log_file w = false →
  is_dir social_file w = false →
  is_dir sensor_file w = false →
  let web := repeatedly 2000 web_log_entry s in
  let social := repeatedly 1000 social_post web.2 in
  let sensor := repeatedly 3000 sensor_reading social.2 in
  ∃ w', data_collection.main s w = (Ok tt, w') ∧
    files w' =
      <[sensor_file := SensorData sensor.1]>
        (<[social_file := SocialData social.1]>
           (<[log_file := WebAccessLogs web.1]> (files w))) ∧
    (length web.1 = 2000 ∧ length social.1 = 1000 ∧ length sensor.1 = 3000)%nat ∧
    log_file = process_data.web_input_file ∧
    social_file = process_data.social_input_file ∧
    sensor_file = process_data.sensor_input_file.
Proof.
  intros Hl Hs Hlf Hsf Hnf web social sensor.
  destruct (collection_run 2000 1000 3000 s w Hl Hs Hlf Hsf Hnf) as (w' & Hrun & Hfiles).
  exists w'. split; [exact Hrun|]. split; [exact Hfiles|].
  split; [|split; [|split]].
  - split; [|split]; apply repeatedly_length.
  - reflexivity.
  - reflexivity.
  - reflexivity.
Qed.
End Collection.

(** ** The theorems on the sample data *)

Import process_data direct_processing prepare_for_visualization.

Lemma export_load_roundtrip_on_samples :
  ∃ loaded,
    load_data (load_path AggCorrelationData) default_filename Samples.exported_world
      = (Ok (Some loaded), Samples.exported_world) ∧
    len loaded = 1%nat ∧
    columns loaded = assigned_columns AggCorrelationData.
Proof.
  destruct (export_load_roundtrip
              Samples.web_access_logs Samples.social_data Samples.sensor_data
              Samples.web_logs Samples.social_posts Samples.sensor_readings
              Samples.processed_world Samples.exported_world AggCorrelationData)
    as (_ & loaded & Hload & Hlen & Hcols & _); [vm_compute; reflexivity ..|].
  exists loaded. split; [exact Hload|]. split; [|exact Hcols].
  rewrite Hlen. vm_compute. reflexivity.
Defined.

Lemma daily_traffic_on_samples :
  ∃ row, row ∈ web_traffic_daily Samples.web_logs ∧
    WebTrafficDaily.date row = "2024-01-01" ∧
    WebTrafficDaily.endpoint row = "/home" ∧
    WebTrafficDaily.total_requests row = 2 ∧
    WebTrafficDaily.error_count row = 1.
Proof.
  destruct (daily_traffic_counts_requests_and_errors
              Samples.web_access_logs Samples.web_logs) as (_ & _ & _ & H);
    [vm_compute; reflexivity|].
  refine (H _ _ _ _ _); vm_compute; reflexivity.
Defined.

Lemma correlation_on_samples :
  length (inner_join (web_daily Samples.web_logs) (social_daily Samples.social_posts))
    = 1%nat.
Proof.
  destruct (correlation_is_inner_join_on_date
              Samples.web_logs Samples.social_posts Samples.processed_world)
    as (_ & _ & _ & _ & _ & H).
  apply H; vm_compute; reflexivity.
Defined.

Lemma join_failure_on_samples :
  length (dummy_correlation (web_daily Samples.web_logs)) = 2%nat ∧
  ∃ w', process_data_directly (Samples.join_failure Samples.processed_world) = (Ok tt, w') ∧
    files w' !! export_file AggCorrelationData =
      Some (Headerless (Correlation.cells <$> dummy_correlation (web_daily Samples.web_logs))).
Proof.
  destruct (join_failure_yields_placeholder
              (web_daily Samples.web_logs) (social_daily Samples.social_posts)
              (Samples.join_failure Samples.processed_world)
              "You are trying to merge on object and float64 columns")
    as (_ & Hlen & _ & _ & H); [reflexivity|].
  split; [rewrite Hlen; vm_compute; reflexivity|].
  apply (H Samples.web_logs Samples.social_posts Samples.sensor_readings);
    [vm_compute; reflexivity .. |].
  split; vm_compute; repeat constructor.
Defined.

Lemma sensor_flags_on_samples :
  ∃ p, p ∈ Samples.sensor_readings ∧
    processed.SensorReading.battery_level p = 20 ∧
    processed.SensorReading.battery_category p = Some "critical" ∧
    processed.SensorReading.is_active p = true.
Proof.
  eexists. split; [vm_compute; apply list_elem_of_here|].
  split; [reflexivity|].
  edestruct (sensor_flags_follow_status_and_battery
               Samples.sensor_data Samples.sensor_readings) as (Ha & Hc & _);
    [vm_compute; reflexivity | vm_compute; apply list_elem_of_here
    | vm_compute; split; discriminate |].
  split; [apply Hc; vm_compute; discriminate | apply Ha; reflexivity].
Defined.


Lemma anonymous_on_samples :
  Forall2 (fun r p =>
    (collect_data.WebLog.user_id r = None →
       processed.WebLog.user_id p = "anonymous") ∧
    (∀ u, collect_data.WebLog.user_id r = Some u →
       processed.WebLog.user_id p = u)) Samples.web_access_logs Samples.web_logs.
Proof.
  apply missing_user_id_becomes_anonymous. vm_compute. reflexivity.
Defined.

Lemma processing_exceptions_on_samples :
  returns main Samples.no_sensor_world ∧
  ∃ w', process_sensor_data Samples.no_sensor_world = (Ok false, w').
Proof.
  destruct (processing_exceptions_are_caught Samples.no_sensor_world)
    as (_ & (a & b & c & w1 & w2 & w3 & _ & _ & _ & _ & Hret) & _ & _ & Hsensor & _);
    [eexists _, _; vm_compute; reflexivity|].
  split; [exact Hret|].
  eexists. apply Hsensor. vm_compute. reflexivity.
Defined.

Lemma upload_skipped_on_samples :
  commands (main Samples.no_sensor_world).2 = commands Samples.no_sensor_world.
Proof.
  pose (w0 := printed "Starting data processing..." Samples.no_sensor_world).
  pose (w1 := (process_web_logs w0).2).
  pose (w2 := (process_social_data w1).2).
  pose (w3 := (process_sensor_data w2).2).
  apply (upload_needs_three_successes Samples.no_sensor_world w1 w2 w3 true true false);
    vm_compute; reflexivity.
Defined.

Lemma omission_on_samples :
  ∃ m, files (prepare_data_for_visualization Samples.no_sensor_export).2 !! manifest_path
         = Some (Json m) ∧
       Manifest.datasets m !! "sensor" = None ∧
       files (prepare_data_for_visualization Samples.no_sensor_export).2
         !! output_path "sensor" = None.
Proof.
  destruct (unloaded_datasets_are_omitted Samples.no_sensor_export
              (prepare_data_for_visualization Samples.no_sensor_export).2)
    as (w0 & w1 & w2 & w3 & w4 & w5 & d1 & d2 & d3 & d4 & d5 & m & H0 & H1 & H2 & H3
        & H4 & _ & Hm & Hall); [vm_compute; reflexivity|].
  pose proof (f_equal snd H0) as E0. cbn [snd] in E0. subst w0.
  pose proof (f_equal snd H1) as E1. cbn [snd] in E1. subst w1.
  pose proof (f_equal snd H2) as E2. cbn [snd] in E2. subst w2.
  pose proof (f_equal snd H3) as E3. cbn [snd] in E3. subst w3.
  pose proof (f_equal fst H4) as E4. cbn [fst] in E4. vm_compute in E4.
  injection E4 as <-.
  destruct (Hall "sensor" None) as (Hfile & Hentry).
  { do 3 right. left. }
  exists m. split; [exact Hm|]. split; [exact Hentry|].
  rewrite Hfile. vm_compute. reflexivity.
Defined.

Lemma upload_runs_on_samples :
  ∃ w', upload_to_hdfs Samples.empty_world = (Ok true, w') ∧ length (commands w') = 9%nat.
Proof.
  destruct (upload_runs_every_command_in_order Samples.empty_world)
    as (w' & Hrun & Hc & Hlist & _).
  { intros cmd _. reflexivity. }
  exists w'. split; [exact Hrun|]. rewrite Hc, Hlist. reflexivity.
Defined.


Lemma processing_keeps_the_raw_logs_on_samples :
  files (main Samples.raw_world).2 !! web_input_file =
    Some (WebAccessLogs Samples.web_access_logs).
Proof.
  rewrite (processing_changes_only_its_outputs Samples.raw_world web_input_file).
  - vm_compute. reflexivity.
  - intros H. vm_compute in H. discriminate H.
  - intros H. vm_compute in H. discriminate H.
  - intros H. vm_compute in H. discriminate H.
Defined.


Lemma sensor_error_readings_on_samples :
  ∃ row, row ∈ sensor_readings_daily Samples.sensor_readings ∧
    SensorReadingsDaily.date row = "2024-01-01" ∧
    SensorReadingsDaily.reading_count row = 2 ∧
    SensorReadingsDaily.active_readings row = 1 ∧
    SensorReadingsDaily.error_readings row = 1.
Proof.
  eexists. split; [vm_compute; apply list_elem_of_here|].
  split; [reflexivity|].
  edestruct (sensor_error_readings_are_the_inactive
               Samples.sensor_data Samples.sensor_readings)
    as (_ & Hn & Ha & He & _);
    [vm_compute; reflexivity | vm_compute; apply list_elem_of_here |].
  split; [rewrite Hn; vm_compute; reflexivity|].
  split; [rewrite Ha; vm_compute; reflexivity|].
  rewrite He. vm_compute. reflexivity.
Defined.



Lemma missing_processed_file_on_samples :
  ∃ e w', process_data_directly Samples.raw_world = (Ok tt, w') ∧
    files w' = files Samples.raw_world ∧
    stdout w' = ["Starting direct data processing...";
                 "Error loading data: " +:+ exn_str e].
Proof.
  destruct (missing_processed_file_ends_the_aggregation Samples.raw_world web_output_file)
    as (e & w' & Hrun & Hf & Hout).
  - apply list_elem_of_here.
  - vm_compute. reflexivity.
  - eexists _, _. vm_compute. reflexivity.
  - eexists _, _. vm_compute. reflexivity.
  - exists e, w'. split; [exact Hrun|]. split; [exact Hf|]. exact Hout.
Defined.

Lemma aggregation_keeps_the_processed_logs_on_samples :
  files (process_data_directly Samples.processed_world).2 !! web_output_file =
    Some (WebLogsProcessed Samples.web_logs).
Proof.
  rewrite (aggregation_changes_only_its_exports Samples.processed_world web_output_file).
  - vm_compute. reflexivity.
  - apply (bool_decide_unpack _). vm_compute. exact I.
Defined.

Lemma load_data_fallback_on_samples :
  is_file (path_join (load_path AggSensorReadings) "part-00000") Samples.exported_world
    = false ∧
  entries (load_path AggSensorReadings) Samples.exported_world = ["000000_0"] ∧
  returns (load_data (load_path AggSensorReadings) "part-00000") Samples.exported_world.
Proof.
  destruct (load_data_falls_back_to_the_directory
              (load_path AggSensorReadings) "part-00000" Samples.exported_world)
    as (_ & _ & H); [vm_compute; reflexivity ..|].
  split; [vm_compute; reflexivity|]. split; [vm_compute; reflexivity|].
  apply (H "000000_0" []); vm_compute; reflexivity.
Defined.

Lemma missing_export_directory_on_samples :
  ∃ e w', prepare_data_for_visualization Samples.processed_world = (Raise e, w') ∧
    files w' = files Samples.processed_world.
Proof.
  apply (missing_export_directory_aborts_the_preparer
           Samples.processed_world AggWebTrafficByEndpoint); vm_compute; reflexivity.
Defined.

Lemma preparer_keeps_the_exports_on_samples :
  files (prepare_data_for_visualization Samples.exported_world).2
    !! export_file AggCorrelationData =
  files Samples.exported_world !! export_file AggCorrelationData.
Proof.
  apply (preparer_changes_only_its_outputs
           Samples.exported_world (export_file AggCorrelationData)).
  - apply (bool_decide_unpack _). vm_compute. exact I.
  - intros H. vm_compute in H. discriminate H.
Defined.

Lemma clean_on_samples :
  columns (clean "web_traffic" Samples.dated_frame) =
    [LStr "date"; LStr "total_requests"; LStr "date_str"; LStr "year"; LStr "month";
     LStr "day"; LStr "day_of_week"; LStr "dataset_type"] ∧
  rows (clean "web_traffic" Samples.dated_frame) =
    [[CTime (mkTimestamp 2024 1 1 0 0 0); CInt 2; CStr "2024-01-01"; CInt 2024; CInt 1;
      CInt 1; CStr "Monday"; CStr "web_traffic"];
     [CNaN; CInt 1; CNaN; CNaN; CNaN; CNaN; CNaN; CStr "web_traffic"]].
Proof.
  destruct (clean_appends_its_columns "web_traffic" Samples.dated_frame) as [H _].
  - intros c Hc Hin. vm_compute in Hin.
    repeat (apply elem_of_cons in Hin as [->|Hin]);
      [| |by apply elem_of_nil in Hin];
      repeat (apply elem_of_cons in Hc as [Hc|Hc]; [discriminate Hc|]);
      by apply elem_of_nil in Hc.
  - repeat constructor.
  - repeat constructor.
  - destruct H as [Hc Hr]; [apply list_elem_of_here|].
    rewrite Hc, Hr. split; reflexivity.
Defined.


Lemma generated_rows_are_processed_on_samples :
  GenSpec.plausible Samples.source ∧
  ∃ df, web_logs_frame (Random.repeatedly 2 data_collection.web_log_entry Samples.source).1
          = Ok df ∧ length df = 2%nat.
Proof.
  assert (GenSpec.plausible Samples.source) as Hs.
  { intros i. split; [reflexivity|]. simpl. lia. }
  split; [exact Hs|].
  destruct (generated_logs_and_readings_are_processed 2 Samples.source Hs)
    as [(df & Hdf & Hlen & _) _].
  exists df. split; [exact Hdf|exact Hlen].
Defined.

Lemma collection_on_samples :
  ∃ w', data_collection.main Samples.source Samples.empty_world = (Ok tt, w') ∧
    is_Some (files w' !! web_input_file) ∧
    is_Some (files w' !! social_input_file) ∧
    is_Some (files w' !! sensor_input_file).
Proof.
  destruct (collection_writes_the_raw_files Samples.source Samples.empty_world)
    as (w' & Hrun & Hfiles & _ & Hw & Hs & Hn).
  - eexists _, _. vm_compute. reflexivity.
  - eexists _, _. vm_compute. reflexivity.
  - vm_compute. reflexivity.
  - vm_compute. reflexivity.
  - vm_compute. reflexivity.
  - exists w'. split; [exact Hrun|]. rewrite Hfiles, <- Hw, <- Hs, <- Hn.
    split; [|split].
    + rewrite lookup_insert_ne, lookup_insert_ne, lookup_insert_eq; [by eexists|..];
        intros H; vm_compute in H; discriminate H.
    + rewrite lookup_insert_ne, lookup_insert_eq; [by eexists|];
        intros H; vm_compute in H; discriminate H.
    + rewrite lookup_insert_eq. by eexists.
Defined.
